(** * EFRIS transport envelope: padding, AES-ECB codec, envelopes, session key

    A shallow embedding of [CryptoUtils] (utils/crypto) and [KeyClient]
    (src/key_client.ts) of the URA EFRIS SDK, and the properties of the
    specification that concern them; and, around them, of
    [TimeUtils.validateTimeSync], of [BaseClient.send] with its table of
    interfaces, and of the two methods of [Client] that manage the session
    key, with properties read off the code (numbered X1, X2, ...).

    Conventions of the embedding.
    - A [Buffer] is a list of bytes.  JavaScript numbers that index or measure
      buffers, and clock readings, are integers, modelled in [Z]; [%] is
      [Z.rem].
    - A JavaScript string is modelled by the [string] of its UTF-8 bytes, an
      unpaired surrogate being written as the three bytes of its code unit.
      [Buffer.from(s, 'utf8')] encodes an unpaired surrogate as U+FFFD, and
      [buf.toString('utf8')] decodes every ill-formed part of its bytes as
      U+FFFD; on text without unpaired surrogates both are the identity.
    - [throw] is the [Throw] outcome of the [Result] monad; the exception
      classes of src/exceptions are the constructors of [Exception].
    - Functions of the Node.js runtime that the SDK calls (the AES block
      cipher, base64, gzip, RSA, JSON) are the fields of a [Platform]; what a
      proof assumes of them is stated in [CodecLaws].
    - What a call of [KeyClient] meets outside the object (clock, key file,
      the reply of the HTTP exchange) is a [World]; the fields of the object
      are a [State] that the methods pass along.
    - Objects received from the network are typed as the wire format of the
      protocol has them, every field optional; the reply of the key exchange
      may also be [null].
    - A property read from the table of interfaces finds the entries of the
      table and the members of [Object.prototype].
    - Logging ([logger], [console.log]) has no effect on results or on the
      state and is left out.

    The file has the definitions first (runtime values, the two classes, a
    small runtime to compute with, the vocabulary of the statements), then
    the lemmas and theorems, grouped in modules by subject. *)

From Stdlib Require Import ZArith List String Ascii Bool Lia DecimalString.
From Stdlib.Strings Require Import Byte.
From Stdlib Require Import Floats.
Import ListNotations.

Local Open Scope string_scope.
Local Open Scope Z_scope.

(* ================================================================== *)
(** ** Exceptions and the result monad *)
(* ================================================================== *)

(** The classes of src/exceptions, with the arguments their constructors are
    given in the modelled code.  [JsError] stands for the errors of the
    runtime itself ([TypeError], [SyntaxError], errors of [crypto], [zlib]). *)
Inductive Exception : Type :=
| EncryptionException (message : string)
| AuthenticationException (message : string)
| APIException (message : string) (statusCode : option string)
| JsError (message : string).

(** [e.message] *)
Definition message_of (e : Exception) : string :=
  match e with
  | EncryptionException m => m
  | AuthenticationException m => m
  | APIException m _ => m
  | JsError m => m
  end.

Definition isEncryptionException (e : Exception) : bool :=
  match e with EncryptionException _ => true | _ => false end.

Inductive Result (A : Type) : Type :=
| Ok (a : A)
| Throw (e : Exception).
Arguments Ok {A} a.
Arguments Throw {A} e.

Definition bind {A B : Type} (r : Result A) (k : A -> Result B) : Result B :=
  match r with
  | Ok a => k a
  | Throw e => Throw e
  end.

Declare Scope result_scope.
Delimit Scope result_scope with result.
Notation "'let*' x ':=' r 'in' k" := (bind r (fun x => k))
  (at level 10, x name, r at level 100, k at level 200) : result_scope.
Local Open Scope result_scope.

(** [try { body } catch (e) { throw h(e) }] *)
Definition try_catch {A : Type} (body : Result A) (h : Exception -> Exception)
  : Result A :=
  match body with
  | Ok a => Ok a
  | Throw e => Throw (h e)
  end.

(* ================================================================== *)
(** ** Numbers, strings and buffers of the runtime *)
(* ================================================================== *)

(** Template-literal rendering of an integer. *)
Definition string_of_Z (z : Z) : string := NilZero.string_of_int (Z.to_int z).

(** Truthiness of a string: only [''] is falsy. *)
Definition truthy_string (s : string) : bool :=
  match s with EmptyString => false | String _ _ => true end.

(** Truthiness of an optional string ([undefined] is falsy). *)
Definition truthy_ostring (o : option string) : bool :=
  match o with Some s => truthy_string s | None => false end.

(** [a || b] on strings where [a] may be [undefined]. *)
Definition or_default (o : option string) (d : string) : string :=
  match o with
  | Some s => if truthy_string s then s else d
  | None => d
  end.

(** [[a, b, c].includes(n)] *)
Definition includes (l : list Z) (n : Z) : bool := existsb (Z.eqb n) l.

Definition Buffer : Type := list byte.

(** The number a byte holds, and the byte a number is stored as. *)
Definition byte_value (b : byte) : Z := Z.of_N (Byte.to_N b).

Definition uint8 (n : Z) : byte :=
  match Byte.of_N (Z.to_N (n mod 256)) with
  | Some b => b
  | None => "000"%byte
  end.

(** [buf.length] *)
Definition Buffer_length (b : Buffer) : Z := Z.of_nat (List.length b).

(** [buf[i]]; [None] is [undefined]. *)
Definition Buffer_get (b : Buffer) (i : Z) : option Z :=
  if i <? 0 then None
  else option_map byte_value (nth_error b (Z.to_nat i)).

(** [Buffer.alloc(size, fill)] *)
Definition Buffer_alloc (size fill : Z) : Buffer :=
  repeat (uint8 fill) (Z.to_nat size).

(** [Buffer.concat([a, b])] *)
Definition Buffer_concat (l : list Buffer) : Buffer := List.concat l.

(** Index normalisation of [slice]: negative indices count from the end, and
    every index is clamped to [0 .. len]. *)
Definition slice_index (len i : Z) : Z :=
  if i <? 0 then Z.max (len + i) 0 else Z.min i len.

(** [buf.slice(start, end)] *)
Definition Buffer_slice (b : Buffer) (start stop : Z) : Buffer :=
  let len := Buffer_length b in
  let s := slice_index len start in
  let e := slice_index len stop in
  firstn (Z.to_nat (e - s)) (skipn (Z.to_nat s) b).

(** [buf.slice(start)] *)
Definition Buffer_slice_from (b : Buffer) (start : Z) : Buffer :=
  Buffer_slice b start (Buffer_length b).

(** [a.equals(b)] *)
Fixpoint Buffer_equals (a b : Buffer) : bool :=
  match a, b with
  | [], [] => true
  | x :: a', y :: b' => Byte.eqb x y && Buffer_equals a' b'
  | _, _ => false
  end.

(** *** UTF-8

    A JavaScript string is a sequence of UTF-16 code units.  It is modelled
    by the [string] of its UTF-8 bytes, where a surrogate that has no partner
    is written as the three bytes its code unit would take: ED, then a byte
    of A0..BF, then a byte of 80..BF.  A string without unpaired surrogates
    is modelled by its UTF-8 text. *)

Definition in_range (lo hi : Z) (b : byte) : bool :=
  (lo <=? byte_value b) && (byte_value b <=? hi).

(** U+FFFD, the replacement character, in UTF-8: EF BF BD. *)
Definition replacement : Buffer := ["239"%byte; "191"%byte; "189"%byte].

(** The UTF-8 encoder of [Buffer.from(s, 'utf8')]: every unpaired surrogate
    is encoded as U+FFFD, every other character as itself. *)
Fixpoint utf8_encode (units : Buffer) : Buffer :=
  match units with
  | [] => []
  | b0 :: rest =>
      match rest with
      | b1 :: b2 :: rest2 =>
          if in_range 237 237 b0 && in_range 160 191 b1 && in_range 128 191 b2
          then (replacement ++ utf8_encode rest2)%list
          else b0 :: utf8_encode rest
      | _ => b0 :: utf8_encode rest
      end
  end.

(** The bounds of the second byte of a sequence that starts with [b0]
    (Unicode, table 3-7): E0 and F0 exclude the overlong forms, ED the
    surrogates, F4 what lies beyond U+10FFFF. *)
Definition second_lo (b0 : byte) : Z :=
  if in_range 224 224 b0 then 160
  else if in_range 240 240 b0 then 144
  else 128.

Definition second_hi (b0 : byte) : Z :=
  if in_range 237 237 b0 then 159
  else if in_range 244 244 b0 then 143
  else 191.

(** The UTF-8 decoder of [buf.toString('utf8')], its result written in UTF-8
    again: a well-formed sequence is kept, and every maximal part of an
    ill-formed sequence (a byte that starts no sequence, or the bytes of a
    sequence that is cut short) is decoded as one U+FFFD. *)
Fixpoint utf8_decode (bytes : Buffer) : Buffer :=
  match bytes with
  | [] => []
  | b0 :: rest =>
      if in_range 0 127 b0 then b0 :: utf8_decode rest
      else if in_range 194 223 b0 then
        match rest with
        | b1 :: rest1 =>
            if in_range 128 191 b1
            then b0 :: b1 :: utf8_decode rest1
            else (replacement ++ utf8_decode rest)%list
        | [] => replacement
        end
      else if in_range 224 239 b0 then
        match rest with
        | b1 :: rest1 =>
            if in_range (second_lo b0) (second_hi b0) b1
            then
              match rest1 with
              | b2 :: rest2 =>
                  if in_range 128 191 b2
                  then b0 :: b1 :: b2 :: utf8_decode rest2
                  else (replacement ++ utf8_decode rest1)%list
              | [] => replacement
              end
            else (replacement ++ utf8_decode rest)%list
        | [] => replacement
        end
      else if in_range 240 244 b0 then
        match rest with
        | b1 :: rest1 =>
            if in_range (second_lo b0) (second_hi b0) b1
            then
              match rest1 with
              | b2 :: rest2 =>
                  if in_range 128 191 b2
                  then
                    match rest2 with
                    | b3 :: rest3 =>
                        if in_range 128 191 b3
                        then b0 :: b1 :: b2 :: b3 :: utf8_decode rest3
                        else (replacement ++ utf8_decode rest2)%list
                    | [] => replacement
                    end
                  else (replacement ++ utf8_decode rest1)%list
              | [] => replacement
              end
            else (replacement ++ utf8_decode rest)%list
        | [] => replacement
        end
      else (replacement ++ utf8_decode rest)%list
  end.

(** [Buffer.from(s, 'utf8')] and [buf.toString('utf8')] *)
Definition Buffer_from_utf8 (s : string) : Buffer :=
  utf8_encode (list_byte_of_string s).
Definition Buffer_toString_utf8 (b : Buffer) : string :=
  string_of_list_byte (utf8_decode b).

(** Well-formed UTF-8 (Unicode, table 3-7): the text of a string that has no
    unpaired surrogate. *)
Fixpoint utf8_wellformed (bytes : Buffer) : bool :=
  match bytes with
  | [] => true
  | b0 :: rest =>
      if in_range 0 127 b0 then utf8_wellformed rest
      else if in_range 194 223 b0 then
        match rest with
        | b1 :: rest1 => in_range 128 191 b1 && utf8_wellformed rest1
        | [] => false
        end
      else if in_range 224 239 b0 then
        match rest with
        | b1 :: b2 :: rest2 =>
            in_range (second_lo b0) (second_hi b0) b1
            && in_range 128 191 b2 && utf8_wellformed rest2
        | _ => false
        end
      else if in_range 240 244 b0 then
        match rest with
        | b1 :: b2 :: b3 :: rest3 =>
            in_range (second_lo b0) (second_hi b0) b1
            && in_range 128 191 b2 && in_range 128 191 b3
            && utf8_wellformed rest3
        | _ => false
        end
      else false
  end.

(** A string without unpaired surrogates. *)
Definition wellformed_text (s : string) : bool :=
  utf8_wellformed (list_byte_of_string s).

(** *** Hexadecimal *)

Definition hex_value (c : ascii) : option Z :=
  let n := Z.of_nat (nat_of_ascii c) in
  if (48 <=? n) && (n <=? 57) then Some (n - 48)
  else if (97 <=? n) && (n <=? 102) then Some (n - 87)
  else if (65 <=? n) && (n <=? 70) then Some (n - 55)
  else None.

(** [/^[0-9a-fA-F]+$/.test(s)] *)
Fixpoint all_hex (s : string) : bool :=
  match s with
  | EmptyString => true
  | String c s' =>
      match hex_value c with Some _ => all_hex s' | None => false end
  end.

Definition hex_regex_test (s : string) : bool := truthy_string s && all_hex s.

(** [Buffer.from(s, 'hex')]: pairs of digits, stopping at the first pair that
    is not hexadecimal (a trailing single digit is dropped). *)
Fixpoint Buffer_from_hex (s : string) : Buffer :=
  match s with
  | String c1 (String c2 s') =>
      match hex_value c1, hex_value c2 with
      | Some h, Some l => uint8 (16 * h + l) :: Buffer_from_hex s'
      | _, _ => []
      end
  | _ => []
  end.

Definition hex_digit (n : Z) : ascii :=
  ascii_of_nat (Z.to_nat (if n <? 10 then 48 + n else 87 + n)).

(** [buf.toString('hex')] *)
Fixpoint Buffer_toString_hex (b : Buffer) : string :=
  match b with
  | [] => EmptyString
  | x :: b' =>
      String (hex_digit (byte_value x / 16))
        (String (hex_digit (byte_value x mod 16)) (Buffer_toString_hex b'))
  end.

(** [s.toUpperCase()] on ASCII text. *)
Definition upper_ascii (c : ascii) : ascii :=
  let n := nat_of_ascii c in
  if (97 <=? n)%nat && (n <=? 122)%nat then ascii_of_nat (n - 32) else c.

Fixpoint toUpperCase (s : string) : string :=
  match s with
  | EmptyString => EmptyString
  | String c s' => String (upper_ascii c) (toUpperCase s')
  end.

(** [s.length], for a string of ASCII characters; in general, the number of
    bytes of the text. *)
Definition String_length (s : string) : Z := Z.of_nat (String.length s).

(* ================================================================== *)
(** ** JSON values *)
(* ================================================================== *)

#[warnings="-register-all"]
Inductive json : Type :=
| JNull
| JBool (b : bool)
| JNum (x : float)
| JStr (s : string)
| JArr (items : list json)
| JObj (fields : list (string * json)).

(** [Object.keys(v).length] for an array or an object. *)
Definition Object_keys_length (v : json) : Z :=
  match v with
  | JArr items => Z.of_nat (List.length items)
  | JObj fields => Z.of_nat (List.length fields)
  | JStr s => String_length s
  | _ => 0
  end.

(** Truthiness of a value. Numbers are truthy unless zero or NaN. *)
Definition truthy_json (v : json) : bool :=
  match v with
  | JNull => false
  | JBool b => b
  | JNum x => negb (PrimFloat.eqb x 0%float) && PrimFloat.eqb x x
  | JStr s => truthy_string s
  | JArr _ | JObj _ => true
  end.

(* ================================================================== *)
(** ** The runtime interface *)
(* ================================================================== *)

(** What the SDK takes from Node.js: [crypto], [zlib], [Buffer]'s base64
    codec and [JSON].  The block cipher works on whole blocks with automatic
    padding switched off, as the SDK configures it. *)
Class Platform : Type := {
  (** [crypto.KeyObject] holding an RSA private key *)
  PrivateKey : Type;
  (** [cipher.update(data)] followed by [cipher.final()], key first *)
  aes_ecb_encrypt : Buffer -> Buffer -> Buffer;
  (** [decipher.update(data)] followed by [decipher.final()], key first *)
  aes_ecb_decrypt : Buffer -> Buffer -> Buffer;
  (** [buf.toString('base64')] *)
  base64_encode : Buffer -> string;
  (** [Buffer.from(s, 'base64')] *)
  base64_decode : string -> Buffer;
  (** [zlib.gunzipSync(buf)] *)
  gunzipSync : Buffer -> Result Buffer;
  (** [crypto.createSign('RSA-SHA1')] ... [sign.sign(privateKey)] *)
  rsa_sha1_sign : PrivateKey -> string -> Buffer;
  (** [crypto.privateDecrypt] with PKCS#1 v1.5 padding *)
  privateDecrypt : PrivateKey -> Buffer -> Result Buffer;
  (** [JSON.stringify] and [JSON.parse] *)
  JSON_stringify : json -> string;
  JSON_parse : string -> Result json;
  (** [Buffer.from(v, 'base64')] for a value [v] that is not a string (a
      number raises [TypeError], an array of numbers gives its bytes) *)
  Buffer_from_nonstring : json -> Result Buffer
}.

(** What the round trip of the codec needs from the runtime: the block cipher
    is length preserving and invertible under a key of a supported length,
    base64 text decodes to the bytes it encodes, the empty text standing for
    the empty buffer only, and the text of [JSON.stringify] is well-formed
    (it escapes unpaired surrogates). *)
Class CodecLaws (P : Platform) : Prop := {
  aes_ecb_length : forall key data,
    includes [16; 24; 32] (Buffer_length key) = true ->
    Z.rem (Buffer_length data) 16 = 0 ->
    List.length (aes_ecb_encrypt key data) = List.length data;
  aes_ecb_inverse : forall key data,
    includes [16; 24; 32] (Buffer_length key) = true ->
    Z.rem (Buffer_length data) 16 = 0 ->
    aes_ecb_decrypt key (aes_ecb_encrypt key data) = data;
  base64_inverse : forall data, base64_decode (base64_encode data) = data;
  base64_nonempty : forall data, base64_encode data = "" -> data = [];
  JSON_stringify_wellformed : forall v,
    wellformed_text (JSON_stringify v) = true
}.

(* ================================================================== *)
(** ** CryptoUtils *)
(* ================================================================== *)

Module CryptoUtils.

Definition AES_BLOCK_SIZE : Z := 16.

(** The argument type [Buffer | string]. *)
Inductive BufferOrString : Type :=
| IsString (s : string)
| IsBuffer (b : Buffer).

Definition pkcs7Pad (data : BufferOrString) : Buffer :=
  let buf :=
    match data with
    | IsString s => Buffer_from_utf8 s
    | IsBuffer b => b
    end in
  let padLen := AES_BLOCK_SIZE - Z.rem (Buffer_length buf) AES_BLOCK_SIZE in
  let padding := Buffer_alloc padLen padLen in
  Buffer_concat [buf; padding].

Definition pkcs7Unpad (data : Buffer) : Result Buffer :=
  if Buffer_length data =? 0
  then Throw (EncryptionException "Cannot unpad empty string")
  else
    match Buffer_get data (Buffer_length data - 1) with
    | None => (* the buffer is not empty: its last byte is defined *)
        Throw (JsError "undefined pad length")
    | Some padLen =>
        if (padLen <? 1) || (padLen >? AES_BLOCK_SIZE)
        then Throw (EncryptionException
                      ("Invalid PKCS7 padding length: " ++ string_of_Z padLen))
        else
          let padding := Buffer_slice_from data (- padLen) in
          if negb (Buffer_equals padding (Buffer_alloc padLen padLen))
          then Throw (EncryptionException "PKCS7 padding verification failed")
          else Ok (Buffer_slice data 0 (Buffer_length data - padLen))
    end.

Definition normalizeAesKey (key : string) : Buffer :=
  let decoded := Buffer_from_hex key in
  if hex_regex_test key && (Z.rem (String_length key) 2 =? 0)
     && includes [16; 24; 32] (Buffer_length decoded)
  then decoded
  else Buffer_from_utf8 key.

(** *** The wire envelope *)

Record OfflineInvoiceException : Type := {
  errorCode : string;
  errorMsg : string
}.

Record ExtendField : Type := {
  responseDateFormat : string;
  responseTimeFormat : string;
  referenceNo : string;
  operatorName : string;
  offlineInvoiceException : OfflineInvoiceException
}.

(** The value of [interfaceCode].  It is the code of an interface, a string;
    [BaseClient.send] passes what it reads from its table of interfaces,
    which for a name that the table inherits from [Object.prototype] is the
    inherited member (a function, or for [__proto__] the prototype itself),
    not a string. *)
Inductive InterfaceCode : Type :=
| Code (code : string)
| Inherited (name : string).

#[global] Coercion Code : string >-> InterfaceCode.

Record GlobalInfo : Type := {
  appId : string;
  version : string;
  dataExchangeId : string;
  interfaceCode : InterfaceCode;
  requestCode : string;
  requestTime : string;
  responseCode : string;
  userName : string;
  deviceMAC : string;
  deviceNo : string;
  tin : string;
  brn : string;
  taxpayerID : string;
  longitude : string;
  latitude : string;
  agentType : string;
  extendField : ExtendField
}.

(** A field that an object received from the network may lack is an
    [option]; [None] is [undefined]. *)
Record DataDescription : Type := {
  codeType : option string;
  encryptCode : option string;
  zipCode : option string
}.

(** [data.content] is base64 text on the wire ([C] is [string]) and becomes
    the parsed value once the envelope is unwrapped ([C] is [Content]). *)
Inductive Content : Type :=
| RawContent (s : string)
| DecodedContent (j : json).

Record DataSection (C : Type) : Type := {
  content : option C;
  signature : option string;
  dataDescription : option DataDescription
}.
Arguments content {C} _.
Arguments signature {C} _.
Arguments dataDescription {C} _.

Record ReturnStateInfo : Type := {
  returnCode : option string;
  returnMessage : option string
}.

Record Envelope (C : Type) : Type := {
  data : option (DataSection C);
  globalInfo : option GlobalInfo;
  returnStateInfo : option ReturnStateInfo
}.
Arguments data {C} _.
Arguments globalInfo {C} _.
Arguments returnStateInfo {C} _.

(** What a call reads from its surroundings while it builds an envelope:
    [crypto.randomBytes(n)] and [TimeUtils.getUgandaTimestamp()]. *)
Record Ambient : Type := {
  crypto_randomBytes : Z -> Buffer;
  getUgandaTimestamp : string
}.

Definition buildGlobalInfo (amb : Ambient) (interfaceCode : InterfaceCode)
    (tin deviceNo brn user longitude latitude taxpayerId : string)
  : GlobalInfo :=
  {| appId := "AP04";
     version := "1.1.20191201";
     dataExchangeId :=
       toUpperCase (Buffer_toString_hex (crypto_randomBytes amb 16));
     interfaceCode := interfaceCode;
     requestCode := "TP";
     requestTime := getUgandaTimestamp amb;
     responseCode := "TA";
     userName := user;
     deviceMAC := "FFFFFFFFFFFF";
     deviceNo := deviceNo;
     tin := tin;
     brn := brn;
     taxpayerID := or_default (Some taxpayerId) "1";
     longitude := longitude;
     latitude := latitude;
     agentType := "0";
     extendField :=
       {| responseDateFormat := "dd/MM/yyyy";
          responseTimeFormat := "dd/MM/yyyy HH:mm:ss";
          referenceNo := "";
          operatorName := user;
          offlineInvoiceException := {| errorCode := ""; errorMsg := "" |} |}
  |}.

(** The envelope as it is when nothing was decoded. *)
Definition raw_section (d : DataSection string) : DataSection Content :=
  {| content := option_map RawContent (content d);
     signature := signature d;
     dataDescription := dataDescription d |}.

Definition raw_envelope (e : Envelope string) : Envelope Content :=
  {| data := option_map raw_section (data e);
     globalInfo := globalInfo e;
     returnStateInfo := returnStateInfo e |}.

(** [responseJson.data.content = decodedContent] *)
Definition set_content (e : Envelope string) (decodedContent : json)
  : Envelope Content :=
  {| data :=
       option_map
         (fun d => {| content := Some (DecodedContent decodedContent);
                      signature := signature d;
                      dataDescription := dataDescription d |})
         (data e);
     globalInfo := globalInfo e;
     returnStateInfo := returnStateInfo e |}.

Section WithPlatform.
Context {P : Platform}.

(** [crypto.createCipheriv(`aes-${8 * keyBuf.length}-ecb`, keyBuf, null)] with
    [setAutoPadding(false)], run on [data]: the cipher name exists for keys
    of 16, 24 and 32 bytes only, and [final()] refuses a partial block. *)
Definition createCipheriv_run (keyBuf data : Buffer) : Result Buffer :=
  if negb (includes [16; 24; 32] (Buffer_length keyBuf))
  then Throw (JsError "Unknown cipher")
  else if negb (Z.rem (Buffer_length data) AES_BLOCK_SIZE =? 0)
  then Throw (JsError "data not multiple of block length")
  else Ok (aes_ecb_encrypt keyBuf data).

Definition createDecipheriv_run (keyBuf data : Buffer) : Result Buffer :=
  if negb (includes [16; 24; 32] (Buffer_length keyBuf))
  then Throw (JsError "Unknown cipher")
  else if negb (Z.rem (Buffer_length data) AES_BLOCK_SIZE =? 0)
  then Throw (JsError "wrong final block length")
  else Ok (aes_ecb_decrypt keyBuf data).

Definition encryptAesEcb (plaintext key : string) : Result string :=
  let keyBuf := normalizeAesKey key in
  if negb (includes [16; 24; 32] (Buffer_length keyBuf))
  then Throw (EncryptionException
                ("AES key must be 16/24/32 bytes, got "
                 ++ string_of_Z (Buffer_length keyBuf)))
  else
    let padded := pkcs7Pad (IsString plaintext) in
    let* encrypted := createCipheriv_run keyBuf padded in
    Ok (base64_encode encrypted).

(** [b !== v] for a byte read that may be [undefined]. *)
Definition byte_differs (b : option Z) (v : Z) : bool :=
  match b with
  | Some x => negb (x =? v)
  | None => true
  end.

(** [decryptAesEcb(ciphertextB64, key?, encryptCode = '2', zipCode = '0')];
    an argument left out is [None]. *)
Definition decryptAesEcb (ciphertextB64 : string) (key : option string)
    (encryptCode zipCode : option string) : Result string :=
  let encryptCode := match encryptCode with Some c => c | None => "2" end in
  let zipCode := match zipCode with Some c => c | None => "0" end in
  if negb (truthy_string ciphertextB64) then Ok ""
  else
    let dataBytes := base64_decode ciphertextB64 in
    let* dataBytes :=
      (if String.eqb zipCode "1"
       then
         if byte_differs (Buffer_get dataBytes 0) 31
            || byte_differs (Buffer_get dataBytes 1) 139
         then Throw (EncryptionException "zipCode=1 but data is not gzipped")
         else gunzipSync dataBytes
       else Ok dataBytes) in
    let* dataBytes :=
      (if String.eqb encryptCode "2"
       then
         match key with
         | Some key =>
             if negb (truthy_string key)
             then Throw (EncryptionException "AES key required for decrypt")
             else
               let keyBuf := normalizeAesKey key in
               if negb (Z.rem (Buffer_length dataBytes) AES_BLOCK_SIZE =? 0)
               then Throw (EncryptionException
                             ("Ciphertext length "
                              ++ string_of_Z (Buffer_length dataBytes)
                              ++ " not multiple of "
                              ++ string_of_Z AES_BLOCK_SIZE))
               else
                 let* decrypted := createDecipheriv_run keyBuf dataBytes in
                 pkcs7Unpad decrypted
         | None => Throw (EncryptionException "AES key required for decrypt")
         end
       else Ok dataBytes) in
    Ok (Buffer_toString_utf8 dataBytes).

Definition signRsaSha1 (data : string) (privateKey : PrivateKey) : string :=
  base64_encode (rsa_sha1_sign privateKey data).

Definition buildEncryptedRequest (amb : Ambient) (content : json)
    (aesKey : string) (interfaceCode : InterfaceCode)
    (tin deviceNo brn : string)
    (privateKey : PrivateKey) (taxpayerId : string)
  : Result (Envelope string) :=
  let jsonContent := JSON_stringify content in
  let* encrypted := encryptAesEcb jsonContent aesKey in
  let signature := signRsaSha1 encrypted privateKey in
  Ok {| data := Some
          {| content := Some encrypted;
             signature := Some signature;
             dataDescription := Some
               {| codeType := Some "1";
                  encryptCode := Some "2";
                  zipCode := Some "0" |} |};
        globalInfo := Some
          (buildGlobalInfo amb interfaceCode tin deviceNo brn
             "admin" "32.5825" "0.3476" taxpayerId);
        returnStateInfo := Some
          {| returnCode := Some ""; returnMessage := Some "" |} |}.

Definition buildUnencryptedRequest (amb : Ambient) (content : json)
    (interfaceCode : InterfaceCode) (tin deviceNo brn : string)
    (privateKey : option PrivateKey) (taxpayerId : string)
  : Envelope string :=
  let '(contentB64, signature) :=
    if truthy_json content && (Object_keys_length content >? 0)
    then
      let jsonContent := JSON_stringify content in
      let contentB64 := base64_encode (Buffer_from_utf8 jsonContent) in
      match privateKey with
      | Some privateKey => (contentB64, signRsaSha1 contentB64 privateKey)
      | None => (contentB64, "")
      end
    else ("", "") in
  {| data := Some
       {| content := Some contentB64;
          signature := Some signature;
          dataDescription := Some
            {| codeType := Some "0";
               encryptCode := Some "1";
               zipCode := Some "0" |} |};
     globalInfo := Some
       (buildGlobalInfo amb interfaceCode tin deviceNo brn
          "admin" "32.5825" "0.3476" taxpayerId);
     returnStateInfo := Some
       {| returnCode := Some ""; returnMessage := Some "" |} |}.

Definition unwrapResponse (responseJson : Envelope string)
    (aesKey : option string) : Result (Envelope Content) :=
  let contentB64 :=
    or_default
      (match data responseJson with Some d => content d | None => None end)
      "" in
  if negb (truthy_string contentB64) then Ok (raw_envelope responseJson)
  else
    let dataDesc :=
      match data responseJson with
      | Some d => dataDescription d
      | None => None
      end in
    let field (f : DataDescription -> option string) :=
      or_default (match dataDesc with Some dd => f dd | None => None end) "0" in
    let codeType := field codeType in
    let encryptCode := field encryptCode in
    let zipCode := field zipCode in
    try_catch
      (let* contentStr :=
         (if String.eqb codeType "1"
          then
            if negb (truthy_ostring aesKey)
            then Throw (EncryptionException
                          "Encrypted response but no AES key provided")
            else decryptAesEcb contentB64 aesKey
                   (Some encryptCode) (Some zipCode)
          else
            let decodedBytes := base64_decode contentB64 in
            let* decodedBytes :=
              (if String.eqb zipCode "1"
               then gunzipSync decodedBytes
               else Ok decodedBytes) in
            Ok (Buffer_toString_utf8 decodedBytes)) in
       let* decodedContent := JSON_parse contentStr in
       Ok (set_content responseJson decodedContent))
      (fun e => EncryptionException
                  ("Response processing failed: " ++ message_of e)).

End WithPlatform.
End CryptoUtils.

(* ================================================================== *)
(** ** KeyClient *)
(* ================================================================== *)

Module KeyClient.
Import CryptoUtils.

Definition T104_ENDPOINT_TEST : string :=
  "https://efristest.ura.go.ug/efrisws/ws/taapp/getInformation".
Definition T104_ENDPOINT_PROD : string :=
  "https://efrisws.ura.go.ug/ws/taapp/getInformation".

(** The constructor's parameters that no method assigns. *)
Record Config : Type := {
  pfxPath : string;
  password : string;
  tin : string;
  deviceNo : string;
  brn : string;
  sandbox : bool;
  timeout : Z
}.

(** 23 hours; the field is assigned once, by its initialiser. *)
Definition _aesKeyTtlSeconds : Z := 23 * 60 * 60.

Definition getEndpoint (cfg : Config) : string :=
  if sandbox cfg then T104_ENDPOINT_TEST else T104_ENDPOINT_PROD.

(** [v.name] for a parsed value: [null] has no properties, an object has its
    fields (the last one of a name counts), other values have none of the
    names read here. *)
Fixpoint lookup_field (name : string) (fields : list (string * json))
  : option json :=
  match fields with
  | [] => None
  | (k, v) :: rest =>
      match lookup_field name rest with
      | Some v' => Some v'
      | None => if String.eqb k name then Some v else None
      end
  end.

Definition json_get (v : json) (name : string) : Result (option json) :=
  match v with
  | JNull =>
      Throw (JsError
               ("Cannot read properties of null (reading '" ++ name ++ "')"))
  | JObj fields => Ok (lookup_field name fields)
  | _ => Ok None
  end.

(** [a ?? b] where [b] is a property read of the same kind. *)
Definition nullish (o : option json) : bool :=
  match o with
  | None | Some JNull => true
  | Some _ => false
  end.

(** Lines 141 to 152 of [fetchAesKey]: the length policy for the decrypted
    key candidate. *)
Definition fetchAesKey_normalize (aesKeyCandidate : Buffer) : Result Buffer :=
  let aesKey :=
    if Buffer_length aesKeyCandidate =? 8
    then Buffer_slice (Buffer_concat [aesKeyCandidate; aesKeyCandidate]) 0 16
    else if includes [16; 24; 32] (Buffer_length aesKeyCandidate)
    then aesKeyCandidate
    else Buffer_slice aesKeyCandidate 0 16 in
  if negb (includes [16; 24; 32] (Buffer_length aesKey))
  then Throw (EncryptionException
                ("Cannot use AES key of length "
                 ++ string_of_Z (Buffer_length aesKey)))
  else Ok aesKey.

Section WithPlatform.
Context {P : Platform}.

(** The fields that methods assign. *)
Record State : Type := {
  _privateKey : option PrivateKey;
  _aesKey : option string;
  _aesKeyFetchedAt : option Z;
  _aesKeyContentJson : option json;
  taxpayerId : string
}.

(** The object as the constructor leaves it. *)
Definition new_KeyClient (taxpayerId : string) : State :=
  {| _privateKey := None;
     _aesKey := None;
     _aesKeyFetchedAt := None;
     _aesKeyContentJson := None;
     taxpayerId := taxpayerId |}.

(** What one call meets outside the object: the clock at the cache test and
    at the moment the key is stored (milliseconds, [Date.now()]), the file
    system and the PKCS#12 parser (the first key of the key bag and of the
    shrouded key bag), the reply of the HTTP exchange, and the surroundings
    of the envelope builder.  The exchange ends with an error or with the
    data of the response, [resp.data]: [None] when the body is the JSON
    value [null], and otherwise the body read at the type of the wire
    format. *)
Record World : Type := {
  Date_now_check : Z;
  Date_now_store : Z;
  fs_existsSync : string -> bool;
  pkcs12_keys : string -> string
                -> Result (option PrivateKey * option PrivateKey);
  axios_post : string -> Envelope string -> Result (option (Envelope string));
  ambient : Ambient
}.

(** The result of a call, the object after it, and the requests it sent. *)
Record Run : Type := {
  result : Result string;
  final : State;
  posts : list (string * Envelope string)
}.

Definition loadPrivateKeyFromPfx (cfg : Config) (w : World)
  : Result PrivateKey :=
  if negb (fs_existsSync w (pfxPath cfg))
  then Throw (AuthenticationException
                ("PFX file not found: " ++ pfxPath cfg))
  else
    let* bags := pkcs12_keys w (pfxPath cfg) (password cfg) in
    match bags with
    | (Some k, _) => Ok k
    | (None, Some k) => Ok k
    | (None, None) =>
        Throw (AuthenticationException
                 "Failed to extract private key from PFX")
    end.

Definition loadPrivateKey (cfg : Config) (w : World) (s : State)
  : Result PrivateKey * State :=
  match _privateKey s with
  | Some k => (Ok k, s)
  | None =>
      match loadPrivateKeyFromPfx cfg w with
      | Ok k =>
          (Ok k,
           {| _privateKey := Some k;
              _aesKey := _aesKey s;
              _aesKeyFetchedAt := _aesKeyFetchedAt s;
              _aesKeyContentJson := _aesKeyContentJson s;
              taxpayerId := taxpayerId s |})
      | Throw e => (Throw e, s)
      end
  end.

(** The test of line 86 and 87: both fields are truthy (a key that is not
    [''], a timestamp that is not [0]) and the key is younger than the time
    to live.  [Date.now() / 1000 - t < ttl] is compared in milliseconds. *)
Definition cache_hit (w : World) (s : State) : option string :=
  match _aesKey s, _aesKeyFetchedAt s with
  | Some key, Some fetchedAt =>
      if truthy_string key && negb (fetchedAt =? 0)
         && (Date_now_check w - 1000 * fetchedAt <? 1000 * _aesKeyTtlSeconds)
      then Some key
      else None
  | _, _ => None
  end.

(** [Buffer.from(v, 'base64')] for a parsed value. *)
Definition Buffer_from_base64 (v : json) : Result Buffer :=
  match v with
  | JStr s => Ok (base64_decode s)
  | _ => Buffer_from_nonstring v
  end.

(** The body of the [try] of lines 122 to 160, up to the assignments: the
    key in hexadecimal and the decoded content of the reply. *)
Definition extract_key (privateKey : PrivateKey) (respJson : Envelope string)
  : Result (string * json) :=
  let contentB64 :=
    match data respJson with
    | Some d => content d
    | None => None
    end in
  match contentB64 with
  | None => Throw (EncryptionException "Missing content in T104 response")
  | Some contentB64 =>
      if negb (truthy_string contentB64)
      then Throw (EncryptionException "Missing content in T104 response")
      else
        let* contentJson :=
          JSON_parse (Buffer_toString_utf8 (base64_decode contentB64)) in
        let* passowrdDes := json_get contentJson "passowrdDes" in
        let* encryptedAesB64 :=
          (if nullish passowrdDes
           then json_get contentJson "passwordDes"
           else Ok passowrdDes) in
        match encryptedAesB64 with
        | None =>
            Throw (EncryptionException
                     "Missing AES key field in T104 response")
        | Some encryptedAesB64 =>
            if negb (truthy_json encryptedAesB64)
            then Throw (EncryptionException
                          "Missing AES key field in T104 response")
            else
              let* encryptedAes := Buffer_from_base64 encryptedAesB64 in
              let* aesKeyRaw := privateDecrypt privateKey encryptedAes in
              let aesKeyCandidate :=
                base64_decode (Buffer_toString_utf8 aesKeyRaw) in
              let aesKeyCandidate :=
                if Buffer_length aesKeyCandidate =? 0
                then aesKeyRaw
                else aesKeyCandidate in
              let* aesKey := fetchAesKey_normalize aesKeyCandidate in
              Ok (Buffer_toString_hex aesKey, contentJson)
        end
  end.

(** [fetchAesKey] suspends once, at the [await] of line 104.  Its two halves
    run without interruption; other calls on the object may run in between.

    The first half, lines 86 to 104: the call is over (a cached key, or a
    failure to load the private key), or a request is on its way. *)
Inductive Sent : Type :=
| Finished (r : Result string)
| Awaiting (privateKey : PrivateKey) (url : string) (payload : Envelope string).

Definition fetchAesKey_request (cfg : Config) (w : World) (force : bool)
    (s : State) : Sent * State :=
  match (if force then None else cache_hit w s) with
  | Some key => (Finished (Ok key), s)
  | None =>
      match loadPrivateKey cfg w s with
      | (Throw e, s1) => (Finished (Throw e), s1)
      | (Ok privateKey, s1) =>
          let payload :=
            buildUnencryptedRequest (ambient w) (JArr []) "T104"
              (tin cfg) (deviceNo cfg) (brn cfg) (Some privateKey)
              (taxpayerId s1) in
          let url := getEndpoint cfg in
          (Awaiting privateKey url payload, s1)
      end
  end.

(** The second half, lines 108 to 164, on the outcome [reply] of the
    exchange and the object as it is when the call resumes.  Line 114 reads
    a property of the body outside the two [try] blocks: on the body [null]
    it raises the [TypeError] of the runtime. *)
Definition fetchAesKey_response (w : World) (privateKey : PrivateKey)
    (reply : Result (option (Envelope string))) (s : State)
  : Result string * State :=
  match reply with
  | Throw err =>
      (Throw (APIException ("T104 connection error: " ++ message_of err) None),
       s)
  | Ok None =>
      (Throw (JsError
                "Cannot read properties of null (reading 'returnStateInfo')"),
       s)
  | Ok (Some respJson) =>
      let returnState :=
        match returnStateInfo respJson with
        | Some r => r
        | None => {| returnCode := None; returnMessage := None |}
        end in
      let returnMessage_or (d : string) :=
        match returnMessage returnState with
        | Some m => m
        | None => d
        end in
      if negb (String.eqb (returnMessage_or "") "SUCCESS")
      then
        let msg := returnMessage_or "Unknown error" in
        let code :=
          match returnCode returnState with
          | Some c => c
          | None => "99"
          end in
        (Throw (APIException ("T104 failed: " ++ msg) (Some code)), s)
      else
        match extract_key privateKey respJson with
        | Throw err =>
            (Throw (EncryptionException
                      ("Failed to extract AES key: " ++ message_of err)),
             s)
        | Ok (aesKey, contentJson) =>
            (Ok aesKey,
             {| _privateKey := _privateKey s;
                _aesKey := Some aesKey;
                _aesKeyFetchedAt := Some (Date_now_store w / 1000);
                _aesKeyContentJson := Some contentJson;
                taxpayerId := taxpayerId s |})
        end
  end.

(** A call that nothing interleaves with. *)
Definition fetchAesKey (cfg : Config) (w : World) (force : bool) (s : State)
  : Run :=
  match fetchAesKey_request cfg w force s with
  | (Finished r, s1) => {| result := r; final := s1; posts := [] |}
  | (Awaiting privateKey url payload, s1) =>
      let '(r, s2) :=
        fetchAesKey_response w privateKey (axios_post w url payload) s1 in
      {| result := r; final := s2; posts := [(url, payload)] |}
  end.

Definition getAesKey (s : State) : option string := _aesKey s.

Definition getAesKeyBytes (s : State) : option Buffer :=
  match _aesKey s with
  | Some key => if truthy_string key then Some (Buffer_from_hex key) else None
  | None => None
  end.

Definition forgetAesKey (s : State) : State :=
  {| _privateKey := _privateKey s;
     _aesKey := None;
     _aesKeyFetchedAt := None;
     _aesKeyContentJson := None;
     taxpayerId := taxpayerId s |}.

(** [isAesKeyValid()] at clock reading [now] (milliseconds). *)
Definition isAesKeyValid (now : Z) (s : State) : bool :=
  match _aesKey s, _aesKeyFetchedAt s with
  | Some key, Some fetchedAt =>
      truthy_string key && negb (fetchedAt =? 0)
      && (now - 1000 * fetchedAt <? 1000 * _aesKeyTtlSeconds)
  | _, _ => false
  end.

(** [getAesKeyValidUntil()]: the [Date], as its epoch milliseconds. *)
Definition getAesKeyValidUntil (s : State) : option Z :=
  match _aesKeyFetchedAt s with
  | Some fetchedAt =>
      if fetchedAt =? 0 then None
      else Some ((fetchedAt + _aesKeyTtlSeconds) * 1000)
  | None => None
  end.

Definition getAesKeyContentJson (s : State) : option json :=
  _aesKeyContentJson s.
Definition getAesKeyFetchedAt (s : State) : option Z := _aesKeyFetchedAt s.

Definition setTaxpayerId (taxpayerId : string) (s : State) : State :=
  {| _privateKey := _privateKey s;
     _aesKey := _aesKey s;
     _aesKeyFetchedAt := _aesKeyFetchedAt s;
     _aesKeyContentJson := _aesKeyContentJson s;
     taxpayerId := taxpayerId |}.

Definition getTaxpayerId (s : State) : string := taxpayerId s.

(** [getPrivateKey()]: [this._privateKey ?? this.loadPrivateKey()] *)
Definition getPrivateKey (cfg : Config) (w : World) (s : State)
  : Result PrivateKey * State :=
  match _privateKey s with
  | Some k => (Ok k, s)
  | None => loadPrivateKey cfg w s
  end.

Definition signData (cfg : Config) (w : World) (data : string) (s : State)
  : Result string * State :=
  match getPrivateKey cfg w s with
  | (Ok k, s1) => (Ok (signRsaSha1 data k), s1)
  | (Throw e, s1) => (Throw e, s1)
  end.

(** One uninterrupted piece of a call on the object: what it can do to the
    fields.  The getters leave them as they are. *)
Inductive Step (cfg : Config) : State -> State -> Prop :=
| step_getter s :
    Step cfg s s
| step_loadPrivateKey w s :
    Step cfg s (snd (loadPrivateKey cfg w s))
| step_getPrivateKey w s :
    Step cfg s (snd (getPrivateKey cfg w s))
| step_signData w data s :
    Step cfg s (snd (signData cfg w data s))
| step_fetchAesKey_request w force s :
    Step cfg s (snd (fetchAesKey_request cfg w force s))
| step_fetchAesKey_response w privateKey reply s :
    Step cfg s (snd (fetchAesKey_response w privateKey reply s))
| step_forgetAesKey s :
    Step cfg s (forgetAesKey s)
| step_setTaxpayerId t s :
    Step cfg s (setTaxpayerId t s).

(** The states an object can be in. *)
Inductive Reachable (cfg : Config) : State -> Prop :=
| reach_new t : Reachable cfg (new_KeyClient t)
| reach_step s s' : Reachable cfg s -> Step cfg s s' -> Reachable cfg s'.

(** The cached session key is wholly absent or fully populated. *)
Definition cache_absent (s : State) : Prop :=
  _aesKey s = None /\ _aesKeyFetchedAt s = None
  /\ _aesKeyContentJson s = None.

Definition cache_populated (s : State) : Prop :=
  exists key fetchedAt contentJson,
    _aesKey s = Some key /\ _aesKeyFetchedAt s = Some fetchedAt
    /\ _aesKeyContentJson s = Some contentJson.

Definition cache_consistent (s : State) : Prop :=
  cache_absent s \/ cache_populated s.

(** Two states hold the same cached key, timestamp and decoded content. *)
Definition same_cache (s s' : State) : Prop :=
  _aesKey s' = _aesKey s /\ _aesKeyFetchedAt s' = _aesKeyFetchedAt s
  /\ _aesKeyContentJson s' = _aesKeyContentJson s.

(** The state after a successful handshake. *)
Definition stored (w : World) (aesKey : string) (contentJson : json)
    (s : State) : State :=
  {| _privateKey := _privateKey s;
     _aesKey := Some aesKey;
     _aesKeyFetchedAt := Some (Date_now_store w / 1000);
     _aesKeyContentJson := Some contentJson;
     taxpayerId := taxpayerId s |}.

(** The reply carries the success marker. *)
Definition reply_success (respJson : Envelope string) : Prop :=
  exists r, returnStateInfo respJson = Some r
            /\ returnMessage r = Some "SUCCESS"%string.

End WithPlatform.
End KeyClient.

(* ================================================================== *)
(** ** TimeUtils *)
(* ================================================================== *)

Module TimeUtils.

Definition UG_TZ : string := "Africa/Kampala".

Section WithLuxon.

(** luxon, in the zone [UG_TZ]: [DateTime.fromFormat(s, fmt, {zone})] as the
    epoch milliseconds of the time read, [None] when the result is not
    [isValid]; and [dt.toFormat(fmt)]. *)
Variable fromFormat : string -> string -> option Z.
Variable toFormat : Z -> string -> string.

Definition formats : list string :=
  ["yyyy-MM-dd HH:mm:ss"; "dd/MM/yyyy HH:mm:ss"].

(** The loop of [parseTime] over the formats that are left. *)
Fixpoint parseTime_from (fmts : list string) (timeStr : string) : option Z :=
  match fmts with
  | [] => None
  | fmt :: rest =>
      match fromFormat timeStr fmt with
      | Some dt =>
          if String.eqb (toFormat dt fmt) timeStr
          then Some dt
          else parseTime_from rest timeStr
      | None => parseTime_from rest timeStr
      end
  end.

Definition parseTime (timeStr : string) : option Z :=
  parseTime_from formats timeStr.

(** [dt.toSeconds()] is the milliseconds over 1000; the difference of the
    seconds is compared with the tolerance in milliseconds. *)
Definition validateTimeSync (clientTime serverTime : string)
    (toleranceMinutes : Z) : bool :=
  match parseTime clientTime, parseTime serverTime with
  | Some clientDt, Some serverDt =>
      Z.abs (serverDt - clientDt) <=? toleranceMinutes * 60 * 1000
  | _, _ => false
  end.

End WithLuxon.
End TimeUtils.

(* ================================================================== *)
(** ** BaseClient *)
(* ================================================================== *)

Module BaseClient.
Import CryptoUtils.

Definition INTERFACES : list (string * string) :=
  [
    ("get_server_time", "T101");
    ("client_init", "T102");
    ("sign_in", "T103");
    ("get_symmetric_key", "T104");
    ("forget_password", "T105");
    ("invoice_query_all", "T106");
    ("invoice_query_normal", "T107");
    ("invoice_details", "T108");
    ("billing_upload", "T109");
    ("batch_invoice_upload", "T129");
    ("credit_application", "T110");
    ("credit_note_query", "T111");
    ("credit_note_details", "T112");
    ("credit_note_approval", "T113");
    ("credit_note_cancel", "T114");
    ("query_credit_application", "T118");
    ("void_application", "T120");
    ("query_invalid_credit", "T122");
    ("invoice_checks", "T117");
    ("query_taxpayer", "T119");
    ("get_branches", "T138");
    ("check_taxpayer_type", "T137");
    ("query_principal_agent", "T180");
    ("system_dictionary", "T115");
    ("query_commodity_categories", "T123");
    ("query_commodity_categories_page", "T124");
    ("query_excise_duty", "T125");
    ("sync_commodity_categories", "T134");
    ("query_commodity_by_date", "T146");
    ("query_hs_codes", "T185");
    ("get_exchange_rates", "T126");
    ("get_exchange_rate", "T121");
    ("goods_upload", "T130");
    ("goods_inquiry", "T127");
    ("query_stock", "T128");
    ("query_goods_by_code", "T144");
    ("stock_maintain", "T131");
    ("stock_transfer", "T139");
    ("stock_records_query", "T145");
    ("stock_records_query_alt", "T147");
    ("stock_records_detail", "T148");
    ("stock_adjust_records", "T149");
    ("stock_adjust_detail", "T160");
    ("stock_transfer_records", "T183");
    ("stock_transfer_detail", "T184");
    ("negative_stock_config", "T177");
    ("query_fuel_type", "T162");
    ("upload_shift_info", "T163");
    ("upload_edc_disconnect", "T164");
    ("update_buyer_details", "T166");
    ("edc_invoice_query", "T167");
    ("query_fuel_pump_version", "T168");
    ("query_pump_nozzle_tank", "T169");
    ("query_edc_location", "T170");
    ("query_edc_uom_rate", "T171");
    ("upload_nozzle_status", "T172");
    ("query_edc_device_version", "T173");
    ("ussd_account_create", "T175");
    ("upload_device_status", "T176");
    ("efd_transfer", "T178");
    ("query_agent_relation", "T179");
    ("upload_frequent_contacts", "T181");
    ("get_frequent_contacts", "T182");
    ("invoice_remain_details", "T186");
    ("query_fdn_status", "T187");
    ("z_report_upload", "T116");
    ("exception_log_upload", "T132");
    ("tcs_upgrade_download", "T133");
    ("get_tcs_latest_version", "T135");
    ("certificate_upload", "T136")
  ].

(** The entry of a table for a name, among the properties the table has of
    its own. *)
Fixpoint lookup (table : list (string * string)) (key : string)
  : option string :=
  match table with
  | [] => None
  | (k, v) :: rest => if String.eqb k key then Some v else lookup rest key
  end.

(** The names that an object literal inherits from [Object.prototype]. *)
Definition Object_prototype : list string :=
  ["constructor"; "__defineGetter__"; "__defineSetter__"; "hasOwnProperty";
   "__lookupGetter__"; "__lookupSetter__"; "isPrototypeOf";
   "propertyIsEnumerable"; "toString"; "valueOf"; "__proto__";
   "toLocaleString"].

(** [INTERFACES[interfaceKey]]: the code that the table holds for the name;
    for a name that the table does not hold but inherits, the inherited
    member; and otherwise [undefined], which is [None]. *)
Definition INTERFACES_get (interfaceKey : string) : option InterfaceCode :=
  match lookup INTERFACES interfaceKey with
  | Some code => Some (Code code)
  | None =>
      if existsb (String.eqb interfaceKey) Object_prototype
      then Some (Inherited interfaceKey)
      else None
  end.

(** Truthiness of such a value: an inherited member is a function or an
    object. *)
Definition truthy_InterfaceCode (c : InterfaceCode) : bool :=
  match c with
  | Code code => truthy_string code
  | Inherited _ => true
  end.

(** The fields of [config] that [BaseClient] reads. *)
Record Config : Type := {
  env : option string;
  tin : string;
  device_no : string;
  brn : option string;
  http_timeout : option Z
}.

Definition getEndpointUrl (cfg : Config) : string :=
  let env := match env cfg with Some e => e | None => "sbx" end in
  if String.eqb env "sbx"
  then "https://efristest.ura.go.ug/efrisws/ws/taapp/getInformation"
  else "https://efrisws.ura.go.ug/ws/taapp/getInformation".

(** How the request of [httpPost] ends: with a response (its status and its
    data), or with an error (its message and, when a response came with it,
    the status of that response). *)
Inductive AxiosReply : Type :=
| Resolved (status : Z) (data : json)
| Rejected (message : string) (status : option Z).

Section WithPlatform.
Context {P : Platform}.

(** [JSON.parse(response.body) as ResponseEnvelope], with the property read
    of the line after it: the body read at the type of the wire format.  A
    body that does not parse raises the [SyntaxError] of the runtime, and the
    body [null] the [TypeError] of the property read. *)
Variable parse_envelope : string -> Result (Envelope string).

(** What a call of [send] meets outside the objects: the world of the key
    client, and the outcome of the request to the endpoint. *)
Record World : Type := {
  key_world : KeyClient.World;
  axios_request : string -> Envelope string -> AxiosReply
}.

(** The result of a call, the key client after it, and the requests sent,
    in the order they were sent. *)
Record Outcome (A : Type) : Type := {
  value : Result A;
  after : KeyClient.State;
  sent : list (string * Envelope string)
}.
Arguments value {A} _.
Arguments after {A} _.
Arguments sent {A} _.

(** [httpPost(url, data)]; the status an [APIException] is given is recorded
    in decimal. *)
Definition httpPost (w : World) (url : string) (data : Envelope string)
  : Result (Z * string) :=
  match axios_request w url data with
  | Resolved status data => Ok (status, JSON_stringify data)
  | Rejected message status =>
      Throw (APIException ("HTTP request failed: " ++ message)
               (Some (string_of_Z
                        (match status with Some c => c | None => 0 end))))
  end.

Definition send (cfg : Config) (kcfg : KeyClient.Config) (w : World)
    (interfaceKey : string) (payload : json) (encrypt decrypt : bool)
    (s : KeyClient.State) : Outcome (Envelope Content) :=
  match INTERFACES_get interfaceKey with
  | None =>
      {| value :=
           Throw (APIException
                    ("Interface [" ++ interfaceKey ++ "] not configured")
                    (Some (string_of_Z 400)));
         after := s;
         sent := [] |}
  | Some interfaceCode =>
      if negb (truthy_InterfaceCode interfaceCode)
      then
        {| value :=
             Throw (APIException
                      ("Interface [" ++ interfaceKey ++ "] not configured")
                      (Some (string_of_Z 400)));
           after := s;
           sent := [] |}
      else
        let run := KeyClient.fetchAesKey kcfg (key_world w) false s in
        match KeyClient.result run with
        | Throw e =>
            {| value := Throw e;
               after := KeyClient.final run;
               sent := KeyClient.posts run |}
        | Ok aesKey =>
            match KeyClient.loadPrivateKey kcfg (key_world w)
                    (KeyClient.final run) with
            | (Throw e, s2) =>
                {| value := Throw e;
                   after := s2;
                   sent := KeyClient.posts run |}
            | (Ok privateKey, s2) =>
                let brn := match brn cfg with Some b => b | None => "" end in
                let requestEnvelope :=
                  if encrypt && truthy_string aesKey
                  then
                    buildEncryptedRequest
                      (KeyClient.ambient (key_world w)) payload aesKey
                      interfaceCode (tin cfg) (device_no cfg) brn
                      privateKey (KeyClient.getTaxpayerId s2)
                  else
                    Ok (buildUnencryptedRequest
                          (KeyClient.ambient (key_world w)) payload
                          interfaceCode (tin cfg) (device_no cfg) brn
                          (Some privateKey) (KeyClient.getTaxpayerId s2)) in
                match requestEnvelope with
                | Throw e =>
                    {| value := Throw e;
                       after := s2;
                       sent := KeyClient.posts run |}
                | Ok requestEnvelope =>
                    let url := getEndpointUrl cfg in
                    {| value :=
                         (let* response := httpPost w url requestEnvelope in
                          let '(status_code, body) := response in
                          if negb (status_code =? 200)
                          then
                            Throw (APIException
                                     ("HTTP " ++ string_of_Z status_code
                                      ++ ": " ++ body)
                                     (Some (string_of_Z status_code)))
                          else
                            let* respJson := parse_envelope body in
                            unwrapResponse respJson
                              (if decrypt then Some aesKey else None));
                       after := s2;
                       sent := KeyClient.posts run
                               ++ [(url, requestEnvelope)] |}
                end
            end
        end
  end.

(** [params ?? {}] *)
Definition payload_or_empty (params : option json) : json :=
  match params with
  | None | Some JNull => JObj []
  | Some p => p
  end.

Definition get (cfg : Config) (kcfg : KeyClient.Config) (w : World)
    (interfaceKey : string) (params : option json) (encrypt decrypt : bool)
    (s : KeyClient.State) : Outcome (Envelope Content) :=
  send cfg kcfg w interfaceKey (payload_or_empty params) encrypt decrypt s.

Definition post (cfg : Config) (kcfg : KeyClient.Config) (w : World)
    (interfaceKey : string) (data : option json) (encrypt decrypt : bool)
    (s : KeyClient.State) : Outcome (Envelope Content) :=
  send cfg kcfg w interfaceKey (payload_or_empty data) encrypt decrypt s.

End WithPlatform.

Arguments value {P A} _.
Arguments after {P A} _.
Arguments sent {P A} _.

End BaseClient.

(* ================================================================== *)
(** ** Client: the methods that manage the session key *)
(* ================================================================== *)

Module Client.
Import CryptoUtils BaseClient.

Section WithPlatform.
Context {P : Platform}.

(** [getSymmetricKey(force)] *)
Definition getSymmetricKey (kcfg : KeyClient.Config) (w : KeyClient.World)
    (force : bool) (s : KeyClient.State) : Outcome json :=
  let run := KeyClient.fetchAesKey kcfg w force s in
  {| value :=
       (let* _key := KeyClient.result run in
        Ok (payload_or_empty
              (KeyClient.getAesKeyContentJson (KeyClient.final run))));
     after := KeyClient.final run;
     sent := KeyClient.posts run |}.

(** [refreshAesKeyIfNeeded()], with [now] the reading of [Date.now()] in its
    first branch (milliseconds). *)
Definition refreshAesKeyIfNeeded (kcfg : KeyClient.Config)
    (w : KeyClient.World) (now : Z) (s : KeyClient.State) : Outcome bool :=
  let fetch (force : bool) : Outcome bool :=
    let run := KeyClient.fetchAesKey kcfg w force s in
    {| value := (let* _key := KeyClient.result run in Ok true);
       after := KeyClient.final run;
       sent := KeyClient.posts run |} in
  let unchanged : Outcome bool :=
    {| value := Ok false; after := s; sent := [] |} in
  let fetchedAt :=
    match KeyClient.getAesKeyFetchedAt s with
    | Some t => if t =? 0 then None else Some t
    | None => None
    end in
  match fetchedAt with
  | Some fetchedAt =>
      let elapsed := now / 1000 - fetchedAt in
      if elapsed >? 23 * 60 * 60 then fetch true else unchanged
  | None =>
      if negb (truthy_ostring (KeyClient.getAesKey s))
      then fetch false
      else unchanged
  end.

End WithPlatform.
End Client.

(* ================================================================== *)
(** ** A small runtime, for running the model *)
(* ================================================================== *)

(** An instance of the interface on which the model computes: the block
    cipher reverses the data (a length-preserving involution), base64 text
    is the text of the bytes, keys and signatures are trivial. *)
Definition sample_platform : Platform :=
  {| PrivateKey := unit;
     aes_ecb_encrypt := fun _ data => rev data;
     aes_ecb_decrypt := fun _ data => rev data;
     base64_encode := string_of_list_byte;
     base64_decode := list_byte_of_string;
     gunzipSync := fun b => Ok b;
     rsa_sha1_sign := fun _ s => list_byte_of_string s;
     privateDecrypt := fun _ b => Ok b;
     JSON_stringify := fun _ => "{}";
     JSON_parse := fun s => Ok (JObj [("passowrdDes", JStr s)]);
     Buffer_from_nonstring := fun _ => Throw (JsError "not a string") |}.

(** The string ['\uD800'], one unpaired surrogate, and the string
    ['\uFFFD']. *)
Definition lone_surrogate : string :=
  string_of_list_byte ["237"%byte; "160"%byte; "128"%byte].

Definition replacement_character : string := string_of_list_byte replacement.

Definition sample_config : KeyClient.Config :=
  {| KeyClient.pfxPath := "client.pfx";
     KeyClient.password := "secret";
     KeyClient.tin := "1000000001";
     KeyClient.deviceNo := "TCS0001";
     KeyClient.brn := "";
     KeyClient.sandbox := true;
     KeyClient.timeout := 30 |}.

(** The reply of the key exchange in the sample runs: [SUCCESS], with the
    key material as content. *)
Definition sample_reply : CryptoUtils.Envelope string :=
  {| CryptoUtils.data := Some
       {| CryptoUtils.content := Some "0123456789abcdef";
          CryptoUtils.signature := None;
          CryptoUtils.dataDescription := None |};
     CryptoUtils.globalInfo := None;
     CryptoUtils.returnStateInfo := Some
       {| CryptoUtils.returnCode := Some "00";
          CryptoUtils.returnMessage := Some "SUCCESS" |} |}.

(** A response envelope of code type ['1'] and zip code ['0']. *)
Definition sample_response (content encryptCode : string)
  : CryptoUtils.Envelope string :=
  {| CryptoUtils.data := Some
       {| CryptoUtils.content := Some content;
          CryptoUtils.signature := Some ""%string;
          CryptoUtils.dataDescription := Some
            {| CryptoUtils.codeType := Some "1"%string;
               CryptoUtils.encryptCode := Some encryptCode;
               CryptoUtils.zipCode := Some "0"%string |} |};
     CryptoUtils.globalInfo := None;
     CryptoUtils.returnStateInfo := None |}.

(** A response envelope with content and no description. *)
Definition plain_response : CryptoUtils.Envelope string :=
  {| CryptoUtils.data := Some
       {| CryptoUtils.content := Some "e30="%string;
          CryptoUtils.signature := None;
          CryptoUtils.dataDescription := None |};
     CryptoUtils.globalInfo := None;
     CryptoUtils.returnStateInfo := None |}.

(** A world in which the key file is found and the exchange succeeds, at
    clock readings of 1 700 000 000 seconds. *)
Definition sample_world : @KeyClient.World sample_platform :=
  {| KeyClient.Date_now_check := 1700000000000;
     KeyClient.Date_now_store := 1700000000500;
     KeyClient.fs_existsSync := fun _ => true;
     KeyClient.pkcs12_keys :=
       fun _ _ => Ok (Some (tt : @PrivateKey sample_platform), None);
     KeyClient.axios_post := fun _ _ => Ok (Some sample_reply);
     KeyClient.ambient :=
       {| CryptoUtils.crypto_randomBytes := fun n => repeat "171"%byte (Z.to_nat n);
          CryptoUtils.getUgandaTimestamp := "2023-11-15 01:13:20" |} |}.

(** The client side of the sample runs: every request is answered with
    status 200, and every body reads as an encrypted response. *)
Definition sample_client_config : BaseClient.Config :=
  {| BaseClient.env := None;
     BaseClient.tin := "1000000001";
     BaseClient.device_no := "TCS0001";
     BaseClient.brn := None;
     BaseClient.http_timeout := None |}.

Definition sample_client_world : @BaseClient.World sample_platform :=
  {| BaseClient.key_world := sample_world;
     BaseClient.axios_request := fun _ _ => BaseClient.Resolved 200 (JObj []) |}.

Definition sample_parse_envelope (body : string)
  : Result (CryptoUtils.Envelope string) :=
  Ok (sample_response "e30=" "1").

(** A calendar for the sample runs of [TimeUtils]: the text ["t0"] reads as
    the instant 0 in the first format, ["t1"] as one minute later. *)
Definition sample_fromFormat (timeStr fmt : string) : option Z :=
  if String.eqb fmt "yyyy-MM-dd HH:mm:ss"
  then if String.eqb timeStr "t0" then Some 0
       else if String.eqb timeStr "t1" then Some 60000 else None
  else None.

Definition sample_toFormat (dt : Z) (fmt : string) : string :=
  if dt =? 0 then "t0" else "t1".

(** The sample world with another outcome of the exchange, and a reply
    with the success marker and the given key material as content. *)
Definition sample_world_replying
    (reply : Result (option (CryptoUtils.Envelope string)))
  : @KeyClient.World sample_platform :=
  {| KeyClient.Date_now_check := KeyClient.Date_now_check sample_world;
     KeyClient.Date_now_store := KeyClient.Date_now_store sample_world;
     KeyClient.fs_existsSync := KeyClient.fs_existsSync sample_world;
     KeyClient.pkcs12_keys := KeyClient.pkcs12_keys sample_world;
     KeyClient.axios_post := fun _ _ => reply;
     KeyClient.ambient := KeyClient.ambient sample_world |}.

Definition sample_reply_of (content : string) : CryptoUtils.Envelope string :=
  {| CryptoUtils.data := Some
       {| CryptoUtils.content := Some content;
          CryptoUtils.signature := None;
          CryptoUtils.dataDescription := None |};
     CryptoUtils.globalInfo := None;
     CryptoUtils.returnStateInfo := Some
       {| CryptoUtils.returnCode := Some "00";
          CryptoUtils.returnMessage := Some "SUCCESS" |} |}.

(** The sample world without its key file. *)
Definition missing_pfx_world : @KeyClient.World sample_platform :=
  {| KeyClient.Date_now_check := KeyClient.Date_now_check sample_world;
     KeyClient.Date_now_store := KeyClient.Date_now_store sample_world;
     KeyClient.fs_existsSync := fun _ => false;
     KeyClient.pkcs12_keys := KeyClient.pkcs12_keys sample_world;
     KeyClient.axios_post := KeyClient.axios_post sample_world;
     KeyClient.ambient := KeyClient.ambient sample_world |}.

(** The object after one successful [fetchAesKey] in that world. *)
Definition sample_state : @KeyClient.State sample_platform :=
  KeyClient.final
    (KeyClient.fetchAesKey sample_config sample_world false
       (KeyClient.new_KeyClient "1")).

(* ================================================================== *)
(** ** Vocabulary of the statements *)
(* ================================================================== *)

Local Open Scope list_scope.

(** Linear arithmetic with division and remainder by constants. *)
Ltac lia_div := Z.to_euclidean_division_equations; lia.

(** Decides comparisons of byte ranges. *)
Ltac ranges :=
  repeat match goal with H : in_range _ _ _ = _ |- _ => revert H end;
  unfold second_lo, second_hi;
  repeat match goal with
         | |- context [if in_range ?l ?h ?b then _ else _] =>
             let E := fresh "E" in
             destruct (in_range l h b) eqn:E; revert E
         end;
  unfold in_range;
  repeat match goal with
         | |- context [Z.leb ?a ?b] => destruct (Z.leb_spec a b)
         end;
  cbn [andb]; intros; try discriminate; try reflexivity; try lia.

(** [n] bytes that each hold [n]. *)
Definition pad_block (n : Z) : Buffer := repeat (uint8 n) (Z.to_nat n).

(** The lengths of AES keys. *)
Definition valid_key_length (n : Z) : Prop := n = 16 \/ n = 24 \/ n = 32.

(** A flag of the description of a data section, as [unwrapResponse] reads
    it: ['0'] when the description or the flag is missing or empty. *)
Definition described {C : Type} (d : CryptoUtils.DataSection C)
    (flag : CryptoUtils.DataDescription -> option string) : string :=
  or_default
    (match CryptoUtils.dataDescription d with
     | Some dd => flag dd
     | None => None
     end) "0".

(** The content of an envelope, [''] when there is none. *)
Definition content_text (e : CryptoUtils.Envelope string) : string :=
  or_default
    (match CryptoUtils.data e with
     | Some d => CryptoUtils.content d
     | None => None
     end) "".

(** The cached key is the hexadecimal text of a key of 16, 24 or 32
    bytes. *)
Definition cached_key_wellformed {P : Platform} (s : KeyClient.State) : Prop :=
  forall key,
    KeyClient._aesKey s = Some key ->
    exists aesKey,
      key = Buffer_toString_hex aesKey
      /\ valid_key_length (Buffer_length aesKey).

(** A digit of upper-case hexadecimal. *)
Definition is_upper_hex (c : ascii) : bool :=
  let n := nat_of_ascii c in
  ((48 <=? n)%nat && (n <=? 57)%nat) || ((65 <=? n)%nat && (n <=? 70)%nat).

Fixpoint string_forall (p : ascii -> bool) (s : string) : bool :=
  match s with
  | EmptyString => true
  | String c s' => p c && string_forall p s'
  end.

(* ================================================================== *)
(** ** Bytes and buffers *)
(* ================================================================== *)

Section BufferFacts.

Lemma byte_value_range (b : byte) : 0 <= byte_value b < 256.
Proof.
  unfold byte_value. pose proof (Byte.to_N_bounded b) as Hb. lia.
Qed.

Lemma byte_value_uint8 (n : Z) : 0 <= n < 256 -> byte_value (uint8 n) = n.
Proof.
  intros Hn. unfold uint8, byte_value.
  rewrite Z.mod_small by lia.
  destruct (Byte.of_N (Z.to_N n)) as [b|] eqn:E.
  - apply Byte.to_of_N in E. rewrite E. lia.
  - apply Byte.of_N_None_iff in E. lia.
Qed.

Lemma uint8_byte_value (b : byte) : uint8 (byte_value b) = b.
Proof.
  pose proof (byte_value_range b) as Hb.
  unfold uint8. rewrite Z.mod_small by lia.
  unfold byte_value. rewrite N2Z.id, Byte.of_to_N. reflexivity.
Qed.

Lemma Buffer_equals_spec (a b : Buffer) : Buffer_equals a b = true <-> a = b.
Proof.
  revert b. induction a as [|x a IH]; intros [|y b]; simpl;
    try (split; [discriminate | discriminate]); try tauto.
  rewrite andb_true_iff, IH. split.
  - intros [Hxy ->]. apply Byte.byte_dec_bl in Hxy. now subst.
  - intros H. injection H as -> ->. split; [now apply Byte.byte_dec_lb | reflexivity].
Qed.

Lemma Buffer_concat_pair (a b : Buffer) : Buffer_concat [a; b] = a ++ b.
Proof. unfold Buffer_concat. cbn. now rewrite app_nil_r. Qed.

Lemma Buffer_length_app (a b : Buffer) :
  Buffer_length (a ++ b) = Buffer_length a + Buffer_length b.
Proof. unfold Buffer_length. rewrite length_app. lia. Qed.

Lemma Buffer_length_alloc (size fill : Z) :
  Buffer_length (Buffer_alloc size fill) = Z.max 0 size.
Proof. unfold Buffer_length, Buffer_alloc. rewrite repeat_length. lia. Qed.

Lemma Buffer_length_nonneg (b : Buffer) : 0 <= Buffer_length b.
Proof. unfold Buffer_length. lia. Qed.

Lemma Buffer_length_zero (b : Buffer) : Buffer_length b = 0 -> b = [].
Proof. destruct b; [reflexivity | discriminate]. Qed.

(** [buf.slice(0, k)] is the prefix of [k] bytes. *)
Lemma Buffer_slice_prefix (b : Buffer) (k : Z) :
  0 <= k -> Buffer_slice b 0 k = firstn (Z.to_nat k) b.
Proof.
  intros Hk. unfold Buffer_slice, slice_index. cbv zeta.
  pose proof (Buffer_length_nonneg b) as Hl.
  destruct (Z.ltb_spec 0 0); [lia|]. destruct (Z.ltb_spec k 0); [lia|].
  replace (Z.min 0 (Buffer_length b)) with 0 by lia.
  simpl skipn. rewrite Z.sub_0_r.
  destruct (Z.le_gt_cases k (Buffer_length b)) as [Hle|Hgt].
  - now rewrite Z.min_l by lia.
  - rewrite Z.min_r by lia. unfold Buffer_length in *.
    rewrite !firstn_all2 by lia. reflexivity.
Qed.

(** [buf.slice(-n)] is the suffix of [n] bytes, the whole buffer if it has
    fewer. *)
Lemma Buffer_slice_suffix (b : Buffer) (n : Z) :
  0 < n -> Buffer_slice_from b (- n) = skipn (List.length b - Z.to_nat n) b.
Proof.
  intros Hn. unfold Buffer_slice_from, Buffer_slice, slice_index. cbv zeta.
  pose proof (Buffer_length_nonneg b) as Hl.
  destruct (Z.ltb_spec (- n) 0); [|lia].
  destruct (Z.ltb_spec (Buffer_length b) 0); [lia|].
  rewrite Z.min_id.
  replace (Z.to_nat (Z.max (Buffer_length b + - n) 0))
    with (List.length b - Z.to_nat n)%nat by (unfold Buffer_length; lia).
  apply firstn_all2. rewrite length_skipn. unfold Buffer_length. lia.
Qed.

End BufferFacts.

(* ================================================================== *)
(** ** UTF-8 *)
(* ================================================================== *)

Module Utf8.

Lemma utf8_encode_unfold (b0 : byte) (rest : Buffer) :
  utf8_encode (b0 :: rest)
  = match rest with
    | b1 :: b2 :: rest2 =>
        if in_range 237 237 b0 && in_range 160 191 b1 && in_range 128 191 b2
        then replacement ++ utf8_encode rest2
        else b0 :: utf8_encode rest
    | _ => b0 :: utf8_encode rest
    end.
Proof. reflexivity. Qed.

(** A byte other than ED starts no surrogate. *)
Lemma utf8_encode_cons (b0 : byte) (rest : Buffer) :
  in_range 237 237 b0 = false ->
  utf8_encode (b0 :: rest) = b0 :: utf8_encode rest.
Proof.
  intros H. rewrite utf8_encode_unfold.
  destruct rest as [|b1 [|b2 rest2]]; try reflexivity. now rewrite H.
Qed.

(** Nor does ED before a byte below A0. *)
Lemma utf8_encode_cons_low (b0 b1 : byte) (rest : Buffer) :
  in_range 160 191 b1 = false ->
  utf8_encode (b0 :: b1 :: rest) = b0 :: utf8_encode (b1 :: rest).
Proof.
  intros H. rewrite utf8_encode_unfold.
  destruct rest as [|b2 rest2]; try reflexivity.
  now rewrite H, andb_false_r.
Qed.

Lemma continuation_not_lead (b : byte) :
  in_range 128 191 b = true -> in_range 237 237 b = false.
Proof. intros H. ranges. Qed.

(** Encoding and decoding leave well-formed UTF-8 as it is. *)
Lemma utf8_wellformed_fixed (n : nat) (l : Buffer) :
  (List.length l <= n)%nat -> utf8_wellformed l = true ->
  utf8_decode l = l /\ utf8_encode l = l.
Proof.
  revert l. induction n as [|n IH]; intros l Hlen Hwf.
  - destruct l; [split; reflexivity | cbn in Hlen; lia].
  - destruct l as [|b0 r]; [split; reflexivity|].
    cbn [utf8_wellformed] in Hwf. cbn [utf8_decode].
    cbn [List.length] in Hlen.
    destruct (in_range 0 127 b0) eqn:H0.
    { destruct (IH r ltac:(lia) Hwf) as [Hd He].
      rewrite Hd, utf8_encode_cons, He by ranges. now split. }
    destruct (in_range 194 223 b0) eqn:H1.
    { destruct r as [|b1 r1]; [discriminate|].
      apply andb_true_iff in Hwf. destruct Hwf as [Hb1 Hwf].
      cbn [List.length] in Hlen.
      destruct (IH r1 ltac:(lia) Hwf) as [Hd He]. rewrite Hb1, Hd.
      rewrite (utf8_encode_cons b0) by ranges.
      rewrite (utf8_encode_cons b1), He by now apply continuation_not_lead.
      now split. }
    destruct (in_range 224 239 b0) eqn:H2.
    { destruct r as [|b1 [|b2 r2]]; try discriminate.
      apply andb_true_iff in Hwf. destruct Hwf as [Hwf Hr].
      apply andb_true_iff in Hwf. destruct Hwf as [Hb1 Hb2].
      cbn [List.length] in Hlen.
      destruct (IH r2 ltac:(lia) Hr) as [Hd He]. rewrite Hb1, Hb2, Hd.
      split; [reflexivity|].
      assert (Hstep : utf8_encode (b0 :: b1 :: b2 :: r2)
                      = b0 :: utf8_encode (b1 :: b2 :: r2)).
      { destruct (in_range 237 237 b0) eqn:Hed.
        - apply utf8_encode_cons_low. clear - Hb1 Hed. ranges.
        - now apply utf8_encode_cons. }
      rewrite Hstep.
      rewrite (utf8_encode_cons b1) by (clear - Hb1; ranges).
      rewrite (utf8_encode_cons b2), He by now apply continuation_not_lead.
      reflexivity. }
    destruct (in_range 240 244 b0) eqn:H3; [|discriminate].
    destruct r as [|b1 [|b2 [|b3 r3]]]; try discriminate.
    apply andb_true_iff in Hwf. destruct Hwf as [Hwf Hr].
    apply andb_true_iff in Hwf. destruct Hwf as [Hwf Hb3].
    apply andb_true_iff in Hwf. destruct Hwf as [Hb1 Hb2].
    cbn [List.length] in Hlen.
    destruct (IH r3 ltac:(lia) Hr) as [Hd He]. rewrite Hb1, Hb2, Hb3, Hd.
    split; [reflexivity|].
    rewrite (utf8_encode_cons b0) by (clear - H3; ranges).
    rewrite (utf8_encode_cons b1) by (clear - Hb1; ranges).
    rewrite (utf8_encode_cons b2) by now apply continuation_not_lead.
    rewrite (utf8_encode_cons b3), He by now apply continuation_not_lead.
    reflexivity.
Qed.

Lemma utf8_decode_wellformed (l : Buffer) :
  utf8_wellformed l = true -> utf8_decode l = l.
Proof. intros H. now apply (utf8_wellformed_fixed (List.length l)). Qed.

Lemma utf8_encode_wellformed (l : Buffer) :
  utf8_wellformed l = true -> utf8_encode l = l.
Proof. intros H. now apply (utf8_wellformed_fixed (List.length l)). Qed.

(** The encoder keeps the number of bytes, so it yields no bytes for the
    empty string only. *)
Lemma utf8_encode_length (n : nat) (l : Buffer) :
  (List.length l <= n)%nat ->
  List.length (utf8_encode l) = List.length l.
Proof.
  revert l. induction n as [|n IH]; intros l Hlen.
  - destruct l; [reflexivity | cbn in Hlen; lia].
  - destruct l as [|b0 r]; [reflexivity|]. rewrite utf8_encode_unfold.
    cbn [List.length] in Hlen.
    assert (Hr : List.length (b0 :: utf8_encode r) = List.length (b0 :: r))
      by (cbn [List.length]; now rewrite IH by lia).
    destruct r as [|b1 [|b2 r2]]; try exact Hr.
    destruct (_ && _); [|exact Hr].
    cbn [List.length] in *. rewrite length_app, IH by lia. reflexivity.
Qed.

Lemma length_list_byte_of_string (s : string) :
  List.length (list_byte_of_string s) = String.length s.
Proof.
  unfold list_byte_of_string. rewrite length_map.
  induction s as [|c s IH]; cbn; congruence.
Qed.

Lemma Buffer_from_utf8_length (s : string) :
  Buffer_length (Buffer_from_utf8 s) = String_length s.
Proof.
  unfold Buffer_length, Buffer_from_utf8, String_length.
  rewrite (utf8_encode_length (List.length (list_byte_of_string s)))
    by reflexivity.
  now rewrite length_list_byte_of_string.
Qed.

Lemma Buffer_from_utf8_empty (s : string) :
  Buffer_from_utf8 s = [] -> s = ""%string.
Proof.
  intros H. pose proof (Buffer_from_utf8_length s) as Hl. rewrite H in Hl.
  destruct s; [reflexivity | discriminate].
Qed.

(** Text without unpaired surrogates survives encoding and decoding. *)
Lemma Buffer_from_utf8_wellformed (s : string) :
  wellformed_text s = true -> Buffer_from_utf8 s = list_byte_of_string s.
Proof. apply utf8_encode_wellformed. Qed.

Lemma utf8_roundtrip (s : string) :
  wellformed_text s = true -> Buffer_toString_utf8 (Buffer_from_utf8 s) = s.
Proof.
  intros H. unfold Buffer_toString_utf8.
  rewrite (Buffer_from_utf8_wellformed s H).
  rewrite utf8_decode_wellformed by exact H.
  apply string_of_list_byte_of_string.
Qed.

(** What the decoder returns is well-formed. *)
Lemma utf8_wellformed_replacement (l : Buffer) :
  utf8_wellformed (replacement ++ l) = utf8_wellformed l.
Proof. reflexivity. Qed.

Lemma utf8_decode_is_wellformed (n : nat) (l : Buffer) :
  (List.length l <= n)%nat -> utf8_wellformed (utf8_decode l) = true.
Proof.
  revert l. induction n as [|n IH]; intros l Hlen.
  - destruct l; [reflexivity | cbn in Hlen; lia].
  - destruct l as [|b0 r]; [reflexivity|].
    cbn [utf8_decode]. cbn [List.length] in Hlen.
    assert (Hrest : forall x,
              (List.length x <= n)%nat ->
              utf8_wellformed (replacement ++ utf8_decode x) = true)
      by (intros x Hx; rewrite utf8_wellformed_replacement; now apply IH).
    destruct (in_range 0 127 b0) eqn:H0.
    { cbn [utf8_wellformed]. rewrite H0. apply IH. lia. }
    destruct (in_range 194 223 b0) eqn:H1.
    { destruct r as [|b1 r1]; [reflexivity|]. cbn [List.length] in Hlen.
      destruct (in_range 128 191 b1) eqn:Hb1; [|apply Hrest; cbn; lia].
      cbn [utf8_wellformed]. rewrite H0, H1, Hb1. apply IH. lia. }
    destruct (in_range 224 239 b0) eqn:H2.
    { destruct r as [|b1 r1]; [reflexivity|]. cbn [List.length] in Hlen.
      destruct (in_range (second_lo b0) (second_hi b0) b1) eqn:Hb1;
        [|apply Hrest; cbn; lia].
      destruct r1 as [|b2 r2]; [reflexivity|]. cbn [List.length] in Hlen.
      destruct (in_range 128 191 b2) eqn:Hb2; [|apply Hrest; cbn; lia].
      cbn [utf8_wellformed]. rewrite H0, H1, H2, Hb1, Hb2. apply IH. lia. }
    destruct (in_range 240 244 b0) eqn:H3; [|apply Hrest; lia].
    destruct r as [|b1 r1]; [reflexivity|]. cbn [List.length] in Hlen.
    destruct (in_range (second_lo b0) (second_hi b0) b1) eqn:Hb1;
      [|apply Hrest; cbn; lia].
    destruct r1 as [|b2 r2]; [reflexivity|]. cbn [List.length] in Hlen.
    destruct (in_range 128 191 b2) eqn:Hb2; [|apply Hrest; cbn; lia].
    destruct r2 as [|b3 r3]; [reflexivity|]. cbn [List.length] in Hlen.
    destruct (in_range 128 191 b3) eqn:Hb3; [|apply Hrest; cbn; lia].
    cbn [utf8_wellformed]. rewrite H0, H1, H2, H3, Hb1, Hb2, Hb3.
    apply IH. lia.
Qed.

Lemma Buffer_toString_utf8_wellformed (b : Buffer) :
  wellformed_text (Buffer_toString_utf8 b) = true.
Proof.
  unfold wellformed_text, Buffer_toString_utf8.
  rewrite list_byte_of_string_of_list_byte.
  now apply (utf8_decode_is_wellformed (List.length b)).
Qed.

(** Encoding and decoding give a string back exactly when it has no
    unpaired surrogate. *)
Lemma utf8_roundtrip_iff (s : string) :
  Buffer_toString_utf8 (Buffer_from_utf8 s) = s <-> wellformed_text s = true.
Proof.
  split; [|apply utf8_roundtrip].
  intros H. rewrite <- H. apply Buffer_toString_utf8_wellformed.
Qed.

End Utf8.

(* ================================================================== *)
(** ** PKCS7 padding *)
(* ================================================================== *)

Module Pkcs7.
Import CryptoUtils.

Lemma pad_block_alloc (n : Z) : Buffer_alloc n n = pad_block n.
Proof. reflexivity. Qed.

Lemma pad_block_length (n : Z) : 0 <= n -> Buffer_length (pad_block n) = n.
Proof. intros. unfold Buffer_length, pad_block. rewrite repeat_length. lia. Qed.

Lemma pad_block_values (n : Z) (b : byte) :
  0 <= n < 256 -> In b (pad_block n) -> byte_value b = n.
Proof.
  intros Hn Hin. apply repeat_spec in Hin. subst b. now apply byte_value_uint8.
Qed.

(** The last byte of a buffer that ends with a pad block is the pad length. *)
Lemma last_of_padded (out : Buffer) (n : Z) :
  1 <= n <= 16 ->
  Buffer_get (out ++ pad_block n) (Buffer_length (out ++ pad_block n) - 1)
  = Some n.
Proof.
  intros Hn. unfold Buffer_get.
  rewrite Buffer_length_app, pad_block_length by lia.
  pose proof (Buffer_length_nonneg out) as Hl.
  destruct (Z.ltb_spec (Buffer_length out + n - 1) 0); [lia|].
  rewrite nth_error_app2 by (unfold Buffer_length in *; lia).
  unfold pad_block. rewrite nth_error_repeat by (unfold Buffer_length in *; lia).
  simpl. f_equal. apply byte_value_uint8. lia.
Qed.

Lemma pkcs7Unpad_padded (out : Buffer) (n : Z) :
  1 <= n <= 16 -> pkcs7Unpad (out ++ pad_block n) = Ok out.
Proof.
  intros Hn. unfold pkcs7Unpad.
  pose proof (Buffer_length_nonneg out) as Hl.
  assert (Hlen : Buffer_length (out ++ pad_block n) = Buffer_length out + n)
    by (rewrite Buffer_length_app, pad_block_length; lia).
  destruct (Z.eqb_spec (Buffer_length (out ++ pad_block n)) 0); [lia|].
  rewrite last_of_padded by exact Hn. unfold AES_BLOCK_SIZE.
  destruct (Z.ltb_spec n 1); [lia|].
  destruct (Z.gtb_spec n 16); [lia|]. simpl orb. cbv iota.
  rewrite Buffer_slice_suffix by lia.
  assert (Hsuf : skipn (List.length (out ++ pad_block n) - Z.to_nat n)
                   (out ++ pad_block n) = pad_block n).
  { rewrite length_app. unfold pad_block at 1. rewrite repeat_length.
    replace (List.length out + Z.to_nat n - Z.to_nat n)%nat
      with (List.length out + 0)%nat by lia.
    now rewrite skipn_app, Nat.add_0_r, skipn_all, Nat.sub_diag. }
  rewrite Hsuf, pad_block_alloc.
  rewrite (proj2 (Buffer_equals_spec _ _) eq_refl). simpl negb. cbv iota.
  f_equal. rewrite Buffer_slice_prefix by lia. rewrite Hlen.
  replace (Z.to_nat (Buffer_length out + n - n)) with (List.length out + 0)%nat
    by (unfold Buffer_length; lia).
  now rewrite firstn_app_2, app_nil_r.
Qed.

(** What a successful unpad tells about its argument. *)
Lemma pkcs7Unpad_Ok_inv (data out : Buffer) :
  pkcs7Unpad data = Ok out ->
  exists n, 1 <= n <= 16
            /\ Buffer_get data (Buffer_length data - 1) = Some n
            /\ data = out ++ pad_block n.
Proof.
  unfold pkcs7Unpad. intros H.
  destruct (Z.eqb_spec (Buffer_length data) 0) as [|Hne]; [discriminate|].
  destruct (Buffer_get data (Buffer_length data - 1)) as [p|] eqn:Hp;
    [|discriminate].
  unfold AES_BLOCK_SIZE in H.
  destruct (Z.ltb_spec p 1); [discriminate|].
  destruct (Z.gtb_spec p 16); [discriminate|]. simpl orb in H. cbv iota in H.
  destruct (Buffer_equals (Buffer_slice_from data (- p)) (Buffer_alloc p p))
    eqn:Heq; [|discriminate].
  simpl in H. injection H as <-.
  apply Buffer_equals_spec in Heq.
  rewrite Buffer_slice_suffix, pad_block_alloc in Heq by lia.
  exists p. split; [lia|]. split; [reflexivity|].
  assert (Hlen : (Z.to_nat p <= List.length data)%nat).
  { apply (f_equal (@List.length byte)) in Heq.
    rewrite length_skipn in Heq. unfold pad_block in Heq.
    rewrite repeat_length in Heq. lia. }
  rewrite Buffer_slice_prefix by (unfold Buffer_length; lia).
  replace (Z.to_nat (Buffer_length data - p))
    with (List.length data - Z.to_nat p)%nat by (unfold Buffer_length; lia).
  rewrite <- Heq. symmetry. apply firstn_skipn.
Qed.

(** The last byte of a buffer that is not empty is defined. *)
Lemma last_defined (data : Buffer) :
  Buffer_length data <> 0 ->
  exists p, Buffer_get data (Buffer_length data - 1) = Some p.
Proof.
  intros Hne. unfold Buffer_get.
  pose proof (Buffer_length_nonneg data) as Hl.
  destruct (Z.ltb_spec (Buffer_length data - 1) 0); [lia|].
  destruct (nth_error data (Z.to_nat (Buffer_length data - 1))) as [b|] eqn:E.
  - now exists (byte_value b).
  - apply nth_error_None in E. unfold Buffer_length in *. lia.
Qed.

Lemma pkcs7Unpad_Throw_kind (data : Buffer) (e : Exception) :
  pkcs7Unpad data = Throw e -> isEncryptionException e = true.
Proof.
  unfold pkcs7Unpad. intros H.
  destruct (Z.eqb_spec (Buffer_length data) 0) as [|Hne].
  - now injection H as <-.
  - destruct (last_defined data Hne) as [p Hp]. rewrite Hp in H.
    destruct ((p <? 1) || (p >? AES_BLOCK_SIZE)).
    + now injection H as <-.
    + destruct (negb _); [now injection H as <- | discriminate].
Qed.


Lemma pad_length_range (x : Buffer) :
  1 <= 16 - Buffer_length x mod 16 <= 16.
Proof. pose proof (Buffer_length_nonneg x). lia_div. Qed.

Lemma pkcs7Pad_buffer (x : Buffer) :
  pkcs7Pad (IsBuffer x) = x ++ pad_block (16 - Buffer_length x mod 16).
Proof.
  pose proof (Buffer_length_nonneg x). unfold pkcs7Pad, AES_BLOCK_SIZE.
  rewrite Buffer_concat_pair, Z.rem_mod_nonneg by lia. reflexivity.
Qed.

Lemma pkcs7Pad_length (x : Buffer) :
  Buffer_length (pkcs7Pad (IsBuffer x))
  = Buffer_length x + (16 - Buffer_length x mod 16).
Proof.
  pose proof (pad_length_range x).
  rewrite pkcs7Pad_buffer, Buffer_length_app, pad_block_length; lia.
Qed.

Lemma pkcs7Unpad_pkcs7Pad (x : Buffer) :
  pkcs7Unpad (pkcs7Pad (IsBuffer x)) = Ok x.
Proof.
  rewrite pkcs7Pad_buffer. apply pkcs7Unpad_padded, pad_length_range.
Qed.

(** C2. For every byte sequence [x] (those of length 0 to 64 among them),
    [pkcs7Pad] appends [n] bytes that each hold the value [n], where
    [n = 16 - (len mod 16)] lies in 1..16 and is a whole block of 16 when the
    length is a multiple of 16, and [pkcs7Unpad] gives [x] back. *)
Theorem pkcs7_pad_unpad_roundtrip (x : Buffer) :
  let n := 16 - Buffer_length x mod 16 in
  1 <= n <= 16
  /\ (Buffer_length x mod 16 = 0 -> n = 16)
  /\ pkcs7Pad (IsBuffer x) = x ++ pad_block n
  /\ (forall b, In b (pad_block n) -> byte_value b = n)
  /\ Buffer_length (pkcs7Pad (IsBuffer x)) = Buffer_length x + n
  /\ pkcs7Unpad (pkcs7Pad (IsBuffer x)) = Ok x.
Proof.
  intros n. pose proof (pad_length_range x) as Hn. fold n in Hn.
  split; [exact Hn|]. split; [subst n; lia|].
  split; [apply pkcs7Pad_buffer|].
  split; [intros b; apply pad_block_values; lia|].
  split; [apply pkcs7Pad_length | apply pkcs7Unpad_pkcs7Pad].
Qed.

(** C5. [pkcs7Unpad] verifies the padding strictly.  It raises
    [EncryptionException] when the pad length read from the last byte is
    outside 1..16, and when one of the trailing bytes differs from that
    length; it raises nothing else; and it succeeds exactly on the buffers
    that end with [n] bytes holding [n], for some [n] in 1..16, which it
    strips: no buffer with other trailing bytes is accepted. *)
Theorem pkcs7Unpad_strict (data : Buffer) :
  (forall p, Buffer_get data (Buffer_length data - 1) = Some p ->
             p < 1 \/ 16 < p ->
             exists msg, pkcs7Unpad data = Throw (EncryptionException msg))
  /\ (forall p b, Buffer_get data (Buffer_length data - 1) = Some p ->
               In b (Buffer_slice_from data (- p)) -> byte_value b <> p ->
               exists msg, pkcs7Unpad data = Throw (EncryptionException msg))
  /\ (forall e, pkcs7Unpad data = Throw e -> isEncryptionException e = true)
  /\ (forall out, pkcs7Unpad data = Ok out <->
                  exists n, 1 <= n <= 16 /\ data = out ++ pad_block n).
Proof.
  assert (Hkind : forall e, pkcs7Unpad data = Throw e ->
                            exists msg, e = EncryptionException msg).
  { intros e He. apply pkcs7Unpad_Throw_kind in He.
    destruct e; try discriminate. now eexists. }
  assert (Hthrow : (forall out, pkcs7Unpad data <> Ok out) ->
                   exists msg, pkcs7Unpad data = Throw (EncryptionException msg)).
  { intros Hno. destruct (pkcs7Unpad data) as [out|e] eqn:E.
    - now elim (Hno out).
    - destruct (Hkind e eq_refl) as [msg ->]. now exists msg. }
  split; [|split; [|split]].
  - intros p Hp Hrange. apply Hthrow. intros out Hout.
    apply pkcs7Unpad_Ok_inv in Hout. destruct Hout as (n & Hn & Hlast & _).
    rewrite Hp in Hlast. injection Hlast as ->. lia.
  - intros p b Hp Hin Hb. apply Hthrow. intros out Hout.
    apply pkcs7Unpad_Ok_inv in Hout. destruct Hout as (n & Hn & Hlast & Hdata).
    rewrite Hp in Hlast. injection Hlast as ->.
    apply Hb. apply (pad_block_values n); [lia|].
    rewrite Buffer_slice_suffix in Hin by lia. subst data.
    rewrite length_app in Hin. unfold pad_block in Hin at 1.
    rewrite repeat_length in Hin.
    replace (List.length out + Z.to_nat n - Z.to_nat n)%nat
      with (List.length out + 0)%nat in Hin by lia.
    now rewrite skipn_app, Nat.add_0_r, skipn_all, Nat.sub_diag in Hin.
  - apply pkcs7Unpad_Throw_kind.
  - intros out. split.
    + intros Hout. apply pkcs7Unpad_Ok_inv in Hout.
      destruct Hout as (n & Hn & _ & Hdata). now exists n.
    + intros (n & Hn & ->). now apply pkcs7Unpad_padded.
Qed.

End Pkcs7.

(* ================================================================== *)
(** ** The AES-ECB codec *)
(* ================================================================== *)

Module Codec.
Import CryptoUtils Pkcs7.

Lemma includes_key_lengths (n : Z) :
  includes [16; 24; 32] n = true <-> valid_key_length n.
Proof.
  unfold includes, valid_key_length. cbn [existsb].
  rewrite !orb_true_iff, !Z.eqb_eq. intuition discriminate.
Qed.

(** The sample runtime satisfies the laws of the codec. *)
Lemma sample_platform_laws : CodecLaws sample_platform.
Proof.
  constructor; cbn.
  - intros _ data _ _. apply length_rev.
  - intros _ data _ _. apply rev_involutive.
  - apply list_byte_of_string_of_list_byte.
  - intros data H. apply (f_equal list_byte_of_string) in H.
    now rewrite list_byte_of_string_of_list_byte in H.
  - reflexivity.
Qed.

(** A key that normalizes to a supported length is not the empty string. *)
Lemma valid_key_truthy (key : string) :
  valid_key_length (Buffer_length (normalizeAesKey key)) ->
  truthy_string key = true.
Proof.
  destruct key as [|c key]; [|reflexivity].
  cbv. intros [H|[H|H]]; discriminate.
Qed.

Section WithPlatform.
Context {P : Platform} {L : CodecLaws P}.

Lemma padded_whole_blocks (x : Buffer) :
  Z.rem (Buffer_length (pkcs7Pad (IsBuffer x))) 16 = 0.
Proof.
  rewrite pkcs7Pad_length.
  replace (Buffer_length x + (16 - Buffer_length x mod 16))
    with ((Buffer_length x / 16 + 1) * 16)
    by (pose proof (Z.div_mod (Buffer_length x) 16 ltac:(lia)); lia).
  now apply Z.rem_mul.
Qed.

Lemma padded_not_empty (x : Buffer) : pkcs7Pad (IsBuffer x) <> [].
Proof.
  intros E. pose proof (pkcs7Pad_length x) as Hlen. rewrite E in Hlen.
  change (Buffer_length []) with 0 in Hlen.
  pose proof (pad_length_range x). pose proof (Buffer_length_nonneg x). lia.
Qed.

Lemma encryptAesEcb_valid_key (plaintext key : string) :
  valid_key_length (Buffer_length (normalizeAesKey key)) ->
  encryptAesEcb plaintext key
  = Ok (base64_encode
          (aes_ecb_encrypt (normalizeAesKey key)
             (pkcs7Pad (IsString plaintext)))).
Proof.
  intros Hk. apply includes_key_lengths in Hk.
  unfold encryptAesEcb, createCipheriv_run, AES_BLOCK_SIZE.
  rewrite Hk. cbn [negb bind].
  change (pkcs7Pad (IsString plaintext))
    with (pkcs7Pad (IsBuffer (Buffer_from_utf8 plaintext))).
  now rewrite padded_whole_blocks.
Qed.

(** The text that [encryptAesEcb] returns under a valid key is not empty,
    and decrypts to what encoding and decoding make of the plaintext. *)
Lemma decrypt_encrypted (plaintext key : string) :
  valid_key_length (Buffer_length (normalizeAesKey key)) ->
  let encrypted :=
    base64_encode
      (aes_ecb_encrypt (normalizeAesKey key) (pkcs7Pad (IsString plaintext))) in
  truthy_string encrypted = true
  /\ decryptAesEcb encrypted (Some key) (Some "2"%string) (Some "0"%string)
     = Ok (Buffer_toString_utf8 (Buffer_from_utf8 plaintext)).
Proof.
  intros Hk encrypted.
  set (padded := pkcs7Pad (IsString plaintext)) in *.
  set (raw := aes_ecb_encrypt (normalizeAesKey key) padded) in *.
  assert (Hincl : includes [16; 24; 32] (Buffer_length (normalizeAesKey key))
                  = true) by now apply includes_key_lengths.
  assert (Hblocks : Z.rem (Buffer_length padded) 16 = 0)
    by apply padded_whole_blocks.
  assert (Hlen : Buffer_length raw = Buffer_length padded)
    by (unfold Buffer_length, raw; now rewrite aes_ecb_length).
  assert (Htruthy : truthy_string encrypted = true).
  { unfold encrypted. destruct (base64_encode raw) eqn:E;
      [exfalso | reflexivity].
    apply base64_nonempty in E. rewrite E in Hlen.
    apply (padded_not_empty (Buffer_from_utf8 plaintext)).
    apply Buffer_length_zero. symmetry. exact Hlen. }
  split; [exact Htruthy|].
  unfold decryptAesEcb. rewrite Htruthy. cbn [negb].
  unfold encrypted. rewrite base64_inverse.
  change (String.eqb "0" "1") with false.
  change (String.eqb "2" "2") with true. cbn [bind].
  rewrite (valid_key_truthy key Hk). cbn [negb].
  unfold createDecipheriv_run, AES_BLOCK_SIZE.
  rewrite Hlen, Hblocks, Hincl. cbn [negb Z.eqb bind].
  unfold raw. rewrite aes_ecb_inverse by assumption.
  pose proof (pkcs7Unpad_pkcs7Pad (Buffer_from_utf8 plaintext)) as Hunpad.
  change (pkcs7Pad (IsBuffer (Buffer_from_utf8 plaintext))) with padded
    in Hunpad.
  rewrite Hunpad. reflexivity.
Qed.

End WithPlatform.

(** C1, as the code has it.  For every key string whose normalized key has
    16, 24 or 32 bytes and every plaintext string,
    [encryptAesEcb(plaintext, key)] returns a ciphertext, and
    [decryptAesEcb(ciphertext, key, '2', '0')] returns what
    [toString('utf8')] makes of [Buffer.from(plaintext, 'utf8')]: this is
    the plaintext exactly when the plaintext has no unpaired surrogate.  The
    runtime is taken to satisfy [CodecLaws]. *)
Theorem decrypt_encrypt_roundtrip {P : Platform} (L : CodecLaws P)
    (plaintext key : string) :
  valid_key_length (Buffer_length (normalizeAesKey key)) ->
  exists ciphertext,
    encryptAesEcb plaintext key = Ok ciphertext
    /\ decryptAesEcb ciphertext (Some key) (Some "2"%string) (Some "0"%string)
       = Ok (Buffer_toString_utf8 (Buffer_from_utf8 plaintext))
    /\ (decryptAesEcb ciphertext (Some key) (Some "2"%string)
          (Some "0"%string)
        = Ok plaintext
        <-> wellformed_text plaintext = true).
Proof.
  intros Hk. eexists. split; [now apply encryptAesEcb_valid_key|].
  destruct (decrypt_encrypted plaintext key Hk) as [_ Hdec].
  split; [exact Hdec|].
  rewrite Hdec, <- Utf8.utf8_roundtrip_iff. split; congruence.
Qed.

Lemma decrypt_encrypt_roundtrip_witness :
  exists ciphertext,
    @encryptAesEcb sample_platform "hello" "0123456789abcdef" = Ok ciphertext
    /\ @decryptAesEcb sample_platform ciphertext (Some "0123456789abcdef")
         (Some "2") (Some "0") = Ok "hello".
Proof.
  destruct (decrypt_encrypt_roundtrip sample_platform_laws
              "hello" "0123456789abcdef") as (ciphertext & Henc & _ & Hdec).
  - vm_compute. now left.
  - exists ciphertext. split; [exact Henc | now apply Hdec].
Defined.

(** C1 as stated fails on a plaintext with an unpaired surrogate: the string
    ['\uD800'] is encrypted under a key of 16 bytes, and decrypting the
    ciphertext under the same key returns ['\uFFFD']. *)
Lemma roundtrip_surrogate_counterexample :
  valid_key_length (Buffer_length (normalizeAesKey "0123456789abcdef"))
  /\ exists ciphertext,
       @encryptAesEcb sample_platform lone_surrogate "0123456789abcdef"
       = Ok ciphertext
       /\ @decryptAesEcb sample_platform ciphertext (Some "0123456789abcdef")
            (Some "2") (Some "0")
          = Ok replacement_character
       /\ replacement_character <> lone_surrogate.
Proof.
  split; [vm_compute; now left|].
  eexists. split; [reflexivity|]. split; [reflexivity | discriminate].
Qed.

(** C10. [decryptAesEcb] called with the empty ciphertext returns the empty
    string at once, whatever [encryptCode] and [zipCode] are (given or left
    to their defaults) and whether a key is supplied or not: neither the
    gzip magic number, nor the key, nor the padding is looked at. *)
Theorem decryptAesEcb_empty {P : Platform}
    (key encryptCode zipCode : option string) :
  decryptAesEcb "" key encryptCode zipCode = Ok ""%string.
Proof. reflexivity. Qed.

End Codec.

(* ================================================================== *)
(** ** The session key *)
(* ================================================================== *)

Module SessionKey.
Import CryptoUtils KeyClient.

Lemma not_valid_key_length (n : Z) :
  ~ valid_key_length n -> includes [16; 24; 32] n = false.
Proof.
  intros H. destruct (includes [16; 24; 32] n) eqn:E; [|reflexivity].
  apply Codec.includes_key_lengths in E. contradiction.
Qed.

(** Lines 141 to 152 on their own, case by case. *)
Lemma fetchAesKey_normalize_policy (candidate : Buffer) :
  let len := Buffer_length candidate in
  (len = 8 ->
   fetchAesKey_normalize candidate = Ok (firstn 16 (candidate ++ candidate))
   /\ firstn 16 (candidate ++ candidate) = candidate ++ candidate)
  /\ (valid_key_length len -> fetchAesKey_normalize candidate = Ok candidate)
  /\ (len <> 8 -> ~ valid_key_length len -> 16 <= len ->
      fetchAesKey_normalize candidate = Ok (firstn 16 candidate))
  /\ (len <> 8 -> len < 16 ->
      firstn 16 candidate = candidate
      /\ fetchAesKey_normalize candidate
         = Throw (EncryptionException
                    ("Cannot use AES key of length " ++ string_of_Z len)))
  /\ ((exists e, fetchAesKey_normalize candidate = Throw e)
      <-> len < 16 /\ len <> 8)
  /\ (forall key, fetchAesKey_normalize candidate = Ok key ->
                  valid_key_length (Buffer_length key)).
Proof.
  intros len. pose proof (Buffer_length_nonneg candidate) as Hl. fold len in Hl.
  assert (H8 : len = 8 ->
               fetchAesKey_normalize candidate = Ok (candidate ++ candidate)
               /\ firstn 16 (candidate ++ candidate) = candidate ++ candidate).
  { intros E. unfold fetchAesKey_normalize. fold len. rewrite E.
    cbn [Z.eqb Pos.eqb]. rewrite Buffer_concat_pair, Buffer_slice_prefix by lia.
    assert (Hfull : firstn (Z.to_nat 16) (candidate ++ candidate)
                    = candidate ++ candidate).
    { apply firstn_all2. rewrite length_app.
      unfold len, Buffer_length in E. lia. }
    rewrite Hfull, Buffer_length_app. fold len. rewrite E.
    split; [reflexivity | exact Hfull]. }
  assert (Hvalid : valid_key_length len ->
                   fetchAesKey_normalize candidate = Ok candidate).
  { intros Hv. unfold fetchAesKey_normalize. fold len.
    destruct (Z.eqb_spec len 8) as [E|_];
      [destruct Hv as [Hv|[Hv|Hv]]; lia|].
    rewrite (proj2 (Codec.includes_key_lengths len) Hv). fold len.
    now rewrite (proj2 (Codec.includes_key_lengths len) Hv). }
  assert (Hlong : len <> 8 -> ~ valid_key_length len -> 16 <= len ->
                  fetchAesKey_normalize candidate = Ok (firstn 16 candidate)).
  { intros Hne Hnv Hge. unfold fetchAesKey_normalize. fold len.
    destruct (Z.eqb_spec len 8) as [E|_]; [contradiction|].
    rewrite (not_valid_key_length len Hnv), Buffer_slice_prefix by lia.
    replace (Buffer_length (firstn (Z.to_nat 16) candidate)) with 16
      by (unfold Buffer_length; rewrite length_firstn;
          unfold len, Buffer_length in Hge; lia).
    reflexivity. }
  assert (Hshort : len <> 8 -> len < 16 ->
                   firstn 16 candidate = candidate
                   /\ fetchAesKey_normalize candidate
                      = Throw (EncryptionException
                                 ("Cannot use AES key of length "
                                  ++ string_of_Z len))).
  { intros Hne Hlt.
    assert (Hfull : firstn (Z.to_nat 16) candidate = candidate)
      by (apply firstn_all2; unfold len, Buffer_length in Hlt; lia).
    split; [exact Hfull|].
    unfold fetchAesKey_normalize. fold len.
    destruct (Z.eqb_spec len 8) as [E|_]; [contradiction|].
    assert (Hnv : ~ valid_key_length len) by (intros [H|[H|H]]; lia).
    rewrite (not_valid_key_length len Hnv), Buffer_slice_prefix by lia.
    rewrite Hfull. fold len. now rewrite (not_valid_key_length len Hnv). }
  split; [intros E; destruct (H8 E) as [-> Hfull]; now rewrite Hfull|].
  split; [exact Hvalid|]. split; [exact Hlong|]. split; [exact Hshort|].
  assert (Hcases : len = 8 \/ valid_key_length len
                   \/ (len <> 8 /\ ~ valid_key_length len /\ 16 <= len)
                   \/ (len <> 8 /\ len < 16)).
  { unfold valid_key_length. lia. }
  split.
  - split.
    + intros [e He].
      destruct Hcases as [E|[Hv|[(Hne & Hnv & Hge)|Hs]]].
      * destruct (H8 E) as [H _]. congruence.
      * rewrite (Hvalid Hv) in He. discriminate.
      * rewrite (Hlong Hne Hnv Hge) in He. discriminate.
      * lia.
    + intros [Hlt Hne]. destruct (Hshort Hne Hlt) as [_ H]. eauto.
  - intros key Hkey.
    destruct Hcases as [E|[Hv|[(Hne & Hnv & Hge)|[Hne Hlt]]]].
    + destruct (H8 E) as [H _].
      assert (key = candidate ++ candidate) by congruence. subst key.
      rewrite Buffer_length_app. fold len. left. lia.
    + assert (key = candidate) by (rewrite (Hvalid Hv) in Hkey; congruence).
      now subst key.
    + assert (key = firstn 16 candidate)
        by (rewrite (Hlong Hne Hnv Hge) in Hkey; congruence).
      subst key. left. unfold Buffer_length. rewrite length_firstn.
      unfold len, Buffer_length in Hge. lia.
    + destruct (Hshort Hne Hlt) as [_ H]. congruence.
Qed.

Section WithPlatform.
Context {P : Platform}.

Lemma same_cache_refl (s : State) : same_cache s s.
Proof. repeat split. Qed.

Lemma same_cache_trans (s1 s2 s3 : State) :
  same_cache s1 s2 -> same_cache s2 s3 -> same_cache s1 s3.
Proof.
  intros (A1 & A2 & A3) (B1 & B2 & B3). repeat split; congruence.
Qed.

Lemma same_cache_consistent (s s' : State) :
  same_cache s s' -> cache_consistent s -> cache_consistent s'.
Proof.
  intros (A1 & A2 & A3) [(B1 & B2 & B3)|(k & t & j & B1 & B2 & B3)].
  - left. repeat split; congruence.
  - right. exists k, t, j. repeat split; congruence.
Qed.

Lemma loadPrivateKey_same_cache (cfg : Config) (w : World) (s : State) :
  same_cache s (snd (loadPrivateKey cfg w s)).
Proof.
  unfold loadPrivateKey. destruct (_privateKey s); [apply same_cache_refl|].
  destruct (loadPrivateKeyFromPfx cfg w); cbn; repeat split.
Qed.

Lemma getPrivateKey_same_cache (cfg : Config) (w : World) (s : State) :
  same_cache s (snd (getPrivateKey cfg w s)).
Proof.
  unfold getPrivateKey. destruct (_privateKey s); [apply same_cache_refl|].
  apply loadPrivateKey_same_cache.
Qed.

Lemma signData_same_cache (cfg : Config) (w : World) (data : string)
    (s : State) :
  same_cache s (snd (signData cfg w data s)).
Proof.
  unfold signData. pose proof (getPrivateKey_same_cache cfg w s) as H.
  destruct (getPrivateKey cfg w s) as [[k|e] s1]; exact H.
Qed.

Lemma fetchAesKey_request_same_cache (cfg : Config) (w : World)
    (force : bool) (s : State) :
  same_cache s (snd (fetchAesKey_request cfg w force s)).
Proof.
  unfold fetchAesKey_request.
  destruct (if force then None else cache_hit w s);
    [apply same_cache_refl|].
  pose proof (loadPrivateKey_same_cache cfg w s) as H.
  destruct (loadPrivateKey cfg w s) as [[k|e] s1]; exact H.
Qed.

(** The second half of [fetchAesKey] either raises and leaves the object as
    it is, or stores key, timestamp and content of a successful reply. *)
Lemma fetchAesKey_response_cases (w : World) (privateKey : PrivateKey)
    (reply : Result (option (Envelope string))) (s : State) :
  (exists e, fetchAesKey_response w privateKey reply s = (Throw e, s))
  \/ (exists respJson aesKey contentJson,
        reply = Ok (Some respJson) /\ reply_success respJson
        /\ extract_key privateKey respJson = Ok (aesKey, contentJson)
        /\ fetchAesKey_response w privateKey reply s
           = (Ok aesKey, stored w aesKey contentJson s)).
Proof.
  unfold fetchAesKey_response. destruct reply as [[respJson|]|err];
    [|left; eauto|left; eauto].
  destruct (returnStateInfo respJson) as [r|] eqn:Hr;
    [|left; cbn; eauto].
  destruct (returnMessage r) as [m|] eqn:Hm; [|left; cbn; eauto].
  destruct (String.eqb_spec m "SUCCESS") as [->|Hne]; cbn [negb];
    [|left; eauto].
  destruct (extract_key privateKey respJson) as [[aesKey contentJson]|err]
    eqn:He; [|left; eauto].
  right. exists respJson, aesKey, contentJson.
  repeat split; try reflexivity; [now exists r | exact He].
Qed.

Lemma stored_populated (w : World) (aesKey : string) (contentJson : json)
    (s : State) :
  cache_populated (stored w aesKey contentJson s).
Proof. unfold cache_populated. cbn. eauto 7. Qed.

Lemma Step_consistent (cfg : Config) (s s' : State) :
  Step cfg s s' -> cache_consistent s -> cache_consistent s'.
Proof.
  intros HS Hc. destruct HS.
  - exact Hc.
  - eapply same_cache_consistent; [apply loadPrivateKey_same_cache | exact Hc].
  - eapply same_cache_consistent; [apply getPrivateKey_same_cache | exact Hc].
  - eapply same_cache_consistent; [apply signData_same_cache | exact Hc].
  - eapply same_cache_consistent;
      [apply fetchAesKey_request_same_cache | exact Hc].
  - destruct (fetchAesKey_response_cases w privateKey reply s)
      as [[e ->]|(respJson & aesKey & contentJson & _ & _ & _ & ->)].
    + exact Hc.
    + right. apply stored_populated.
  - left. repeat split.
  - eapply same_cache_consistent; [|exact Hc]. repeat split.
Qed.

Lemma Reachable_consistent (cfg : Config) (s : State) :
  Reachable cfg s -> cache_consistent s.
Proof.
  induction 1 as [t|s s' _ IH HS].
  - left. repeat split.
  - exact (Step_consistent cfg s s' HS IH).
Qed.

(** A run of [fetchAesKey] raises and keeps the cache, or returns the cached
    key and keeps the object, or stores the result of a successful reply. *)
Lemma fetchAesKey_cases (cfg : Config) (w : World) (force : bool)
    (s : State) :
  let run := fetchAesKey cfg w force s in
  (exists e, result run = Throw e /\ same_cache s (final run))
  \/ (exists key, force = false /\ cache_hit w s = Some key
                  /\ run = {| result := Ok key; final := s; posts := [] |})
  \/ (exists privateKey payload respJson aesKey contentJson,
        axios_post w (getEndpoint cfg) payload = Ok (Some respJson)
        /\ reply_success respJson
        /\ extract_key privateKey respJson = Ok (aesKey, contentJson)
        /\ result run = Ok aesKey
        /\ posts run = [(getEndpoint cfg, payload)]
        /\ final run
           = stored w aesKey contentJson (snd (loadPrivateKey cfg w s))).
Proof.
  unfold fetchAesKey, fetchAesKey_request.
  destruct force.
  2:{ destruct (cache_hit w s) as [key|] eqn:Hhit.
      - right. left. exists key. repeat split.
      - pose proof (loadPrivateKey_same_cache cfg w s) as Hload.
        destruct (loadPrivateKey cfg w s) as [[k|e] s1] eqn:El; cbn [snd] in *.
        + match goal with
          | |- context [fetchAesKey_response w k ?r s1] =>
              destruct (fetchAesKey_response_cases w k r s1)
                as [[e ->]|(respJson & aesKey & contentJson
                            & Hr & Hs & He & ->)]
          end.
          * left. exists e. split; [reflexivity | exact Hload].
          * right. right. exists k. eexists. exists respJson, aesKey, contentJson.
            repeat split; eassumption.
        + left. exists e. split; [reflexivity | exact Hload]. }
  pose proof (loadPrivateKey_same_cache cfg w s) as Hload.
  destruct (loadPrivateKey cfg w s) as [[k|e] s1] eqn:El; cbn [snd] in *.
  - match goal with
    | |- context [fetchAesKey_response w k ?r s1] =>
        destruct (fetchAesKey_response_cases w k r s1)
          as [[e ->]|(respJson & aesKey & contentJson & Hr & Hs & He & ->)]
    end.
    + left. exists e. split; [reflexivity | exact Hload].
    + right. right. exists k. eexists. exists respJson, aesKey, contentJson.
      repeat split; eassumption.
  - left. exists e. split; [reflexivity | exact Hload].
Qed.

End WithPlatform.

(** C6. The cached session key is wholly absent or fully populated: this
    holds of a new object, every uninterrupted piece of every call of
    [KeyClient] preserves it, so it holds of every state the object reaches;
    [forgetAesKey] clears key, timestamp and content together.  A run of
    [fetchAesKey] that raises leaves the cached key, timestamp and decoded
    content as they were, and a run that changes one of them returned the
    key of a reply that carried the success marker, and stored key,
    timestamp and content together. *)
Theorem session_key_cache_invariant {P : Platform} (cfg : Config) :
  (forall t, cache_consistent (new_KeyClient t))
  /\ (forall s s', cache_consistent s -> Step cfg s s' -> cache_consistent s')
  /\ (forall s, Reachable cfg s -> cache_consistent s)
  /\ (forall s, cache_absent (forgetAesKey s))
  /\ (forall w force s e,
        result (fetchAesKey cfg w force s) = Throw e ->
        same_cache s (final (fetchAesKey cfg w force s)))
  /\ (forall w privateKey reply s e,
        fst (fetchAesKey_response w privateKey reply s) = Throw e ->
        snd (fetchAesKey_response w privateKey reply s) = s)
  /\ (forall w force s,
        ~ same_cache s (final (fetchAesKey cfg w force s)) ->
        exists payload respJson aesKey contentJson,
          posts (fetchAesKey cfg w force s) = [(getEndpoint cfg, payload)]
          /\ axios_post w (getEndpoint cfg) payload = Ok (Some respJson)
          /\ reply_success respJson
          /\ result (fetchAesKey cfg w force s) = Ok aesKey
          /\ _aesKey (final (fetchAesKey cfg w force s)) = Some aesKey
          /\ _aesKeyFetchedAt (final (fetchAesKey cfg w force s))
             = Some (Date_now_store w / 1000)
          /\ _aesKeyContentJson (final (fetchAesKey cfg w force s))
             = Some contentJson).
Proof.
  split; [intros t; left; repeat split|].
  split; [intros s s' Hc HS; exact (Step_consistent cfg s s' HS Hc)|].
  split; [apply Reachable_consistent|].
  split; [intros s; repeat split|].
  split.
  { intros w force s e He.
    destruct (fetchAesKey_cases cfg w force s)
      as [(e' & _ & Hsame)|[(key & _ & _ & Hrun)
                           |(k & pl & rj & ak & cj & _ & _ & _ & Hres & _)]].
    - exact Hsame.
    - rewrite Hrun. apply same_cache_refl.
    - rewrite Hres in He. discriminate. }
  split.
  { intros w k reply s e He.
    destruct (fetchAesKey_response_cases w k reply s)
      as [[e' Hr]|(rj & ak & cj & _ & _ & _ & Hr)];
      rewrite Hr in *; [reflexivity | discriminate]. }
  intros w force s Hchanged.
  destruct (fetchAesKey_cases cfg w force s)
    as [(e' & _ & Hsame)|[(key & _ & _ & Hrun)
                         |(k & pl & rj & ak & cj
                           & Hpost & Hsucc & _ & Hres & Hposts & Hfin)]].
  - contradiction.
  - rewrite Hrun in Hchanged. elim Hchanged. apply same_cache_refl.
  - exists pl, rj, ak, cj. rewrite Hfin. repeat split; assumption.
Qed.

(** What goes wrong in the second half of [fetchAesKey], and how it
    surfaces: a failed exchange and a reply without the success marker as
    [APIException], everything inside the [try] (the length policy included)
    as [EncryptionException], and the body [null] as the [TypeError] of the
    property read of line 114. *)
Lemma fetchAesKey_response_error_kinds {P : Platform} (w : World)
    (privateKey : PrivateKey) (reply : Result (option (Envelope string)))
    (s : State) (e : Exception) :
  fst (fetchAesKey_response w privateKey reply s) = Throw e ->
  (exists err,
     reply = Throw err
     /\ e = APIException ("T104 connection error: " ++ message_of err)%string
              None)
  \/ (reply = Ok None
      /\ e = JsError
               "Cannot read properties of null (reading 'returnStateInfo')")
  \/ (exists respJson m c,
        reply = Ok (Some respJson) /\ ~ reply_success respJson
        /\ e = APIException ("T104 failed: " ++ m)%string (Some c))
  \/ (exists respJson m,
        reply = Ok (Some respJson) /\ reply_success respJson
        /\ e = EncryptionException
                 ("Failed to extract AES key: " ++ m)%string).
Proof.
  unfold fetchAesKey_response. destruct reply as [[respJson|]|err].
  - assert (Hsucc : forall m,
              match returnStateInfo respJson with
              | Some r => returnMessage r
              | None => None
              end = Some m ->
              m = "SUCCESS"%string <-> reply_success respJson).
    { intros m Hm. unfold reply_success.
      destruct (returnStateInfo respJson) as [r|]; [|discriminate].
      split.
      - intros ->. now exists r.
      - intros (r' & Hr & Hs). congruence. }
    assert (Hnone : match returnStateInfo respJson with
                    | Some r => returnMessage r
                    | None => None
                    end = None -> ~ reply_success respJson).
    { intros Hm (r & Hr & Hs). rewrite Hr in Hm. congruence. }
    destruct (returnStateInfo respJson) as [r|] eqn:Hr.
    + destruct (returnMessage r) as [m|] eqn:Hm.
      * destruct (String.eqb_spec m "SUCCESS") as [E|Hne]; cbn [negb].
        -- destruct (extract_key privateKey respJson) as [[k j]|err]; cbn;
             intros H; [discriminate|]. injection H as <-.
           right. right. right. exists respJson. eexists.
           split; [reflexivity|]. split; [|reflexivity].
           now apply (Hsucc m).
        -- cbn. intros H. injection H as <-.
           right. right. left. exists respJson. do 2 eexists.
           split; [reflexivity|]. split; [|reflexivity].
           intros Hs. apply Hne. now apply (Hsucc m).
      * cbn. intros H. injection H as <-.
        right. right. left. exists respJson. do 2 eexists.
        split; [reflexivity|]. split; [|reflexivity]. now apply Hnone.
    + cbn. intros H. injection H as <-.
      right. right. left. exists respJson. do 2 eexists.
      split; [reflexivity|]. split; [|reflexivity]. now apply Hnone.
  - cbn. intros H. injection H as <-. right. left. now split.
  - cbn. intros H. injection H as <-. left. eauto.
Qed.

(** A run of [fetchAesKey] that sends the handshake and decrypts a key
    candidate from the reply ends as the length policy decides: with the
    key in hexadecimal, stored in the object, or with the error of the
    policy, wrapped by the handler of line 161, and the object as it was. *)
Lemma fetchAesKey_candidate {P : Platform} (cfg : Config) (w : World)
    (force : bool) (s : State) (privateKey : PrivateKey)
    (respJson : Envelope string) (contentJson encryptedAesB64 : json)
    (encryptedAes aesKeyRaw : Buffer) :
  force = true \/ cache_hit w s = None ->
  fst (loadPrivateKey cfg w s) = Ok privateKey ->
  axios_post w (getEndpoint cfg)
    (buildUnencryptedRequest (ambient w) (JArr []) "T104"
       (KeyClient.tin cfg) (KeyClient.deviceNo cfg) (KeyClient.brn cfg)
       (Some privateKey) (taxpayerId s))
  = Ok (Some respJson) ->
  reply_success respJson ->
  truthy_string (content_text respJson) = true ->
  JSON_parse (Buffer_toString_utf8 (base64_decode (content_text respJson)))
  = Ok contentJson ->
  (let* passowrdDes := json_get contentJson "passowrdDes" in
   if nullish passowrdDes
   then json_get contentJson "passwordDes"
   else Ok passowrdDes)
  = Ok (Some encryptedAesB64) ->
  truthy_json encryptedAesB64 = true ->
  Buffer_from_base64 encryptedAesB64 = Ok encryptedAes ->
  privateDecrypt privateKey encryptedAes = Ok aesKeyRaw ->
  let decoded := base64_decode (Buffer_toString_utf8 aesKeyRaw) in
  let candidate := if Buffer_length decoded =? 0 then aesKeyRaw else decoded in
  let run := fetchAesKey cfg w force s in
  match fetchAesKey_normalize candidate with
  | Ok aesKey =>
      result run = Ok (Buffer_toString_hex aesKey)
      /\ final run
         = stored w (Buffer_toString_hex aesKey) contentJson
             (snd (loadPrivateKey cfg w s))
  | Throw err =>
      result run
      = Throw (EncryptionException
                 ("Failed to extract AES key: " ++ message_of err)%string)
      /\ final run = snd (loadPrivateKey cfg w s)
  end.
Proof.
  intros Hmiss Hload Hpost Hsucc Hc Hparse Hfield Htruthy Hb64 Hdec
    decoded candidate run.
  assert (Hnone : (if force then None else cache_hit w s) = None)
    by (destruct Hmiss as [->| ->]; [reflexivity | now destruct force]).
  assert (Htp : taxpayerId (snd (loadPrivateKey cfg w s)) = taxpayerId s).
  { unfold loadPrivateKey. destruct (_privateKey s); [reflexivity|].
    now destruct (loadPrivateKeyFromPfx cfg w). }
  assert (Hex : extract_key privateKey respJson
                = let* aesKey := fetchAesKey_normalize candidate in
                  Ok (Buffer_toString_hex aesKey, contentJson)).
  { unfold extract_key. unfold content_text, or_default in Hc, Hparse.
    destruct (data respJson) as [d|]; [|discriminate Hc].
    destruct (content d) as [c|]; [|discriminate Hc].
    destruct (truthy_string c) eqn:Hcc; [|discriminate Hc].
    cbn [negb]. rewrite Hparse. cbn [bind].
    destruct (json_get contentJson "passowrdDes") as [p|];
      [|discriminate Hfield].
    cbn [bind] in Hfield |- *. rewrite Hfield. cbn [bind].
    rewrite Htruthy. cbn [negb]. rewrite Hb64. cbn [bind].
    rewrite Hdec. reflexivity. }
  subst run. unfold fetchAesKey, fetchAesKey_request. rewrite Hnone.
  destruct (loadPrivateKey cfg w s) as [r s1]. cbn [fst snd] in *. subst r.
  rewrite Htp, Hpost. unfold fetchAesKey_response.
  destruct Hsucc as (rs & Hrs & Hmsg). rewrite Hrs, Hmsg.
  change (negb (String.eqb "SUCCESS" "SUCCESS")) with false. cbv iota.
  rewrite Hex.
  destruct (fetchAesKey_normalize candidate) as [aesKey|err]; cbn [bind];
    split; reflexivity.
Qed.

(** C3. The length policy of [fetchAesKey].  In a run that sends the
    handshake, is answered with the success marker and decrypts a key
    candidate from the content of the reply (the base64 decoding of the
    decrypted text, or the decrypted bytes when that decoding is empty): a
    candidate of 8 bytes is concatenated with itself and cut to 16 bytes; a
    candidate of 16, 24 or 32 bytes is used as it is; a candidate of any
    other length is cut to its first 16 bytes; the run returns the
    hexadecimal text of that key and stores it.  [EncryptionException] is
    raised, and nothing stored, when the result still has not 16, 24 or 32
    bytes, which happens exactly when the candidate has fewer than 16 bytes
    and not 8. *)
Theorem fetchAesKey_key_length_policy {P : Platform} (cfg : Config)
    (w : World) (force : bool) (s : State) (privateKey : PrivateKey)
    (respJson : Envelope string) (contentJson encryptedAesB64 : json)
    (encryptedAes aesKeyRaw : Buffer) :
  force = true \/ cache_hit w s = None ->
  fst (loadPrivateKey cfg w s) = Ok privateKey ->
  axios_post w (getEndpoint cfg)
    (buildUnencryptedRequest (ambient w) (JArr []) "T104"
       (KeyClient.tin cfg) (KeyClient.deviceNo cfg) (KeyClient.brn cfg)
       (Some privateKey) (taxpayerId s))
  = Ok (Some respJson) ->
  reply_success respJson ->
  truthy_string (content_text respJson) = true ->
  JSON_parse (Buffer_toString_utf8 (base64_decode (content_text respJson)))
  = Ok contentJson ->
  (let* passowrdDes := json_get contentJson "passowrdDes" in
   if nullish passowrdDes
   then json_get contentJson "passwordDes"
   else Ok passowrdDes)
  = Ok (Some encryptedAesB64) ->
  truthy_json encryptedAesB64 = true ->
  Buffer_from_base64 encryptedAesB64 = Ok encryptedAes ->
  privateDecrypt privateKey encryptedAes = Ok aesKeyRaw ->
  let decoded := base64_decode (Buffer_toString_utf8 aesKeyRaw) in
  let candidate := if Buffer_length decoded =? 0 then aesKeyRaw else decoded in
  let len := Buffer_length candidate in
  let run := fetchAesKey cfg w force s in
  (len = 8 ->
   result run = Ok (Buffer_toString_hex (firstn 16 (candidate ++ candidate)))
   /\ firstn 16 (candidate ++ candidate) = candidate ++ candidate)
  /\ (valid_key_length len -> result run = Ok (Buffer_toString_hex candidate))
  /\ (len <> 8 -> ~ valid_key_length len -> 16 <= len ->
      result run = Ok (Buffer_toString_hex (firstn 16 candidate)))
  /\ (len <> 8 -> len < 16 ->
      firstn 16 candidate = candidate
      /\ result run
         = Throw (EncryptionException
                    ("Failed to extract AES key: Cannot use AES key of length "
                     ++ string_of_Z len)%string)
      /\ same_cache s (final run))
  /\ ((exists e, result run = Throw e) <-> len < 16 /\ len <> 8)
  /\ (forall key,
        result run = Ok key ->
        _aesKey (final run) = Some key
        /\ exists aesKey,
             key = Buffer_toString_hex aesKey
             /\ valid_key_length (Buffer_length aesKey)
             /\ (aesKey = candidate ++ candidate \/ aesKey = candidate
                 \/ aesKey = firstn 16 candidate)).
Proof.
  intros Hmiss Hload Hpost Hsucc Hc Hparse Hfield Htruthy Hb64 Hdec
    decoded candidate len run.
  pose proof (fetchAesKey_candidate cfg w force s privateKey respJson
                contentJson encryptedAesB64 encryptedAes aesKeyRaw
                Hmiss Hload Hpost Hsucc Hc Hparse Hfield Htruthy Hb64 Hdec)
    as Hrun.
  cbv zeta in Hrun. fold decoded candidate run in Hrun.
  destruct (fetchAesKey_normalize_policy candidate)
    as (H8 & Hvalid & Hlong & Hshort & Herr & Hok).
  fold len in H8, Hvalid, Hlong, Hshort, Herr.
  assert (Hcases : len = 8 \/ valid_key_length len
                   \/ (len <> 8 /\ ~ valid_key_length len /\ 16 <= len)
                   \/ (len <> 8 /\ len < 16)).
  { unfold valid_key_length. lia. }
  assert (R8 : len = 8 ->
               result run
               = Ok (Buffer_toString_hex (firstn 16 (candidate ++ candidate)))
               /\ final run
                  = stored w (Buffer_toString_hex
                                (firstn 16 (candidate ++ candidate)))
                      contentJson (snd (loadPrivateKey cfg w s))
               /\ firstn 16 (candidate ++ candidate) = candidate ++ candidate).
  { intros E. destruct (H8 E) as [Hn Hfull]. rewrite Hn in Hrun.
    destruct Hrun as [Hr Hf]. now repeat split. }
  assert (Rvalid : valid_key_length len ->
                   result run = Ok (Buffer_toString_hex candidate)
                   /\ final run
                      = stored w (Buffer_toString_hex candidate) contentJson
                          (snd (loadPrivateKey cfg w s))).
  { intros Hv. now rewrite (Hvalid Hv) in Hrun. }
  assert (Rlong : len <> 8 -> ~ valid_key_length len -> 16 <= len ->
                  result run = Ok (Buffer_toString_hex (firstn 16 candidate))
                  /\ final run
                     = stored w (Buffer_toString_hex (firstn 16 candidate))
                         contentJson (snd (loadPrivateKey cfg w s))).
  { intros Hne Hnv Hge. now rewrite (Hlong Hne Hnv Hge) in Hrun. }
  assert (Rshort : len <> 8 -> len < 16 ->
                   firstn 16 candidate = candidate
                   /\ result run
                      = Throw (EncryptionException
                                 ("Failed to extract AES key: Cannot use AES key of length "
                                  ++ string_of_Z len)%string)
                   /\ same_cache s (final run)).
  { intros Hne Hlt. destruct (Hshort Hne Hlt) as [Hfull Hn].
    rewrite Hn in Hrun. destruct Hrun as [Hr Hf].
    split; [exact Hfull|]. split; [exact Hr|].
    rewrite Hf. apply loadPrivateKey_same_cache. }
  split; [intros E; destruct (R8 E) as (Hr & _ & Hfull); now split|].
  split; [intros Hv; now destruct (Rvalid Hv)|].
  split; [intros Hne Hnv Hge; now destruct (Rlong Hne Hnv Hge)|].
  split; [exact Rshort|].
  split.
  - split.
    + intros [e He].
      destruct Hcases as [E|[Hv|[(Hne & Hnv & Hge)|Hs]]].
      * destruct (R8 E) as (Hr & _). congruence.
      * destruct (Rvalid Hv) as [Hr _]. congruence.
      * destruct (Rlong Hne Hnv Hge) as [Hr _]. congruence.
      * lia.
    + intros [Hlt Hne]. destruct (Rshort Hne Hlt) as (_ & Hr & _). eauto.
  - intros key Hkey.
    destruct Hcases as [E|[Hv|[(Hne & Hnv & Hge)|[Hne Hlt]]]].
    + destruct (R8 E) as (Hr & Hf & Hfull). rewrite Hfull in Hr, Hf.
      assert (key = Buffer_toString_hex (candidate ++ candidate))
        by congruence. subst key.
      split; [now rewrite Hf|]. exists (candidate ++ candidate).
      split; [reflexivity|]. split; [|now left].
      rewrite Buffer_length_app. fold len. left. lia.
    + destruct (Rvalid Hv) as [Hr Hf].
      assert (key = Buffer_toString_hex candidate) by congruence. subst key.
      split; [now rewrite Hf|]. exists candidate.
      split; [reflexivity|]. split; [exact Hv | now right; left].
    + destruct (Rlong Hne Hnv Hge) as [Hr Hf].
      assert (key = Buffer_toString_hex (firstn 16 candidate))
        by congruence. subst key.
      split; [now rewrite Hf|]. exists (firstn 16 candidate).
      split; [reflexivity|]. split; [|now right; right].
      left. unfold Buffer_length. rewrite length_firstn.
      unfold len, Buffer_length in Hge. lia.
    + destruct (Rshort Hne Hlt) as (_ & Hr & _). congruence.
Qed.

Lemma fetchAesKey_key_length_policy_witness :
  result (fetchAesKey sample_config sample_world false (new_KeyClient "1"))
  = Ok "30313233343536373839616263646566"%string
  /\ result (fetchAesKey sample_config
               (sample_world_replying (Ok (Some (sample_reply_of "12345678"))))
               false (new_KeyClient "1"))
     = Ok "31323334353637383132333435363738"%string
  /\ result (fetchAesKey sample_config
               (sample_world_replying
                  (Ok (Some (sample_reply_of "12345678901234567"))))
               false (new_KeyClient "1"))
     = Ok "31323334353637383930313233343536"%string
  /\ result (fetchAesKey sample_config
               (sample_world_replying (Ok (Some (sample_reply_of "1234567"))))
               false (new_KeyClient "1"))
     = Throw (EncryptionException
                "Failed to extract AES key: Cannot use AES key of length 7").
Proof.
  split; [|split; [|split]].
  - destruct (fetchAesKey_key_length_policy sample_config
                sample_world false (new_KeyClient "1") tt
                sample_reply
                (JObj [("passowrdDes"%string, JStr "0123456789abcdef")])
                (JStr "0123456789abcdef") (list_byte_of_string "0123456789abcdef")
                (list_byte_of_string "0123456789abcdef")
                (or_intror eq_refl) eq_refl eq_refl
                (ex_intro _ _ (conj eq_refl eq_refl))
                eq_refl eq_refl eq_refl eq_refl eq_refl eq_refl)
      as (_ & Hvalid & _).
    apply Hvalid. vm_compute. now left.
  - destruct (fetchAesKey_key_length_policy sample_config
                (sample_world_replying (Ok (Some (sample_reply_of "12345678")))) false (new_KeyClient "1") tt
                (sample_reply_of "12345678")
                (JObj [("passowrdDes"%string, JStr "12345678")])
                (JStr "12345678") (list_byte_of_string "12345678")
                (list_byte_of_string "12345678")
                (or_intror eq_refl) eq_refl eq_refl
                (ex_intro _ _ (conj eq_refl eq_refl))
                eq_refl eq_refl eq_refl eq_refl eq_refl eq_refl)
      as (H8 & _).
    exact (proj1 (H8 eq_refl)).
  - destruct (fetchAesKey_key_length_policy sample_config
                (sample_world_replying (Ok (Some (sample_reply_of "12345678901234567")))) false (new_KeyClient "1") tt
                (sample_reply_of "12345678901234567")
                (JObj [("passowrdDes"%string, JStr "12345678901234567")])
                (JStr "12345678901234567") (list_byte_of_string "12345678901234567")
                (list_byte_of_string "12345678901234567")
                (or_intror eq_refl) eq_refl eq_refl
                (ex_intro _ _ (conj eq_refl eq_refl))
                eq_refl eq_refl eq_refl eq_refl eq_refl eq_refl)
      as (_ & _ & Hlong & _).
    apply Hlong; vm_compute; try discriminate.
    intros [H|[H|H]]; discriminate.
  - destruct (fetchAesKey_key_length_policy sample_config
                (sample_world_replying (Ok (Some (sample_reply_of "1234567")))) false (new_KeyClient "1") tt
                (sample_reply_of "1234567")
                (JObj [("passowrdDes"%string, JStr "1234567")])
                (JStr "1234567") (list_byte_of_string "1234567")
                (list_byte_of_string "1234567")
                (or_intror eq_refl) eq_refl eq_refl
                (ex_intro _ _ (conj eq_refl eq_refl))
                eq_refl eq_refl eq_refl eq_refl eq_refl eq_refl)
      as (_ & _ & _ & Hshort & _).
    apply Hshort; vm_compute; [discriminate | reflexivity].
Defined.



(** C7, as the code has it.  When [fetchAesKey] misses the cache (or is
    forced) and the private key loads, it sends one request, to the endpoint
    of the configuration: the unencrypted envelope (code type 0, encrypt code
    1, zip code 0) for the interface code T104, addressed with the tax
    identifier and the device identifier of the caller.  The private key is
    handed to the builder, but the content of the handshake is empty, so the
    builder leaves [data.content] and [data.signature] empty: the envelope
    carries no signature. *)
Theorem fetchAesKey_handshake_envelope {P : Platform} (cfg : Config)
    (w : World) (force : bool) (s : State) (privateKey : PrivateKey) :
  force = true \/ cache_hit w s = None ->
  fst (loadPrivateKey cfg w s) = Ok privateKey ->
  exists payload d gi,
    posts (fetchAesKey cfg w force s) = [(getEndpoint cfg, payload)]
    /\ payload
       = buildUnencryptedRequest (ambient w) (JArr []) "T104"
           (KeyClient.tin cfg) (KeyClient.deviceNo cfg) (KeyClient.brn cfg)
           (Some privateKey) (taxpayerId s)
    /\ data payload = Some d
    /\ content d = Some ""%string
    /\ signature d = Some ""%string
    /\ dataDescription d
       = Some {| codeType := Some "0"%string;
                 encryptCode := Some "1"%string;
                 zipCode := Some "0"%string |}
    /\ globalInfo payload = Some gi
    /\ interfaceCode gi = "T104"%string
    /\ CryptoUtils.tin gi = KeyClient.tin cfg
    /\ CryptoUtils.deviceNo gi = KeyClient.deviceNo cfg.
Proof.
  intros Hmiss Hload.
  assert (Hnone : (if force then None else cache_hit w s) = None)
    by (destruct Hmiss as [->| ->]; [reflexivity | now destruct force]).
  assert (Htp : taxpayerId (snd (loadPrivateKey cfg w s)) = taxpayerId s).
  { unfold loadPrivateKey. destruct (_privateKey s); [reflexivity|].
    now destruct (loadPrivateKeyFromPfx cfg w). }
  unfold fetchAesKey, fetchAesKey_request. rewrite Hnone.
  destruct (loadPrivateKey cfg w s) as [r s1]. cbn [fst snd] in *. subst r.
  rewrite Htp.
  match goal with
  | |- context [fetchAesKey_response w privateKey ?r s1] =>
      destruct (fetchAesKey_response w privateKey r s1) as [res s2]
  end.
  cbn [posts]. do 3 eexists.
  split; [reflexivity|]. split; [reflexivity|].
  cbn. repeat split.
Qed.

Lemma fetchAesKey_handshake_envelope_witness :
  exists payload d gi,
    posts (fetchAesKey sample_config sample_world true sample_state)
    = [(getEndpoint sample_config, payload)]
    /\ payload
       = @buildUnencryptedRequest sample_platform (ambient sample_world)
           (JArr []) "T104" "1000000001" "TCS0001" "" (Some tt) "1"
    /\ data payload = Some d
    /\ content d = Some ""%string
    /\ signature d = Some ""%string
    /\ dataDescription d
       = Some {| codeType := Some "0"%string;
                 encryptCode := Some "1"%string;
                 zipCode := Some "0"%string |}
    /\ globalInfo payload = Some gi
    /\ interfaceCode gi = "T104"%string
    /\ CryptoUtils.tin gi = "1000000001"%string
    /\ CryptoUtils.deviceNo gi = "TCS0001"%string.
Proof.
  apply (fetchAesKey_handshake_envelope sample_config sample_world true
           sample_state tt); [now left | reflexivity].
Defined.

(** C7 as stated fails: in the sample world a new object loads its private
    key, misses the cache and sends the handshake, and the signature of the
    envelope it sends is the empty string. *)
Lemma handshake_signature_counterexample :
  let run :=
    fetchAesKey sample_config sample_world false (new_KeyClient "1") in
  _privateKey (final run) = Some tt
  /\ exists payload d,
       posts run = [(T104_ENDPOINT_TEST, payload)]
       /\ data payload = Some d
       /\ signature d = Some ""%string.
Proof.
  cbv zeta. split; [reflexivity|].
  do 2 eexists. split; [reflexivity|]. split; reflexivity.
Qed.

End SessionKey.

(* ================================================================== *)
(** ** Envelopes *)
(* ================================================================== *)

Module Envelopes.
Import CryptoUtils.

Lemma or_default_is (o : option string) (d v : string) :
  d <> v -> or_default o d = v -> o = Some v.
Proof.
  intros Hd. unfold or_default. destruct o as [x|]; [|contradiction].
  destruct (truthy_string x); [congruence | contradiction].
Qed.

(** [decryptAesEcb] with an encrypt code other than ['2'] and zip code ['0']
    decodes the base64 text and nothing else. *)
Lemma decryptAesEcb_plain {P : Platform} (c : string) (key : option string)
    (encryptCode : string) :
  truthy_string c = true -> encryptCode <> "2"%string ->
  decryptAesEcb c key (Some encryptCode) (Some "0"%string)
  = Ok (Buffer_toString_utf8 (base64_decode c)).
Proof.
  intros Hc Hne. unfold decryptAesEcb. rewrite Hc. cbn [negb].
  change (String.eqb "0" "1") with false. cbn [bind].
  now destruct (String.eqb_spec encryptCode "2").
Qed.

(** C4, as the code has it.  For a response envelope whose content is not
    empty and whose description has code type ['1'], [unwrapResponse] needs
    an AES key whatever the encrypt code is: without a key (or with the empty
    key) it raises [EncryptionException], for encrypt code ['2'] and for any
    other alike.  With a key, an encrypt code other than ['2'] and zip code
    ['0'], nothing is decrypted: the base64-decoded bytes are parsed as they
    are, the parsed value replaces [data.content], and a failure to parse is
    raised as [EncryptionException]. *)
Theorem unwrapResponse_codeType1 {P : Platform}
    (responseJson : Envelope string) (d : DataSection string)
    (c : string) (dd : DataDescription) :
  data responseJson = Some d -> content d = Some c ->
  truthy_string c = true ->
  dataDescription d = Some dd -> codeType dd = Some "1"%string ->
  (forall aesKey, truthy_ostring aesKey = false ->
     unwrapResponse responseJson aesKey
     = Throw (EncryptionException
                "Response processing failed: Encrypted response but no AES key provided"))
  /\ (forall aesKey,
        truthy_string aesKey = true ->
        encryptCode dd <> Some "2"%string -> zipCode dd = Some "0"%string ->
        unwrapResponse responseJson (Some aesKey)
        = match JSON_parse (Buffer_toString_utf8 (base64_decode c)) with
          | Ok decodedContent => Ok (set_content responseJson decodedContent)
          | Throw e =>
              Throw (EncryptionException
                       ("Response processing failed: " ++ message_of e)%string)
          end).
Proof.
  intros Hd Hc Htruthy Hdd Hct.
  assert (Hcontent : or_default
                       (match data responseJson with
                        | Some d => content d
                        | None => None
                        end) "" = c).
  { rewrite Hd, Hc. unfold or_default. now rewrite Htruthy. }
  split.
  - intros aesKey Hkey. unfold unwrapResponse.
    rewrite Hcontent, Htruthy, Hd, Hdd, Hct, Hkey. reflexivity.
  - intros aesKey Hkey Hec Hzip. unfold unwrapResponse.
    rewrite Hcontent, Htruthy, Hd, Hdd, Hct, Hzip. cbn [negb].
    change (or_default (Some "1") "0") with "1"%string.
    change (or_default (Some "0") "0") with "0"%string.
    change (String.eqb "1" "1") with true. cbv iota.
    cbn [truthy_ostring]. rewrite Hkey. cbn [negb].
    rewrite decryptAesEcb_plain; trivial.
    + cbn [bind]. now destruct (JSON_parse _).
    + intros E. apply Hec. eapply or_default_is; [|exact E]. discriminate.
Qed.

Lemma unwrapResponse_codeType1_witness :
  (forall aesKey, truthy_ostring aesKey = false ->
     @unwrapResponse sample_platform (sample_response "e30=" "1") aesKey
     = Throw (EncryptionException
                "Response processing failed: Encrypted response but no AES key provided"))
  /\ (forall aesKey,
        truthy_string aesKey = true ->
        Some "1"%string <> Some "2"%string ->
        Some "0"%string = Some "0"%string ->
        @unwrapResponse sample_platform (sample_response "e30=" "1")
          (Some aesKey)
        = Ok (set_content (sample_response "e30=" "1")
                (JObj [("passowrdDes"%string, JStr "e30=")]))).
Proof.
  apply (@unwrapResponse_codeType1 sample_platform
           (sample_response "e30=" "1") _ "e30=" _ eq_refl eq_refl eq_refl
           eq_refl eq_refl).
Defined.

(** C4 as stated fails on two envelopes of code type ['1'], both unwrapped
    without a key: with encrypt code ['1'], zip code ['0'] and a content,
    [unwrapResponse] raises, where the claim has it succeed; with encrypt
    code ['2'] and the empty content, it returns the envelope, where the
    claim has it raise. *)
Lemma unwrapResponse_key_counterexample :
  @unwrapResponse sample_platform (sample_response "e30=" "1") None
  = Throw (EncryptionException
             "Response processing failed: Encrypted response but no AES key provided")
  /\ @unwrapResponse sample_platform (sample_response "" "2") None
     = Ok (raw_envelope (sample_response "" "2")).
Proof. split; reflexivity. Qed.

(** C9. For every payload and every AES key of a valid length,
    [buildEncryptedRequest] serializes the payload with [JSON.stringify],
    encrypts the text with [encryptAesEcb] under the key, signs the encrypted
    base64 text (the content of the envelope, not the plain text) with the
    private key, and returns an envelope whose description is code type
    ['1'], encrypt code ['2'], zip code ['0']. *)
Theorem buildEncryptedRequest_envelope {P : Platform} (amb : Ambient)
    (payload : json) (aesKey interfaceCode tin deviceNo brn : string)
    (privateKey : PrivateKey) (taxpayerId : string) :
  valid_key_length (Buffer_length (normalizeAesKey aesKey)) ->
  exists encrypted envelope d,
    encryptAesEcb (JSON_stringify payload) aesKey = Ok encrypted
    /\ encrypted
       = base64_encode
           (aes_ecb_encrypt (normalizeAesKey aesKey)
              (pkcs7Pad (IsString (JSON_stringify payload))))
    /\ buildEncryptedRequest amb payload aesKey interfaceCode tin deviceNo
         brn privateKey taxpayerId = Ok envelope
    /\ data envelope = Some d
    /\ content d = Some encrypted
    /\ signature d = Some (base64_encode (rsa_sha1_sign privateKey encrypted))
    /\ dataDescription d
       = Some {| codeType := Some "1"%string;
                 encryptCode := Some "2"%string;
                 zipCode := Some "0"%string |}
    /\ globalInfo envelope
       = Some (buildGlobalInfo amb interfaceCode tin deviceNo brn
                 "admin" "32.5825" "0.3476" taxpayerId).
Proof.
  intros Hk. pose proof (Codec.encryptAesEcb_valid_key
                           (JSON_stringify payload) aesKey Hk) as Henc.
  unfold buildEncryptedRequest. rewrite Henc. cbn [bind].
  do 3 eexists. split; [reflexivity|]. split; [reflexivity|].
  split; [reflexivity|]. cbn. repeat split.
Qed.

Lemma buildEncryptedRequest_envelope_witness :
  exists encrypted envelope d,
    @encryptAesEcb sample_platform "{}" "0123456789abcdef" = Ok encrypted
    /\ encrypted
       = @base64_encode sample_platform
           (rev (pkcs7Pad (IsString "{}")))
    /\ @buildEncryptedRequest sample_platform (KeyClient.ambient sample_world)
         (JObj []) "0123456789abcdef" "T109" "1000000001" "TCS0001" "" tt "1"
       = Ok envelope
    /\ data envelope = Some d
    /\ content d = Some encrypted
    /\ signature d = Some (string_of_list_byte (list_byte_of_string encrypted))
    /\ dataDescription d
       = Some {| codeType := Some "1"%string;
                 encryptCode := Some "2"%string;
                 zipCode := Some "0"%string |}
    /\ globalInfo envelope
       = Some (buildGlobalInfo (KeyClient.ambient sample_world) "T109"
                 "1000000001" "TCS0001" "" "admin" "32.5825" "0.3476" "1").
Proof.
  apply (@buildEncryptedRequest_envelope sample_platform
           (KeyClient.ambient sample_world) (JObj []) "0123456789abcdef"
           "T109" "1000000001" "TCS0001" "" tt "1").
  vm_compute. now left.
Defined.

End Envelopes.

(* ================================================================== *)
(** ** The model at work *)
(* ================================================================== *)

Module Examples.
Import CryptoUtils KeyClient.

Example pad_hello :
  Buffer_toString_hex (pkcs7Pad (IsString "hello"))
  = "68656c6c6f0b0b0b0b0b0b0b0b0b0b0b"%string.
Proof. reflexivity. Qed.

Example pad_whole_block :
  Buffer_length (pkcs7Pad (IsString "0123456789abcdef")) = 32.
Proof. reflexivity. Qed.

Example unpad_short_buffer :
  pkcs7Unpad (Buffer_from_hex "02")
  = Throw (EncryptionException "PKCS7 padding verification failed").
Proof. reflexivity. Qed.

Example unpad_length_out_of_range :
  pkcs7Unpad (Buffer_from_hex "0011")
  = Throw (EncryptionException "Invalid PKCS7 padding length: 17").
Proof. reflexivity. Qed.

Example unpad_corrupted :
  pkcs7Unpad (Buffer_from_hex "aa0302")
  = Throw (EncryptionException "PKCS7 padding verification failed").
Proof. reflexivity. Qed.

Example key_as_hex :
  Buffer_length (normalizeAesKey "00112233445566778899aabbccddeeff") = 16.
Proof. reflexivity. Qed.

Example key_as_text :
  Buffer_length (normalizeAesKey "0011223344556677") = 16.
Proof. reflexivity. Qed.

Example encrypt_short_key :
  @encryptAesEcb sample_platform "hi" "short"
  = Throw (EncryptionException "AES key must be 16/24/32 bytes, got 5").
Proof. reflexivity. Qed.

Example decrypt_not_gzipped :
  @decryptAesEcb sample_platform "abc" None (Some "1"%string)
    (Some "1"%string)
  = Throw (EncryptionException "zipCode=1 but data is not gzipped").
Proof. reflexivity. Qed.

Example key_of_8_bytes :
  fetchAesKey_normalize (Buffer_from_utf8 "12345678")
  = Ok (Buffer_from_utf8 "1234567812345678").
Proof. reflexivity. Qed.

Example key_of_7_bytes :
  fetchAesKey_normalize (Buffer_from_utf8 "1234567")
  = Throw (EncryptionException "Cannot use AES key of length 7").
Proof. reflexivity. Qed.

Example key_of_17_bytes :
  fetchAesKey_normalize (Buffer_from_utf8 "12345678901234567")
  = Ok (Buffer_from_utf8 "1234567890123456").
Proof. reflexivity. Qed.

Example handshake_stores_key :
  _privateKey sample_state = Some tt
  /\ _aesKey sample_state = Some "30313233343536373839616263646566"%string
  /\ _aesKeyFetchedAt sample_state = Some 1700000000
  /\ _aesKeyContentJson sample_state
     = Some (JObj [("passowrdDes"%string, JStr "0123456789abcdef")])
  /\ taxpayerId sample_state = "1"%string.
Proof. repeat split. Qed.

Example key_valid_before_ttl :
  isAesKeyValid (1000 * (1700000000 + _aesKeyTtlSeconds - 1)) sample_state
  = true.
Proof. reflexivity. Qed.

Example key_invalid_after_ttl :
  isAesKeyValid (1000 * (1700000000 + _aesKeyTtlSeconds + 1)) sample_state
  = false.
Proof. reflexivity. Qed.

Example forget_clears :
  getAesKey (forgetAesKey sample_state) = None
  /\ getAesKeyFetchedAt (forgetAesKey sample_state) = None
  /\ getAesKeyContentJson (forgetAesKey sample_state) = None.
Proof. repeat split. Qed.

Example surrogate_encoded :
  Buffer_toString_hex (Buffer_from_utf8 lone_surrogate) = "efbfbd"%string.
Proof. reflexivity. Qed.

Example malformed_decoded :
  Buffer_toString_utf8 (Buffer_from_hex "ff") = replacement_character
  /\ Buffer_toString_hex
       (Buffer_from_utf8 (Buffer_toString_utf8 (Buffer_from_hex "e282")))
     = "efbfbd"%string
  /\ Buffer_toString_hex
       (Buffer_from_utf8 (Buffer_toString_utf8 (Buffer_from_hex "eda080")))
     = "efbfbdefbfbdefbfbd"%string.
Proof. repeat split. Qed.

Example handshake_null_body :
  let run :=
    fetchAesKey sample_config (sample_world_replying (Ok None)) false
      (new_KeyClient "1") in
  result run
  = Throw (JsError
             "Cannot read properties of null (reading 'returnStateInfo')")
  /\ getAesKey (final run) = None.
Proof. split; reflexivity. Qed.

Example handshake_null_content :
  result
    (fetchAesKey
       {| pfxPath := "client.pfx"; password := "secret";
          tin := "1000000001"; deviceNo := "TCS0001"; brn := "";
          sandbox := true; timeout := 30 |}
       (sample_world_replying (Ok (Some (sample_reply_of ""))))
       false (new_KeyClient "1"))
  = Throw (EncryptionException
             "Failed to extract AES key: Missing content in T104 response").
Proof. reflexivity. Qed.

End Examples.

(* ================================================================== *)
(** ** Hexadecimal keys *)
(* ================================================================== *)

Module HexKeys.
Import CryptoUtils.

Lemma nibble_cases (d : Z) :
  0 <= d < 16 ->
  d = 0 \/ d = 1 \/ d = 2 \/ d = 3 \/ d = 4 \/ d = 5 \/ d = 6 \/ d = 7
  \/ d = 8 \/ d = 9 \/ d = 10 \/ d = 11 \/ d = 12 \/ d = 13 \/ d = 14
  \/ d = 15.
Proof. lia. Qed.

Lemma hex_value_hex_digit (d : Z) :
  0 <= d < 16 -> hex_value (hex_digit d) = Some d.
Proof.
  intros H. apply nibble_cases in H.
  repeat (destruct H as [-> | H]; [reflexivity|]). subst d. reflexivity.
Qed.

Lemma byte_nibbles (x : byte) :
  0 <= byte_value x / 16 < 16 /\ 0 <= byte_value x mod 16 < 16
  /\ 16 * (byte_value x / 16) + byte_value x mod 16 = byte_value x.
Proof. pose proof (byte_value_range x). lia_div. Qed.

(** Decoding the hexadecimal text of a buffer gives the buffer back. *)
Lemma Buffer_from_hex_toString_hex (b : Buffer) :
  Buffer_from_hex (Buffer_toString_hex b) = b.
Proof.
  induction b as [|x b IH]; [reflexivity|].
  destruct (byte_nibbles x) as (Hh & Hl & Hx).
  cbn [Buffer_toString_hex Buffer_from_hex].
  rewrite !hex_value_hex_digit by assumption.
  now rewrite Hx, uint8_byte_value, IH.
Qed.

Lemma all_hex_toString_hex (b : Buffer) :
  all_hex (Buffer_toString_hex b) = true.
Proof.
  induction b as [|x b IH]; [reflexivity|].
  destruct (byte_nibbles x) as (Hh & Hl & _).
  cbn [Buffer_toString_hex all_hex].
  now rewrite !hex_value_hex_digit by assumption.
Qed.

Lemma length_toString_hex (b : Buffer) :
  String.length (Buffer_toString_hex b) = (2 * List.length b)%nat.
Proof.
  induction b as [|x b IH]; [reflexivity|].
  cbn [Buffer_toString_hex String.length List.length]. lia.
Qed.

Lemma truthy_toString_hex (b : Buffer) :
  b <> [] -> truthy_string (Buffer_toString_hex b) = true.
Proof. destruct b; [contradiction | reflexivity]. Qed.

(** A text of [2 * n] hexadecimal digits decodes to [n] bytes. *)
Lemma length_from_hex (n : nat) (s : string) :
  String.length s = (2 * n)%nat -> all_hex s = true ->
  List.length (Buffer_from_hex s) = n.
Proof.
  revert s. induction n as [|n IH]; intros s Hlen Hhex.
  - destruct s; [reflexivity | discriminate].
  - destruct s as [|c1 [|c2 s]]; cbn [String.length] in Hlen; try lia.
    cbn [all_hex] in Hhex. cbn [Buffer_from_hex].
    destruct (hex_value c1); [|discriminate].
    destruct (hex_value c2); [|discriminate].
    cbn [List.length]. f_equal. apply IH; [lia | exact Hhex].
Qed.

Lemma includes_digits (n : Z) :
  includes [32; 48; 64] n = true <-> n = 32 \/ n = 48 \/ n = 64.
Proof.
  unfold includes. cbn [existsb].
  rewrite !orb_true_iff, !Z.eqb_eq. intuition discriminate.
Qed.

(** X1. [normalizeAesKey] reads a key as hexadecimal exactly when it
    consists of 32, 48 or 64 hexadecimal digits, and then yields half as many
    bytes; every other key, a shorter or longer run of hexadecimal digits
    included, is taken as its UTF-8 text. *)
Theorem normalizeAesKey_hex_or_text (key : string) :
  normalizeAesKey key
  = (if hex_regex_test key && includes [32; 48; 64] (String_length key)
     then Buffer_from_hex key
     else Buffer_from_utf8 key)
  /\ (hex_regex_test key && includes [32; 48; 64] (String_length key) = true ->
      2 * Buffer_length (normalizeAesKey key) = String_length key).
Proof.
  assert (Hmain :
    hex_regex_test key = true ->
    (Z.rem (String_length key) 2 =? 0)
    && includes [16; 24; 32] (Buffer_length (Buffer_from_hex key))
    = includes [32; 48; 64] (String_length key)
    /\ (includes [32; 48; 64] (String_length key) = true ->
        2 * Buffer_length (Buffer_from_hex key) = String_length key)).
  { intros Hre. unfold hex_regex_test in Hre.
    apply andb_true_iff in Hre. destruct Hre as [_ Hhex].
    unfold String_length, Buffer_length.
    destruct (Z.eqb_spec (Z.rem (Z.of_nat (String.length key)) 2) 0)
      as [Heven|Hodd].
    - assert (Hn : String.length key = (2 * (String.length key / 2))%nat).
      { pose proof (Nat.div_mod_eq (String.length key) 2) as Hd.
        assert (String.length key mod 2 = 0)%nat; [|lia].
        pose proof (Nat.mod_upper_bound (String.length key) 2 ltac:(lia)).
        lia_div. }
      rewrite (length_from_hex _ key Hn Hhex). cbn [andb]. split.
      + apply eq_true_iff_eq.
        rewrite Codec.includes_key_lengths, includes_digits.
        unfold valid_key_length. lia.
      + intros _. lia.
    - cbn [andb]. split.
      + symmetry. apply not_true_iff_false. rewrite includes_digits.
        intros H. apply Hodd. destruct H as [H|[H|H]]; now rewrite H.
      + rewrite includes_digits. intros H. exfalso. apply Hodd.
        destruct H as [H|[H|H]]; now rewrite H. }
  unfold normalizeAesKey.
  destruct (hex_regex_test key) eqn:Hre; cbn [andb].
  - destruct (Hmain eq_refl) as [Heq Hlen]. rewrite Heq.
    destruct (includes [32; 48; 64] (String_length key)) eqn:E.
    + split; [reflexivity | intros _; now apply Hlen].
    + split; [reflexivity | discriminate].
  - split; [reflexivity | discriminate].
Qed.

(** The hexadecimal text of a key of 16, 24 or 32 bytes is read back as that
    key. *)
Lemma normalizeAesKey_toString_hex (aesKey : Buffer) :
  valid_key_length (Buffer_length aesKey) ->
  normalizeAesKey (Buffer_toString_hex aesKey) = aesKey.
Proof.
  intros Hv. unfold normalizeAesKey, hex_regex_test.
  rewrite Buffer_from_hex_toString_hex, all_hex_toString_hex.
  rewrite truthy_toString_hex
    by (intros ->; destruct Hv as [H|[H|H]]; discriminate).
  unfold String_length. rewrite length_toString_hex.
  replace (Z.rem (Z.of_nat (2 * List.length aesKey)) 2) with 0 by lia_div.
  rewrite (proj2 (Codec.includes_key_lengths _) Hv). reflexivity.
Qed.

End HexKeys.

(* ================================================================== *)
(** ** The codec at its edges *)
(* ================================================================== *)

Module CodecEdges.
Import CryptoUtils Pkcs7.

(** X2. [encryptAesEcb] checks the key and nothing else: with a key that
    normalizes to 16, 24 or 32 bytes it returns the base64 text of the
    cipher run on the padded plaintext, and with any other key it raises
    [EncryptionException] naming the length it found. *)
Theorem encryptAesEcb_key_check {P : Platform} (plaintext key : string) :
  let n := Buffer_length (normalizeAesKey key) in
  (valid_key_length n ->
   encryptAesEcb plaintext key
   = Ok (base64_encode
           (aes_ecb_encrypt (normalizeAesKey key)
              (pkcs7Pad (IsString plaintext)))))
  /\ (~ valid_key_length n ->
      encryptAesEcb plaintext key
      = Throw (EncryptionException
                 ("AES key must be 16/24/32 bytes, got " ++ string_of_Z n)%string)).
Proof.
  intros n. split.
  - apply Codec.encryptAesEcb_valid_key.
  - intros Hn. unfold encryptAesEcb. fold n.
    now rewrite (SessionKey.not_valid_key_length n Hn).
Qed.

(** X3. The ciphertext of [encryptAesEcb] stands for whole blocks: decoded
    from base64 it has the length of the plaintext rounded up to the next
    multiple of 16, a full block more when the plaintext already fills its
    blocks. *)
Theorem encryptAesEcb_ciphertext_length {P : Platform} (L : CodecLaws P)
    (plaintext key ciphertext : string) :
  encryptAesEcb plaintext key = Ok ciphertext ->
  let len := Buffer_length (Buffer_from_utf8 plaintext) in
  Buffer_length (base64_decode ciphertext) = 16 * (len / 16) + 16
  /\ Z.rem (Buffer_length (base64_decode ciphertext)) 16 = 0
  /\ len < Buffer_length (base64_decode ciphertext) <= len + 16.
Proof.
  intros Henc len.
  destruct (includes [16; 24; 32] (Buffer_length (normalizeAesKey key)))
    eqn:Hincl.
  2:{ unfold encryptAesEcb in Henc. rewrite Hincl in Henc. discriminate. }
  rewrite (Codec.encryptAesEcb_valid_key plaintext key
             (proj1 (Codec.includes_key_lengths _) Hincl)) in Henc.
  injection Henc as <-. rewrite base64_inverse.
  change (pkcs7Pad (IsString plaintext))
    with (pkcs7Pad (IsBuffer (Buffer_from_utf8 plaintext))).
  pose proof (Codec.padded_whole_blocks (Buffer_from_utf8 plaintext)) as Hb.
  pose proof (pkcs7Pad_length (Buffer_from_utf8 plaintext)) as Hp.
  fold len in Hp.
  assert (Hlen : Buffer_length
                   (aes_ecb_encrypt (normalizeAesKey key)
                      (pkcs7Pad (IsBuffer (Buffer_from_utf8 plaintext))))
                 = Buffer_length
                     (pkcs7Pad (IsBuffer (Buffer_from_utf8 plaintext))))
    by (unfold Buffer_length; now rewrite aes_ecb_length).
  rewrite Hlen, Hp.
  pose proof (Buffer_length_nonneg (Buffer_from_utf8 plaintext)) as Hl.
  fold len in Hl.
  pose proof (Z.div_mod len 16 ltac:(lia)) as Hd.
  pose proof (Z.mod_pos_bound len 16 ltac:(lia)) as Hm.
  split; [lia|]. split; [|lia].
  replace (len + (16 - len mod 16)) with ((len / 16 + 1) * 16) by lia.
  now apply Z.rem_mul.
Qed.

Lemma encryptAesEcb_ciphertext_length_witness :
  let ciphertext :=
    @base64_encode sample_platform (rev (pkcs7Pad (IsString "hello"))) in
  let len := Buffer_length (Buffer_from_utf8 "hello") in
  Buffer_length (@base64_decode sample_platform ciphertext)
  = 16 * (len / 16) + 16
  /\ Z.rem (Buffer_length (@base64_decode sample_platform ciphertext)) 16 = 0
  /\ len < Buffer_length (@base64_decode sample_platform ciphertext)
     <= len + 16.
Proof.
  exact (encryptAesEcb_ciphertext_length Codec.sample_platform_laws
           "hello" "0123456789abcdef" _ eq_refl).
Defined.

(** X4. What [decryptAesEcb] refuses, for a ciphertext that is not empty.
    With zip code ['1'], data that does not start with the bytes 1f 8b is
    refused before the key is looked at.  With another zip code and encrypt
    code ['2'] (given, or left to its default), a missing or empty key is
    refused, and with a key, data that is not a whole number of blocks is
    refused before any decryption. *)
Theorem decryptAesEcb_refusals {P : Platform} (ciphertextB64 : string)
    (key encryptCode : option string) :
  truthy_string ciphertextB64 = true ->
  let dataBytes := base64_decode ciphertextB64 in
  (Buffer_get dataBytes 0 <> Some 31 \/ Buffer_get dataBytes 1 <> Some 139 ->
   decryptAesEcb ciphertextB64 key encryptCode (Some "1"%string)
   = Throw (EncryptionException "zipCode=1 but data is not gzipped"))
  /\ (forall zipCode,
        zipCode <> Some "1"%string ->
        encryptCode = None \/ encryptCode = Some "2"%string ->
        truthy_ostring key = false ->
        decryptAesEcb ciphertextB64 key encryptCode zipCode
        = Throw (EncryptionException "AES key required for decrypt"))
  /\ (forall zipCode k,
        zipCode <> Some "1"%string ->
        encryptCode = None \/ encryptCode = Some "2"%string ->
        truthy_string k = true ->
        Z.rem (Buffer_length dataBytes) 16 <> 0 ->
        decryptAesEcb ciphertextB64 (Some k) encryptCode zipCode
        = Throw (EncryptionException
                   ("Ciphertext length " ++ string_of_Z (Buffer_length dataBytes)
                    ++ " not multiple of 16")%string)).
Proof.
  intros Hc dataBytes.
  assert (Hdiff : forall b v, b <> Some v -> byte_differs b v = true).
  { intros [x|] v Hb; [cbn|reflexivity].
    destruct (Z.eqb_spec x v); [subst; contradiction | reflexivity]. }
  assert (Hzip : forall zipCode,
            zipCode <> Some "1"%string ->
            String.eqb (match zipCode with Some c => c | None => "0" end) "1"
            = false).
  { intros [z|] Hz; [|reflexivity].
    destruct (String.eqb_spec z "1"); [subst; contradiction | reflexivity]. }
  assert (Hec : encryptCode = None \/ encryptCode = Some "2"%string ->
                String.eqb
                  (match encryptCode with Some c => c | None => "2" end) "2"
                = true)
    by (intros [-> | ->]; reflexivity).
  split; [|split].
  - intros Hmagic. unfold decryptAesEcb. rewrite Hc. cbn [negb].
    change (String.eqb "1" "1") with true. cbv iota. fold dataBytes.
    assert (Hor : byte_differs (Buffer_get dataBytes 0) 31
                  || byte_differs (Buffer_get dataBytes 1) 139 = true).
    { apply orb_true_iff.
      destruct Hmagic as [H|H]; [left | right]; now apply Hdiff. }
    now rewrite Hor.
  - intros zipCode Hz Hcode Hkey. unfold decryptAesEcb.
    rewrite Hc, (Hzip zipCode Hz), (Hec Hcode). cbn [negb bind].
    destruct key as [k|]; [|reflexivity].
    cbn in Hkey. now rewrite Hkey.
  - intros zipCode k Hz Hcode Hk Hrem. unfold decryptAesEcb.
    rewrite Hc, (Hzip zipCode Hz), (Hec Hcode), Hk. cbn [negb bind].
    fold dataBytes. unfold AES_BLOCK_SIZE.
    destruct (Z.eqb_spec (Z.rem (Buffer_length dataBytes) 16) 0);
      [contradiction | reflexivity].
Qed.

Lemma decryptAesEcb_refusals_witness :
  let dataBytes := @base64_decode sample_platform "abc" in
  (Buffer_get dataBytes 0 <> Some 31 \/ Buffer_get dataBytes 1 <> Some 139 ->
   @decryptAesEcb sample_platform "abc" None None (Some "1"%string)
   = Throw (EncryptionException "zipCode=1 but data is not gzipped"))
  /\ (forall zipCode,
        zipCode <> Some "1"%string ->
        @None string = None \/ None = Some "2"%string ->
        truthy_ostring None = false ->
        @decryptAesEcb sample_platform "abc" None None zipCode
        = Throw (EncryptionException "AES key required for decrypt"))
  /\ (forall zipCode k,
        zipCode <> Some "1"%string ->
        @None string = None \/ None = Some "2"%string ->
        truthy_string k = true ->
        Z.rem (Buffer_length dataBytes) 16 <> 0 ->
        @decryptAesEcb sample_platform "abc" (Some k) None zipCode
        = Throw (EncryptionException
                   ("Ciphertext length " ++ string_of_Z (Buffer_length dataBytes)
                    ++ " not multiple of 16")%string)).
Proof.
  exact (@decryptAesEcb_refusals sample_platform "abc" None None eq_refl).
Defined.

(** X5. A decryption that succeeds has verified the padding: when
    [decryptAesEcb] returns a plaintext for a ciphertext that is not empty,
    under encrypt code ['2'] and zip code ['0'], a key was given, the data
    were whole blocks, and the bytes the cipher produced are some bytes
    followed by [n] bytes of value [n], for some [n] in 1..16; the plaintext
    is the UTF-8 decoding of the bytes before the padding. *)
Theorem decryptAesEcb_Ok_padding {P : Platform}
    (ciphertextB64 : string) (key : option string) (plaintext : string) :
  truthy_string ciphertextB64 = true ->
  decryptAesEcb ciphertextB64 key (Some "2"%string) (Some "0"%string)
  = Ok plaintext ->
  exists k n body,
    key = Some k /\ truthy_string k = true
    /\ Z.rem (Buffer_length (base64_decode ciphertextB64)) 16 = 0
    /\ valid_key_length (Buffer_length (normalizeAesKey k))
    /\ 1 <= n <= 16
    /\ aes_ecb_decrypt (normalizeAesKey k) (base64_decode ciphertextB64)
       = body ++ pad_block n
    /\ plaintext = Buffer_toString_utf8 body.
Proof.
  intros Hc. unfold decryptAesEcb. rewrite Hc. cbn [negb].
  change (String.eqb "0" "1") with false.
  change (String.eqb "2" "2") with true. cbn [bind].
  destruct key as [k|]; [|discriminate].
  destruct (truthy_string k) eqn:Hk; cbn [negb]; [|discriminate].
  unfold AES_BLOCK_SIZE, createDecipheriv_run.
  destruct (Z.eqb_spec (Z.rem (Buffer_length (base64_decode ciphertextB64)) 16)
              0) as [Hrem|]; cbn [negb]; [|discriminate].
  destruct (includes [16; 24; 32] (Buffer_length (normalizeAesKey k)))
    eqn:Hincl; cbn [negb bind]; [|discriminate].
  unfold AES_BLOCK_SIZE. rewrite Hrem. cbn [Z.eqb negb bind].
  destruct (pkcs7Unpad _) as [out|e] eqn:Hun; cbn [bind]; [|discriminate].
  intros H. injection H as <-.
  apply pkcs7Unpad_Ok_inv in Hun. destruct Hun as (n & Hn & _ & Hdata).
  exists k, n, out. repeat split; try assumption; try lia.
  now apply Codec.includes_key_lengths.
Qed.

Lemma decryptAesEcb_Ok_padding_witness :
  let c := @base64_encode sample_platform (rev (pkcs7Pad (IsString "hello"))) in
  exists k n body,
    Some "0123456789abcdef"%string = Some k /\ truthy_string k = true
    /\ Z.rem (Buffer_length (@base64_decode sample_platform c)) 16 = 0
    /\ valid_key_length (Buffer_length (normalizeAesKey k))
    /\ 1 <= n <= 16
    /\ @aes_ecb_decrypt sample_platform (normalizeAesKey k)
         (@base64_decode sample_platform c)
       = body ++ pad_block n
    /\ "hello"%string = Buffer_toString_utf8 body.
Proof.
  exact (@decryptAesEcb_Ok_padding sample_platform
           (@base64_encode sample_platform (rev (pkcs7Pad (IsString "hello"))))
           (Some "0123456789abcdef"%string) "hello" eq_refl eq_refl).
Defined.

End CodecEdges.

(* ================================================================== *)
(** ** Envelopes, built and unwrapped *)
(* ================================================================== *)

Module EnvelopeFlow.
Import CryptoUtils Pkcs7.

Section WithPlatform.
Context {P : Platform}.

(** What [unwrapResponse] does once the content is known not to be empty. *)
Lemma unwrapResponse_content (responseJson : Envelope string)
    (d : DataSection string) (aesKey : option string) :
  data responseJson = Some d ->
  truthy_string (content_text responseJson) = true ->
  unwrapResponse responseJson aesKey
  = try_catch
      (let* contentStr :=
         (if String.eqb (described d codeType) "1"
          then
            if negb (truthy_ostring aesKey)
            then Throw (EncryptionException
                          "Encrypted response but no AES key provided")
            else decryptAesEcb (content_text responseJson) aesKey
                   (Some (described d encryptCode))
                   (Some (described d zipCode))
          else
            let* decodedBytes :=
              (if String.eqb (described d zipCode) "1"
               then gunzipSync (base64_decode (content_text responseJson))
               else Ok (base64_decode (content_text responseJson))) in
            Ok (Buffer_toString_utf8 decodedBytes)) in
       let* decodedContent := JSON_parse contentStr in
       Ok (set_content responseJson decodedContent))
      (fun e => EncryptionException
                  ("Response processing failed: " ++ message_of e)%string).
Proof.
  intros Hd Hc. unfold unwrapResponse. fold (content_text responseJson).
  rewrite Hc, Hd. reflexivity.
Qed.

Lemma content_text_truthy_data (responseJson : Envelope string) :
  truthy_string (content_text responseJson) = true ->
  exists d, data responseJson = Some d
            /\ content d = Some (content_text responseJson).
Proof.
  unfold content_text. destruct (data responseJson) as [d|]; [|discriminate].
  intros H. exists d. split; [reflexivity|].
  unfold or_default in *. destruct (content d) as [c|]; [|discriminate].
  now destruct (truthy_string c).
Qed.

Context {L : CodecLaws P}.

(** The text that [encryptAesEcb] returns under a valid key is not empty
    and, for a plaintext without unpaired surrogates, decrypts to the
    plaintext. *)
Lemma encrypted_text (plaintext key : string) :
  valid_key_length (Buffer_length (normalizeAesKey key)) ->
  wellformed_text plaintext = true ->
  let encrypted :=
    base64_encode
      (aes_ecb_encrypt (normalizeAesKey key) (pkcs7Pad (IsString plaintext))) in
  truthy_string encrypted = true
  /\ decryptAesEcb encrypted (Some key) (Some "2"%string) (Some "0"%string)
     = Ok plaintext.
Proof.
  intros Hk Hwf encrypted.
  destruct (Codec.decrypt_encrypted plaintext key Hk) as [Htruthy Hdec].
  split; [exact Htruthy|].
  fold encrypted in Hdec. rewrite Hdec. now rewrite Utf8.utf8_roundtrip.
Qed.

End WithPlatform.

(** X6. Whatever goes wrong in [unwrapResponse] reaches the caller as an
    [EncryptionException] whose message starts with
    ['Response processing failed: '], be it a missing key, a failure of the
    runtime (base64, gzip, cipher) or content that does not parse. *)
Theorem unwrapResponse_errors_wrapped {P : Platform}
    (responseJson : Envelope string) (aesKey : option string)
    (e : Exception) :
  unwrapResponse responseJson aesKey = Throw e ->
  exists m,
    e = EncryptionException ("Response processing failed: " ++ m)%string.
Proof.
  destruct (truthy_string (content_text responseJson)) eqn:Hc.
  - destruct (content_text_truthy_data responseJson Hc) as (d & Hd & _).
    rewrite (unwrapResponse_content responseJson d aesKey Hd Hc).
    unfold try_catch.
    match goal with
    | |- match ?b with _ => _ end = _ -> _ => destruct b as [r|e0]
    end; [discriminate|].
    intros H. exists (message_of e0). congruence.
  - unfold unwrapResponse. fold (content_text responseJson). rewrite Hc.
    discriminate.
Qed.

Lemma unwrapResponse_errors_wrapped_witness :
  exists m,
    EncryptionException
      "Response processing failed: Encrypted response but no AES key provided"
    = EncryptionException ("Response processing failed: " ++ m)%string.
Proof.
  exact (@unwrapResponse_errors_wrapped sample_platform
           (sample_response "e30=" "1") None _ eq_refl).
Defined.

(** X7. An envelope without content is returned as it is: when [data] or
    [data.content] is missing, or the content is the empty string,
    [unwrapResponse] raises nothing and decodes nothing, whatever the
    description says and whether a key is given or not. *)
Theorem unwrapResponse_no_content {P : Platform}
    (responseJson : Envelope string) (aesKey : option string) :
  data responseJson = None
  \/ (exists d, data responseJson = Some d
                /\ (content d = None \/ content d = Some ""%string)) ->
  unwrapResponse responseJson aesKey = Ok (raw_envelope responseJson).
Proof.
  intros H. unfold unwrapResponse.
  destruct H as [-> | (d & -> & [-> | ->])]; reflexivity.
Qed.

Lemma unwrapResponse_no_content_witness :
  @unwrapResponse sample_platform (sample_response "" "2") None
  = Ok (raw_envelope (sample_response "" "2")).
Proof.
  apply (@unwrapResponse_no_content sample_platform).
  right. eexists. split; [reflexivity | now right].
Defined.

(** X8. For content that is not empty, with a code type other than ['1']
    and a zip code other than ['1'],
    [unwrapResponse] needs no key and ignores the one it is given: the
    base64-decoded content is parsed, the parsed value replaces
    [data.content], and a failure to parse is raised as
    [EncryptionException]. *)
Theorem unwrapResponse_plain {P : Platform}
    (responseJson : Envelope string) (d : DataSection string)
    (aesKey : option string) :
  data responseJson = Some d ->
  truthy_string (content_text responseJson) = true ->
  described d codeType <> "1"%string ->
  described d zipCode <> "1"%string ->
  unwrapResponse responseJson aesKey
  = match JSON_parse
            (Buffer_toString_utf8
               (base64_decode (content_text responseJson))) with
    | Ok decodedContent => Ok (set_content responseJson decodedContent)
    | Throw e =>
        Throw (EncryptionException
                 ("Response processing failed: " ++ message_of e)%string)
    end.
Proof.
  intros Hd Hc Hct Hz.
  rewrite (unwrapResponse_content responseJson d aesKey Hd Hc).
  destruct (String.eqb_spec (described d codeType) "1"); [contradiction|].
  destruct (String.eqb_spec (described d zipCode) "1"); [contradiction|].
  cbn [bind]. now destruct (JSON_parse _).
Qed.

Lemma unwrapResponse_plain_witness :
  @unwrapResponse sample_platform plain_response None
  = Ok (set_content plain_response
          (JObj [("passowrdDes"%string, JStr "e30=")])).
Proof.
  apply (@unwrapResponse_plain sample_platform plain_response _ None
           eq_refl eq_refl); discriminate.
Defined.

(** X9. [unwrapResponse] touches nothing but the content: the envelope it
    returns has the [globalInfo] and the [returnStateInfo] it was given, a
    [data] section exactly when there was one, and in it the signature and
    the description that were there. *)
Theorem unwrapResponse_frame {P : Platform}
    (responseJson : Envelope string) (aesKey : option string)
    (unwrapped : Envelope Content) :
  unwrapResponse responseJson aesKey = Ok unwrapped ->
  globalInfo unwrapped = globalInfo responseJson
  /\ returnStateInfo unwrapped = returnStateInfo responseJson
  /\ option_map signature (data unwrapped)
     = option_map signature (data responseJson)
  /\ option_map dataDescription (data unwrapped)
     = option_map dataDescription (data responseJson).
Proof.
  assert (Hraw : forall r : Envelope string,
            globalInfo (raw_envelope r) = globalInfo r
            /\ returnStateInfo (raw_envelope r) = returnStateInfo r
            /\ option_map signature (data (raw_envelope r))
               = option_map signature (data r)
            /\ option_map dataDescription (data (raw_envelope r))
               = option_map dataDescription (data r)).
  { intros r. cbn. repeat split; now destruct (data r). }
  assert (Hset : forall (r : Envelope string) j,
            globalInfo (set_content r j) = globalInfo r
            /\ returnStateInfo (set_content r j) = returnStateInfo r
            /\ option_map signature (data (set_content r j))
               = option_map signature (data r)
            /\ option_map dataDescription (data (set_content r j))
               = option_map dataDescription (data r)).
  { intros r j. cbn. repeat split; now destruct (data r). }
  destruct (truthy_string (content_text responseJson)) eqn:Hc.
  - destruct (content_text_truthy_data responseJson Hc) as (d & Hd & _).
    rewrite (unwrapResponse_content responseJson d aesKey Hd Hc).
    unfold try_catch, bind.
    match goal with
    | |- match match ?b with _ => _ end with _ => _ end = _ -> _ =>
        destruct b as [contentStr|]
    end; [|discriminate].
    destruct (JSON_parse contentStr) as [j|]; [|discriminate].
    intros H. injection H as <-. apply Hset.
  - unfold unwrapResponse. fold (content_text responseJson). rewrite Hc.
    cbn [negb]. intros H. injection H as <-. apply Hraw.
Qed.

Lemma unwrapResponse_frame_witness :
  let unwrapped :=
    set_content plain_response (JObj [("passowrdDes"%string, JStr "e30=")]) in
  globalInfo unwrapped = globalInfo plain_response
  /\ returnStateInfo unwrapped = returnStateInfo plain_response
  /\ option_map signature (data unwrapped)
     = option_map signature (data plain_response)
  /\ option_map dataDescription (data unwrapped)
     = option_map dataDescription (data plain_response).
Proof.
  exact (@unwrapResponse_frame sample_platform plain_response None _ eq_refl).
Defined.

End EnvelopeFlow.

(* ================================================================== *)
(** ** Envelopes, from builder to unwrapper *)
(* ================================================================== *)

Module EnvelopeRoundTrip.
Import CryptoUtils Pkcs7 EnvelopeFlow.

(** X10. What [buildEncryptedRequest] builds, [unwrapResponse] reads back
    with the same key: for a key of a valid length the envelope is built, and
    unwrapping it yields the same envelope with [data.content] replaced by
    the value that [JSON.parse] makes of [JSON.stringify(payload)] (a failure
    of that parse being raised as [EncryptionException]). *)
Theorem unwrapResponse_buildEncryptedRequest {P : Platform} (L : CodecLaws P)
    (amb : Ambient) (payload : json)
    (aesKey interfaceCode tin deviceNo brn : string)
    (privateKey : PrivateKey) (taxpayerId : string) :
  valid_key_length (Buffer_length (normalizeAesKey aesKey)) ->
  exists envelope,
    buildEncryptedRequest amb payload aesKey interfaceCode tin deviceNo brn
      privateKey taxpayerId = Ok envelope
    /\ unwrapResponse envelope (Some aesKey)
       = match JSON_parse (JSON_stringify payload) with
         | Ok decodedContent => Ok (set_content envelope decodedContent)
         | Throw e =>
             Throw (EncryptionException
                      ("Response processing failed: " ++ message_of e)%string)
         end.
Proof.
  intros Hk.
  destruct (encrypted_text (JSON_stringify payload) aesKey Hk
              (JSON_stringify_wellformed payload))
    as [Htruthy Hdec].
  unfold buildEncryptedRequest.
  rewrite (Codec.encryptAesEcb_valid_key (JSON_stringify payload) aesKey Hk).
  cbn [bind]. eexists. split; [reflexivity|].
  match goal with
  | |- unwrapResponse ?env _ = _ =>
      assert (Hct : content_text env
                    = base64_encode
                        (aes_ecb_encrypt (normalizeAesKey aesKey)
                           (pkcs7Pad (IsString (JSON_stringify payload)))))
        by (unfold content_text, or_default; cbn [data content];
            now rewrite Htruthy);
      erewrite (unwrapResponse_content env _ (Some aesKey) eq_refl)
        by (rewrite Hct; exact Htruthy);
      rewrite Hct
  end.
  change (String.eqb (described _ codeType) "1") with true. cbv iota.
  cbn [truthy_ostring]. rewrite (Codec.valid_key_truthy aesKey Hk).
  cbn [negb].
  change (described _ encryptCode) with "2"%string.
  change (described _ zipCode) with "0"%string.
  rewrite Hdec. cbn [bind]. now destruct (JSON_parse _).
Qed.

Lemma unwrapResponse_buildEncryptedRequest_witness :
  exists envelope,
    @buildEncryptedRequest sample_platform (KeyClient.ambient sample_world)
      (JObj []) "0123456789abcdef" "T109" "1000000001" "TCS0001" "" tt "1"
    = Ok envelope
    /\ @unwrapResponse sample_platform envelope (Some "0123456789abcdef"%string)
       = Ok (set_content envelope (JObj [("passowrdDes"%string, JStr "{}")])).
Proof.
  apply (unwrapResponse_buildEncryptedRequest Codec.sample_platform_laws
           (KeyClient.ambient sample_world) (JObj []) "0123456789abcdef"
           "T109" "1000000001" "TCS0001" "" tt "1").
  vm_compute. now left.
Defined.

(** X11. What [buildUnencryptedRequest] builds, [unwrapResponse] reads back
    without a key.  For a payload that is not empty (and serializes to a text
    that is not empty) the content of the envelope unwraps to the value that
    [JSON.parse] makes of [JSON.stringify(payload)], with any key or none;
    for an empty payload the envelope has the empty content, and unwrapping
    returns it as it is. *)
Theorem unwrapResponse_buildUnencryptedRequest {P : Platform}
    (L : CodecLaws P) (amb : Ambient) (payload : json)
    (interfaceCode tin deviceNo brn : string)
    (privateKey : option PrivateKey) (taxpayerId : string)
    (aesKey : option string) :
  let request :=
    buildUnencryptedRequest amb payload interfaceCode tin deviceNo brn
      privateKey taxpayerId in
  (truthy_json payload && (Object_keys_length payload >? 0) = true ->
   JSON_stringify payload <> ""%string ->
   unwrapResponse request aesKey
   = match JSON_parse (JSON_stringify payload) with
     | Ok decodedContent => Ok (set_content request decodedContent)
     | Throw e =>
         Throw (EncryptionException
                  ("Response processing failed: " ++ message_of e)%string)
     end)
  /\ (truthy_json payload && (Object_keys_length payload >? 0) = false ->
      content_text request = ""%string
      /\ unwrapResponse request aesKey = Ok (raw_envelope request)).
Proof.
  intros request. split.
  - intros Hne Hs.
    set (contentB64 :=
           base64_encode (Buffer_from_utf8 (JSON_stringify payload))).
    assert (Htruthy : truthy_string contentB64 = true).
    { destruct contentB64 eqn:E; [exfalso | reflexivity].
      apply base64_nonempty in E. apply Hs.
      now apply Utf8.Buffer_from_utf8_empty. }
    assert (Hreq : exists sig,
              request
              = {| data := Some
                     {| content := Some contentB64;
                        signature := Some sig;
                        dataDescription := Some
                          {| codeType := Some "0"%string;
                             encryptCode := Some "1"%string;
                             zipCode := Some "0"%string |} |};
                   globalInfo := Some
                     (buildGlobalInfo amb interfaceCode tin deviceNo brn
                        "admin" "32.5825" "0.3476" taxpayerId);
                   returnStateInfo := Some
                     {| returnCode := Some ""%string;
                        returnMessage := Some ""%string |} |}).
    { unfold request, buildUnencryptedRequest. rewrite Hne.
      destruct privateKey; eexists; reflexivity. }
    destruct Hreq as [sig Hreq]. rewrite Hreq.
    erewrite unwrapResponse_content;
      [ | reflexivity
        | unfold content_text, or_default; cbn [data content];
          now rewrite Htruthy ].
    unfold described, or_default.
    cbn [dataDescription codeType zipCode String.eqb Ascii.eqb Bool.eqb
         truthy_string bind].
    unfold content_text, or_default. cbn [data content]. rewrite Htruthy.
    unfold contentB64. rewrite base64_inverse.
    rewrite Utf8.utf8_roundtrip by apply JSON_stringify_wellformed.
    now destruct (JSON_parse _).
  - intros He.
    assert (Hreq : content_text request = ""%string)
      by (unfold request, buildUnencryptedRequest; now rewrite He).
    split; [exact Hreq|].
    unfold unwrapResponse. fold (content_text request). now rewrite Hreq.
Qed.

Lemma unwrapResponse_buildUnencryptedRequest_witness :
  let request :=
    @buildUnencryptedRequest sample_platform (KeyClient.ambient sample_world)
      (JObj [("invoiceNo"%string, JStr "1")]) "T108" "1000000001" "TCS0001"
      "" (Some tt) "1" in
  (true = true ->
   "{}"%string <> ""%string ->
   @unwrapResponse sample_platform request None
   = Ok (set_content request (JObj [("passowrdDes"%string, JStr "{}")])))
  /\ (true = false ->
      content_text request = ""%string
      /\ @unwrapResponse sample_platform request None
         = Ok (raw_envelope request)).
Proof.
  exact (unwrapResponse_buildUnencryptedRequest Codec.sample_platform_laws
           (KeyClient.ambient sample_world)
           (JObj [("invoiceNo"%string, JStr "1")]) "T108" "1000000001"
           "TCS0001" "" (Some tt) "1" None).
Defined.

Lemma upper_hex_digit (d : Z) :
  0 <= d < 16 -> is_upper_hex (upper_ascii (hex_digit d)) = true.
Proof.
  intros H. apply HexKeys.nibble_cases in H.
  repeat (destruct H as [-> | H]; [reflexivity|]). subst d. reflexivity.
Qed.

Lemma toUpperCase_hex (b : Buffer) :
  String.length (toUpperCase (Buffer_toString_hex b)) = (2 * List.length b)%nat
  /\ string_forall is_upper_hex (toUpperCase (Buffer_toString_hex b)) = true.
Proof.
  induction b as [|x b [IHl IHf]]; [split; reflexivity|].
  destruct (HexKeys.byte_nibbles x) as (Hh & Hl & _).
  cbn [Buffer_toString_hex toUpperCase String.length string_forall List.length].
  rewrite !upper_hex_digit, IHf by assumption. split; [lia | reflexivity].
Qed.

(** X12. The metadata block that [buildGlobalInfo] makes: the exchange
    identifier has two upper-case hexadecimal digits for each random byte,
    32 of them when [randomBytes(16)] gives its 16 bytes; the taxpayer
    identifier is the one given, or ['1'] when that is empty, so never empty;
    and the operator name is the user name. *)
Theorem buildGlobalInfo_identifiers (amb : Ambient)
    (interfaceCode tin deviceNo brn user longitude latitude taxpayerId
     : string) :
  let info :=
    buildGlobalInfo amb interfaceCode tin deviceNo brn user longitude
      latitude taxpayerId in
  String.length (dataExchangeId info)
  = (2 * List.length (crypto_randomBytes amb 16))%nat
  /\ string_forall is_upper_hex (dataExchangeId info) = true
  /\ taxpayerID info
     = (if truthy_string taxpayerId then taxpayerId else "1"%string)
  /\ taxpayerID info <> ""%string
  /\ operatorName (extendField info) = userName info.
Proof.
  intros info.
  destruct (toUpperCase_hex (crypto_randomBytes amb 16)) as [Hlen Hhex].
  split; [exact Hlen|]. split; [exact Hhex|].
  split; [reflexivity|]. split; [|reflexivity].
  cbn. destruct taxpayerId; discriminate.
Qed.

End EnvelopeRoundTrip.

(* ================================================================== *)
(** ** The life of the session key *)
(* ================================================================== *)

Module KeyLifecycle.
Import CryptoUtils KeyClient SessionKey.

Lemma fetchAesKey_normalize_valid (candidate key : Buffer) :
  fetchAesKey_normalize candidate = Ok key ->
  valid_key_length (Buffer_length key).
Proof.
  unfold fetchAesKey_normalize.
  match goal with
  | |- (if negb (includes _ (Buffer_length ?k)) then _ else _) = _ -> _ =>
      set (aesKey := k);
      destruct (includes [16; 24; 32] (Buffer_length aesKey)) eqn:E
  end; cbn [negb]; [|discriminate].
  intros H. assert (key = aesKey) by congruence. subst key.
  now apply Codec.includes_key_lengths.
Qed.

Section WithPlatform.
Context {P : Platform}.

(** The key that [extract_key] returns is the hexadecimal text of a key of
    a valid length. *)
Lemma extract_key_wellformed (privateKey : PrivateKey)
    (respJson : Envelope string) (key : string) (contentJson : json) :
  extract_key privateKey respJson = Ok (key, contentJson) ->
  exists aesKey,
    key = Buffer_toString_hex aesKey
    /\ valid_key_length (Buffer_length aesKey).
Proof.
  unfold extract_key.
  destruct (match data respJson with Some d => content d | None => None end)
    as [c|]; [|discriminate].
  destruct (negb (truthy_string c)); [discriminate|].
  destruct (JSON_parse _) as [cj|]; cbn [bind]; [|discriminate].
  destruct (json_get cj "passowrdDes") as [f1|]; cbn [bind]; [|discriminate].
  destruct (if nullish f1 then json_get cj "passwordDes" else Ok f1)
    as [[v|]|]; cbn [bind]; try discriminate.
  destruct (negb (truthy_json v)); [discriminate|].
  destruct (Buffer_from_base64 v) as [enc|]; cbn [bind]; [|discriminate].
  destruct (privateDecrypt privateKey enc) as [raw|]; cbn [bind];
    [|discriminate].
  destruct (fetchAesKey_normalize _) as [aesKey|] eqn:Hn; cbn [bind];
    [|discriminate].
  intros H. exists aesKey. split; [congruence|].
  exact (fetchAesKey_normalize_valid _ _ Hn).
Qed.

Lemma same_private_key_loadPrivateKey (cfg : Config) (w : World) (s : State)
    (k : PrivateKey) :
  _privateKey s = Some k ->
  loadPrivateKey cfg w s = (Ok k, s).
Proof. intros H. unfold loadPrivateKey. now rewrite H. Qed.

Lemma loadPrivateKey_frame (cfg : Config) (w : World) (s : State) :
  taxpayerId (snd (loadPrivateKey cfg w s)) = taxpayerId s
  /\ (forall k, _privateKey s = Some k ->
                _privateKey (snd (loadPrivateKey cfg w s)) = Some k)
  /\ (forall k, fst (loadPrivateKey cfg w s) = Ok k ->
                _privateKey (snd (loadPrivateKey cfg w s)) = Some k)
  /\ (forall e, fst (loadPrivateKey cfg w s) = Throw e ->
                snd (loadPrivateKey cfg w s) = s).
Proof.
  unfold loadPrivateKey. destruct (_privateKey s) as [k0|] eqn:Hk.
  - cbn. repeat split; intros; congruence.
  - destruct (loadPrivateKeyFromPfx cfg w) as [k1|e1]; cbn;
      repeat split; intros; congruence.
Qed.

(** X13. The private key is loaded once.  A call of [loadPrivateKey] that
    succeeds leaves the key in the object, and every later call, whatever
    has become of the key file, returns that key and changes nothing; a call
    that fails changes nothing; and no call touches the cached session key or
    the taxpayer identifier. *)
Theorem loadPrivateKey_once (cfg : Config) (w : World) (s : State) :
  let s1 := snd (loadPrivateKey cfg w s) in
  (forall k, fst (loadPrivateKey cfg w s) = Ok k ->
             forall cfg' w', loadPrivateKey cfg' w' s1 = (Ok k, s1))
  /\ (forall e, fst (loadPrivateKey cfg w s) = Throw e -> s1 = s)
  /\ same_cache s s1
  /\ taxpayerId s1 = taxpayerId s.
Proof.
  intros s1. destruct (loadPrivateKey_frame cfg w s) as (Ht & _ & Hok & He).
  split; [|split; [exact He|split; [apply loadPrivateKey_same_cache|exact Ht]]].
  intros k Hk cfg' w'. apply same_private_key_loadPrivateKey. now apply Hok.
Qed.

Lemma fetchAesKey_response_frame (w : World) (privateKey : PrivateKey)
    (reply : Result (option (Envelope string))) (s : State) :
  _privateKey (snd (fetchAesKey_response w privateKey reply s)) = _privateKey s
  /\ taxpayerId (snd (fetchAesKey_response w privateKey reply s))
     = taxpayerId s.
Proof.
  destruct (fetchAesKey_response_cases w privateKey reply s)
    as [[e ->]|(rj & ak & cj & _ & _ & _ & ->)]; split; reflexivity.
Qed.

Lemma fetchAesKey_request_frame (cfg : Config) (w : World) (force : bool)
    (s : State) :
  taxpayerId (snd (fetchAesKey_request cfg w force s)) = taxpayerId s
  /\ (forall k, _privateKey s = Some k ->
                _privateKey (snd (fetchAesKey_request cfg w force s))
                = Some k).
Proof.
  unfold fetchAesKey_request.
  destruct (if force then None else cache_hit w s);
    [split; [reflexivity | now intros]|].
  destruct (loadPrivateKey_frame cfg w s) as (Ht & Hk & _ & _).
  destruct (loadPrivateKey cfg w s) as [[k|e] s1]; cbn [snd] in *;
    split; assumption.
Qed.

(** X14. Once loaded, the private key stays: no piece of any call of
    [KeyClient] replaces or drops a private key that the object holds, so in
    every state reached from one that holds a key, the object holds that
    key. *)
Theorem private_key_stays (cfg : Config) :
  (forall s s' k, Step cfg s s' -> _privateKey s = Some k ->
                  _privateKey s' = Some k)
  /\ (forall w force s k,
        _privateKey s = Some k ->
        _privateKey (final (fetchAesKey cfg w force s)) = Some k)
  /\ (forall s k, _privateKey s = Some k ->
                  _privateKey (forgetAesKey s) = Some k).
Proof.
  assert (Hstep : forall s s' k, Step cfg s s' -> _privateKey s = Some k ->
                                 _privateKey s' = Some k).
  { intros s s' k HS Hk. destruct HS.
    - exact Hk.
    - destruct (loadPrivateKey_frame cfg w s) as (_ & H & _ & _).
      now apply H.
    - unfold getPrivateKey. now rewrite Hk.
    - unfold signData, getPrivateKey. now rewrite Hk.
    - destruct (fetchAesKey_request_frame cfg w force s) as (_ & H).
      now apply H.
    - destruct (fetchAesKey_response_frame w privateKey reply s) as [-> _].
      exact Hk.
    - exact Hk.
    - exact Hk. }
  split; [exact Hstep|]. split; [|now intros].
  intros w force s k Hk. unfold fetchAesKey.
  pose proof (proj2 (fetchAesKey_request_frame cfg w force s) k Hk) as Hreq.
  destruct (fetchAesKey_request cfg w force s) as [[r|pk url payload] s1];
    cbn [snd] in Hreq; [exact Hreq|].
  pose proof (fetchAesKey_response_frame w pk
                (axios_post w url payload) s1) as [Hresp _].
  destruct (fetchAesKey_response w pk (axios_post w url payload) s1)
    as [r s2]. cbn [snd final] in *. congruence.
Qed.

(** X15. [isAesKeyValid] and the cache test of [fetchAesKey] agree:
    [fetchAesKey] without force answers from the cache exactly when
    [isAesKeyValid] holds at the same clock reading; and when it does not
    hold, the call proceeds as a forced one. *)
Theorem isAesKeyValid_is_cache_test (cfg : Config) (w : World) (s : State) :
  (forall key, cache_hit w s = Some key
               <-> _aesKey s = Some key
                   /\ isAesKeyValid (Date_now_check w) s = true)
  /\ (isAesKeyValid (Date_now_check w) s = true ->
      exists key,
        _aesKey s = Some key
        /\ fetchAesKey cfg w false s
           = {| result := Ok key; final := s; posts := [] |})
  /\ (isAesKeyValid (Date_now_check w) s = false ->
      fetchAesKey cfg w false s = fetchAesKey cfg w true s).
Proof.
  assert (Hiff : forall key, cache_hit w s = Some key
               <-> _aesKey s = Some key
                   /\ isAesKeyValid (Date_now_check w) s = true).
  { intros key. unfold cache_hit, isAesKeyValid.
    destruct (_aesKey s) as [k|]; [|split; [discriminate | now intros [? _]]].
    destruct (_aesKeyFetchedAt s) as [t|];
      [|split; [discriminate | now intros [_ ?]]].
    destruct (truthy_string k && negb (t =? 0)
              && (Date_now_check w - 1000 * t <? 1000 * _aesKeyTtlSeconds)).
    - split; [intros H; split; congruence | intros [H _]; congruence].
    - split; [discriminate | now intros [_ ?]]. }
  split; [exact Hiff|]. split.
  - intros Hv. destruct (cache_hit w s) as [key|] eqn:Hhit.
    + exists key. split; [exact (proj1 (proj1 (Hiff key) eq_refl))|].
      unfold fetchAesKey, fetchAesKey_request. now rewrite Hhit.
    + exfalso. unfold cache_hit, isAesKeyValid in *.
      destruct (_aesKey s) as [k|]; [|discriminate].
      destruct (_aesKeyFetchedAt s) as [t|]; [|discriminate].
      rewrite Hv in Hhit. discriminate.
  - intros Hv. unfold fetchAesKey, fetchAesKey_request.
    destruct (cache_hit w s) as [key|] eqn:Hhit; [|reflexivity].
    destruct (proj1 (Hiff key) eq_refl) as [_ Hyes]. congruence.
Qed.

(** X16. [getAesKeyValidUntil] is the instant at which [isAesKeyValid]
    turns false: a key that is valid at a clock reading has a
    valid-until instant after that reading, and a cached key whose
    valid-until instant is after the reading is valid. *)
Theorem getAesKeyValidUntil_bounds_validity (now : Z) (s : State) :
  (isAesKeyValid now s = true ->
   exists validUntil,
     getAesKeyValidUntil s = Some validUntil /\ now < validUntil)
  /\ (forall key validUntil,
        _aesKey s = Some key -> truthy_string key = true ->
        getAesKeyValidUntil s = Some validUntil ->
        isAesKeyValid now s = (now <? validUntil))
  /\ getAesKeyValidUntil (forgetAesKey s) = None.
Proof.
  unfold isAesKeyValid, getAesKeyValidUntil, _aesKeyTtlSeconds.
  split; [|split; [|reflexivity]].
  - destruct (_aesKey s) as [k|]; [|discriminate].
    destruct (_aesKeyFetchedAt s) as [t|]; [|discriminate].
    destruct (Z.eqb_spec t 0) as [|Hnz].
    + rewrite andb_false_r. discriminate.
    + intros H. apply andb_true_iff in H. destruct H as [_ H].
      apply Z.ltb_lt in H. eexists. split; [reflexivity | lia].
  - intros key validUntil -> Hk.
    destruct (_aesKeyFetchedAt s) as [t|]; [|discriminate].
    destruct (Z.eqb_spec t 0) as [|Hnz]; [discriminate|].
    intros H. injection H as <-. rewrite Hk. cbn [andb negb].
    destruct (Z.ltb_spec (now - 1000 * t) (1000 * (23 * 60 * 60)));
      destruct (Z.ltb_spec now ((t + 23 * 60 * 60) * 1000)); try reflexivity;
      lia.
Qed.

End WithPlatform.
End KeyLifecycle.

(* ================================================================== *)
(** ** The cached key in use *)
(* ================================================================== *)

Module KeyCache.
Import CryptoUtils KeyClient SessionKey KeyLifecycle.

(** A run of [fetchAesKey] that returns a key after sending a request has
    stored that key, well formed, with the second of the store clock. *)
Lemma handshake_state {P : Platform} (cfg : Config) (w : World) (force : bool) (s : State)
    (key : string) :
  result (fetchAesKey cfg w force s) = Ok key ->
  posts (fetchAesKey cfg w force s) <> [] ->
  exists contentJson aesKey,
    final (fetchAesKey cfg w force s)
    = stored w key contentJson (snd (loadPrivateKey cfg w s))
    /\ key = Buffer_toString_hex aesKey
    /\ valid_key_length (Buffer_length aesKey).
Proof.
  intros Hres Hposts.
  destruct (fetchAesKey_cases cfg w force s)
    as [(e & He & _)|[(k & _ & _ & Hrun)
                     |(pk & pl & rj & ak & cj & _ & _ & Hex & Hr & _ & Hfin)]].
  - rewrite He in Hres. discriminate.
  - rewrite Hrun in Hposts. now elim Hposts.
  - assert (ak = key) by congruence. subst ak.
    destruct (extract_key_wellformed pk rj key cj Hex) as (b & Hb & Hv).
    exists cj, b. repeat split; assumption.
Qed.

Lemma wellformed_truthy (key : string) (aesKey : Buffer) :
  key = Buffer_toString_hex aesKey ->
  valid_key_length (Buffer_length aesKey) ->
  truthy_string key = true.
Proof.
  intros -> Hv. apply HexKeys.truthy_toString_hex.
  intros ->. destruct Hv as [H|[H|H]]; discriminate.
Qed.

Lemma stored_valid_window {P : Platform} (w : World) (key : string) (contentJson : json)
    (s : State) (now : Z) :
  truthy_string key = true -> 1000 <= Date_now_store w ->
  isAesKeyValid now (stored w key contentJson s)
  = (now <? 1000 * (Date_now_store w / 1000 + _aesKeyTtlSeconds)).
Proof.
  intros Hk Hclock. unfold isAesKeyValid, stored.
  cbn [_aesKey _aesKeyFetchedAt]. rewrite Hk.
  assert (Hpos : 1 <= Date_now_store w / 1000) by lia_div.
  generalize dependent (Date_now_store w / 1000). intros q Hpos.
  destruct (Z.eqb_spec q 0) as [|_]; [lia|].
  cbn [andb negb]. unfold _aesKeyTtlSeconds.
  destruct (Z.ltb_spec (now - 1000 * q) (1000 * (23 * 60 * 60)));
    destruct (Z.ltb_spec now (1000 * (q + 23 * 60 * 60)));
    try reflexivity; lia.
Qed.

(** X17. The time to live of a fetched key.  After a handshake that
    succeeds while the clock reads [T] (at least one second past the epoch),
    the object holds the key that was returned, fetched at the second
    [floor(T / 1000)], and [isAesKeyValid] holds at exactly the clock
    readings before that second plus 23 hours. *)
Theorem handshake_key_ttl {P : Platform} (cfg : Config) (w : World) (force : bool)
    (s : State) (key : string) :
  result (fetchAesKey cfg w force s) = Ok key ->
  posts (fetchAesKey cfg w force s) <> [] ->
  1000 <= Date_now_store w ->
  let s' := final (fetchAesKey cfg w force s) in
  let fetchedAt := Date_now_store w / 1000 in
  getAesKey s' = Some key
  /\ getAesKeyFetchedAt s' = Some fetchedAt
  /\ (forall now,
        isAesKeyValid now s'
        = (now <? 1000 * (fetchedAt + _aesKeyTtlSeconds))).
Proof.
  intros Hres Hposts Hclock s' fetchedAt.
  destruct (handshake_state cfg w force s key Hres Hposts)
    as (cj & b & Hfin & Hb & Hv).
  subst s'. rewrite Hfin. split; [reflexivity|]. split; [reflexivity|].
  intros now. apply stored_valid_window; [|exact Hclock].
  exact (wellformed_truthy key b Hb Hv).
Qed.

Lemma handshake_key_ttl_witness :
  let s' := sample_state in
  let fetchedAt := Date_now_store sample_world / 1000 in
  getAesKey s' = Some "30313233343536373839616263646566"%string
  /\ getAesKeyFetchedAt s' = Some fetchedAt
  /\ (forall now,
        isAesKeyValid now s'
        = (now <? 1000 * (fetchedAt + _aesKeyTtlSeconds))).
Proof.
  apply (handshake_key_ttl sample_config sample_world false
           (new_KeyClient "1") "30313233343536373839616263646566");
    [reflexivity | discriminate | vm_compute; discriminate].
Defined.

(** X18. A key that was just fetched is served from the cache: after a
    handshake that succeeds (while the clock reads at least one second past
    the epoch), a call of [fetchAesKey] without force, made while the clock
    is still within 23 hours of the second the key was stored at, returns
    the same key, sends nothing and changes nothing. *)
Theorem fetchAesKey_again {P : Platform} (cfg : Config) (w : World) (force : bool)
    (s : State) (key : string) (cfg' : Config) (w' : World) :
  result (fetchAesKey cfg w force s) = Ok key ->
  posts (fetchAesKey cfg w force s) <> [] ->
  1000 <= Date_now_store w ->
  Date_now_check w'
  < 1000 * (Date_now_store w / 1000 + _aesKeyTtlSeconds) ->
  fetchAesKey cfg' w' false (final (fetchAesKey cfg w force s))
  = {| result := Ok key;
       final := final (fetchAesKey cfg w force s);
       posts := [] |}.
Proof.
  intros Hres Hposts Hclock Hfresh.
  destruct (handshake_state cfg w force s key Hres Hposts)
    as (cj & b & Hfin & Hb & Hv).
  rewrite Hfin. unfold fetchAesKey, fetchAesKey_request, cache_hit, stored.
  cbn [_aesKey _aesKeyFetchedAt].
  rewrite (wellformed_truthy key b Hb Hv).
  assert (Hpos : 1 <= Date_now_store w / 1000) by lia_div.
  clear Hfin. generalize dependent (Date_now_store w / 1000).
  intros q Hfresh Hpos.
  destruct (Z.eqb_spec q 0) as [|_]; [lia|].
  cbn [andb negb].
  destruct (Z.ltb_spec (Date_now_check w' - 1000 * q)
              (1000 * _aesKeyTtlSeconds)); [reflexivity | lia].
Qed.

Lemma fetchAesKey_again_witness :
  fetchAesKey sample_config sample_world false sample_state
  = {| result := Ok "30313233343536373839616263646566"%string;
       final := sample_state;
       posts := [] |}.
Proof.
  apply (fetchAesKey_again sample_config sample_world false
           (new_KeyClient "1") "30313233343536373839616263646566"
           sample_config sample_world);
    [reflexivity | discriminate | vm_compute; discriminate | reflexivity].
Defined.

(** X19. [forgetAesKey] invalidates: after it the key is not valid at any
    clock reading, there are no key bytes, the next [fetchAesKey] cannot
    answer from the cache and proceeds exactly as a forced one; the private
    key and the taxpayer identifier are kept, and forgetting twice is
    forgetting once. *)
Theorem forgetAesKey_invalidates {P : Platform} (cfg : Config) (w : World) (s : State) :
  (forall now, isAesKeyValid now (forgetAesKey s) = false)
  /\ getAesKeyBytes (forgetAesKey s) = None
  /\ cache_hit w (forgetAesKey s) = None
  /\ fetchAesKey cfg w false (forgetAesKey s)
     = fetchAesKey cfg w true (forgetAesKey s)
  /\ _privateKey (forgetAesKey s) = _privateKey s
  /\ taxpayerId (forgetAesKey s) = taxpayerId s
  /\ forgetAesKey (forgetAesKey s) = forgetAesKey s.
Proof. repeat split. Qed.

Lemma Step_wellformed {P : Platform} (cfg : Config) (s s' : State) :
  Step cfg s s' -> cached_key_wellformed s -> cached_key_wellformed s'.
Proof.
  assert (Hsame : forall a b : State,
            same_cache a b -> cached_key_wellformed a ->
            cached_key_wellformed b).
  { intros a b (Hk & _ & _) Hw key Hkey. apply Hw. congruence. }
  intros HS Hw. destruct HS.
  - exact Hw.
  - exact (Hsame _ _ (loadPrivateKey_same_cache cfg w s) Hw).
  - exact (Hsame _ _ (getPrivateKey_same_cache cfg w s) Hw).
  - exact (Hsame _ _ (signData_same_cache cfg w _ s) Hw).
  - exact (Hsame _ _ (fetchAesKey_request_same_cache cfg w force s) Hw).
  - destruct (fetchAesKey_response_cases w privateKey reply s)
      as [[e ->]|(rj & ak & cj & _ & _ & Hex & ->)]; [exact Hw|].
    intros key Hkey. cbn in Hkey. injection Hkey as <-.
    exact (extract_key_wellformed privateKey rj ak cj Hex).
  - intros key Hkey. discriminate.
  - intros key Hkey. apply Hw. exact Hkey.
Qed.

Lemma Reachable_wellformed {P : Platform} (cfg : Config) (s : State) :
  Reachable cfg s -> cached_key_wellformed s.
Proof.
  induction 1 as [t|s s' _ IH HS].
  - intros key Hkey. discriminate.
  - exact (Step_wellformed cfg s s' HS IH).
Qed.

(** The key that a run of [fetchAesKey] returns is well formed when the
    cached key was. *)
Lemma fetched_key_wellformed {P : Platform} (cfg : Config) (w : World) (force : bool)
    (s : State) (key : string) :
  cached_key_wellformed s ->
  result (fetchAesKey cfg w force s) = Ok key ->
  exists aesKey,
    key = Buffer_toString_hex aesKey
    /\ valid_key_length (Buffer_length aesKey).
Proof.
  intros Hw Hres.
  destruct (fetchAesKey_cases cfg w force s)
    as [(e & He & _)|[(k & _ & Hhit & Hrun)
                     |(pk & pl & rj & ak & cj & _ & _ & Hex & Hr & _)]].
  - rewrite He in Hres. discriminate.
  - rewrite Hrun in Hres. cbn in Hres. injection Hres as ->.
    apply Hw. unfold cache_hit in Hhit.
    destruct (_aesKey s) as [k|]; [|discriminate].
    destruct (_aesKeyFetchedAt s); [|discriminate].
    destruct (_ && _); congruence.
  - assert (ak = key) by congruence. subst ak.
    exact (extract_key_wellformed pk rj key cj Hex).
Qed.

(** X20. Every key that [fetchAesKey] returns can be used.  In any state
    the object can reach, the key a run of [fetchAesKey] returns, from the
    cache or from a handshake, normalizes to 16, 24 or 32 bytes, so
    [encryptAesEcb] accepts it for every plaintext, and [decryptAesEcb] under
    the same key gives back the plaintext as UTF-8 encoding and decoding
    leave it: the plaintext itself exactly when it has no unpaired
    surrogate. *)
Theorem fetched_key_usable {P : Platform} (L : CodecLaws P) (cfg : Config)
    (w : World) (force : bool) (s : State) (key plaintext : string) :
  Reachable cfg s ->
  result (fetchAesKey cfg w force s) = Ok key ->
  valid_key_length (Buffer_length (normalizeAesKey key))
  /\ exists ciphertext,
       encryptAesEcb plaintext key = Ok ciphertext
       /\ decryptAesEcb ciphertext (Some key) (Some "2"%string)
            (Some "0"%string)
          = Ok (Buffer_toString_utf8 (Buffer_from_utf8 plaintext))
       /\ (decryptAesEcb ciphertext (Some key) (Some "2"%string)
             (Some "0"%string)
           = Ok plaintext
           <-> wellformed_text plaintext = true).
Proof.
  intros Hreach Hres.
  destruct (fetched_key_wellformed cfg w force s key
              (Reachable_wellformed cfg s Hreach) Hres) as (b & -> & Hv).
  assert (Hk : valid_key_length
                 (Buffer_length (normalizeAesKey (Buffer_toString_hex b))))
    by now rewrite HexKeys.normalizeAesKey_toString_hex.
  split; [exact Hk|]. eexists.
  split; [now apply Codec.encryptAesEcb_valid_key|].
  destruct (Codec.decrypt_encrypted plaintext (Buffer_toString_hex b) Hk)
    as [_ Hdec].
  split; [exact Hdec|].
  rewrite Hdec, <- Utf8.utf8_roundtrip_iff. split; congruence.
Qed.

Lemma fetched_key_usable_witness :
  valid_key_length
    (Buffer_length (normalizeAesKey "30313233343536373839616263646566"))
  /\ exists ciphertext,
       @encryptAesEcb sample_platform "hello"
         "30313233343536373839616263646566" = Ok ciphertext
       /\ @decryptAesEcb sample_platform ciphertext
            (Some "30313233343536373839616263646566"%string)
            (Some "2"%string) (Some "0"%string) = Ok "hello"%string.
Proof.
  destruct (fetched_key_usable Codec.sample_platform_laws sample_config
              sample_world false (new_KeyClient "1")
              "30313233343536373839616263646566" "hello")
    as (Hk & ciphertext & Henc & _ & Hdec);
    [apply reach_new | reflexivity |].
  split; [exact Hk|]. exists ciphertext.
  split; [exact Henc | now apply Hdec].
Defined.

(** X21. [getAesKeyBytes] gives the bytes the cipher will use: in any state
    the object can reach, when a key is cached, [getAesKeyBytes] returns
    what [normalizeAesKey] makes of the cached text, 16, 24 or 32 bytes
    whose hexadecimal text is the cached key. *)
Theorem getAesKeyBytes_normalized {P : Platform} (cfg : Config) (s : State)
    (key : string) :
  Reachable cfg s -> _aesKey s = Some key ->
  getAesKeyBytes s = Some (normalizeAesKey key)
  /\ Buffer_toString_hex (normalizeAesKey key) = key
  /\ valid_key_length (Buffer_length (normalizeAesKey key)).
Proof.
  intros Hreach Hkey.
  destruct (Reachable_wellformed cfg s Hreach key Hkey) as (b & -> & Hv).
  unfold getAesKeyBytes. rewrite Hkey.
  rewrite (wellformed_truthy _ b eq_refl Hv).
  rewrite HexKeys.normalizeAesKey_toString_hex by exact Hv.
  rewrite HexKeys.Buffer_from_hex_toString_hex. repeat split. exact Hv.
Qed.

Lemma sample_state_reachable : Reachable sample_config sample_state.
Proof.
  unfold sample_state, fetchAesKey.
  set (s0 := @new_KeyClient sample_platform "1").
  assert (H0 : Reachable sample_config s0) by apply reach_new.
  pose proof (reach_step sample_config _ _ H0
                (step_fetchAesKey_request sample_config sample_world false s0))
    as H1.
  destruct (fetchAesKey_request sample_config sample_world false s0)
    as [[r|pk url payload] s1]; cbn [snd final] in *; [exact H1|].
  pose proof (reach_step sample_config _ _ H1
                (step_fetchAesKey_response sample_config sample_world pk
                   (axios_post sample_world url payload) s1)) as H2.
  destruct (fetchAesKey_response sample_world pk
              (axios_post sample_world url payload) s1) as [r s2].
  exact H2.
Qed.

Lemma getAesKeyBytes_normalized_witness :
  getAesKeyBytes sample_state
  = Some (normalizeAesKey "30313233343536373839616263646566")
  /\ Buffer_toString_hex (normalizeAesKey "30313233343536373839616263646566")
     = "30313233343536373839616263646566"%string
  /\ valid_key_length
       (Buffer_length (normalizeAesKey "30313233343536373839616263646566")).
Proof.
  exact (getAesKeyBytes_normalized sample_config sample_state
           "30313233343536373839616263646566" sample_state_reachable
           eq_refl).
Defined.

(** X22. How [fetchAesKey] fails and what it sends.  A run sends at most
    one request, to the endpoint of the configuration.  When it raises, the
    error is either the one that loading the private key raised, and then
    nothing was sent, or it was raised after the one request: an
    [APIException] when the exchange failed or the reply lacks the success
    marker, an [EncryptionException] for whatever fails on a reply that has
    the marker, and, when the body of the reply is [null], the [TypeError]
    of the runtime, which no handler of [fetchAesKey] catches. *)
Theorem fetchAesKey_failures {P : Platform} (cfg : Config) (w : World)
    (force : bool) (s : State) :
  let run := fetchAesKey cfg w force s in
  (posts run = []
   \/ exists payload, posts run = [(getEndpoint cfg, payload)])
  /\ (forall e,
        result run = Throw e ->
        (fst (loadPrivateKey cfg w s) = Throw e /\ posts run = [])
        \/ (exists payload,
              posts run = [(getEndpoint cfg, payload)]
              /\ let reply := axios_post w (getEndpoint cfg) payload in
                 (exists err,
                    reply = Throw err
                    /\ e = APIException
                             ("T104 connection error: " ++ message_of err)%string
                             None)
                 \/ (reply = Ok None
                     /\ e = JsError
                              "Cannot read properties of null (reading 'returnStateInfo')")
                 \/ (exists respJson m c,
                       reply = Ok (Some respJson) /\ ~ reply_success respJson
                       /\ e = APIException ("T104 failed: " ++ m)%string
                                (Some c))
                 \/ (exists respJson m,
                       reply = Ok (Some respJson) /\ reply_success respJson
                       /\ e = EncryptionException
                                ("Failed to extract AES key: " ++ m)%string))).
Proof.
  cbv zeta. unfold fetchAesKey, fetchAesKey_request.
  destruct (if force then None else cache_hit w s) as [k|].
  - split; [now left | discriminate].
  - destruct (loadPrivateKey cfg w s) as [[pk|e0] s1]; cbn [fst].
    + pose proof (fetchAesKey_response_error_kinds w pk
                    (axios_post w (getEndpoint cfg)
                       (buildUnencryptedRequest (ambient w) (JArr []) "T104"
                          (KeyClient.tin cfg) (KeyClient.deviceNo cfg)
                          (KeyClient.brn cfg) (Some pk) (taxpayerId s1)))
                    s1) as Hkinds.
      destruct (fetchAesKey_response w pk _ s1) as [r s2].
      cbn [fst posts result] in *. split; [right; eauto|].
      intros e He. right. eexists. split; [reflexivity|].
      now apply Hkinds.
    + cbn. split; [now left|]. intros e He. left.
      split; [congruence | reflexivity].
Qed.

(** X23. A missing key file stops the handshake before anything is sent:
    when the object holds no private key and the PFX file does not exist, a
    run of [fetchAesKey] that cannot answer from the cache raises
    [AuthenticationException] naming the path, sends nothing and leaves the
    object as it is. *)
Theorem fetchAesKey_missing_pfx {P : Platform} (cfg : Config) (w : World)
    (force : bool) (s : State) :
  _privateKey s = None ->
  fs_existsSync w (pfxPath cfg) = false ->
  force = true \/ cache_hit w s = None ->
  fetchAesKey cfg w force s
  = {| result :=
         Throw (AuthenticationException
                  ("PFX file not found: " ++ pfxPath cfg)%string);
       final := s;
       posts := [] |}.
Proof.
  intros Hk Hfs Hmiss.
  assert (Hnone : (if force then None else cache_hit w s) = None)
    by (destruct Hmiss as [->| ->]; [reflexivity | now destruct force]).
  unfold fetchAesKey, fetchAesKey_request, loadPrivateKey,
    loadPrivateKeyFromPfx.
  now rewrite Hnone, Hk, Hfs.
Qed.

Lemma fetchAesKey_missing_pfx_witness :
  fetchAesKey sample_config missing_pfx_world false (new_KeyClient "1")
  = {| result :=
         Throw (AuthenticationException "PFX file not found: client.pfx");
       final := new_KeyClient "1";
       posts := [] |}.
Proof.
  apply (fetchAesKey_missing_pfx sample_config missing_pfx_world false
           (new_KeyClient "1")); [reflexivity | reflexivity | now right].
Defined.

End KeyCache.

(* ================================================================== *)
(** ** Dispatch *)
(* ================================================================== *)

Module Dispatch.
Import CryptoUtils BaseClient.

Section WithPlatform.
Context {P : Platform}.
Variable parse_envelope : string -> Result (Envelope string).

Lemma lookup_truthy (key code : string) :
  lookup INTERFACES key = Some code -> truthy_string code = true.
Proof.
  unfold INTERFACES.
  repeat (cbn [lookup];
          match goal with
          | |- (if String.eqb ?k key then _ else _) = _ -> _ =>
              destruct (String.eqb k key);
              [intros H; injection H as <-; reflexivity|]
          end).
  discriminate.
Qed.

Lemma INTERFACES_get_own (key code : string) :
  lookup INTERFACES key = Some code -> INTERFACES_get key = Some (Code code).
Proof. intros H. unfold INTERFACES_get. now rewrite H. Qed.

Lemma INTERFACES_get_inherited (key : string) :
  In key Object_prototype -> INTERFACES_get key = Some (Inherited key).
Proof.
  unfold Object_prototype. intros H.
  repeat (destruct H as [<-|H]; [reflexivity|]). contradiction.
Qed.

Lemma INTERFACES_get_truthy (key : string) (c : InterfaceCode) :
  INTERFACES_get key = Some c -> truthy_InterfaceCode c = true.
Proof.
  unfold INTERFACES_get.
  destruct (lookup INTERFACES key) as [code|] eqn:Hl.
  - intros H. injection H as <-. exact (lookup_truthy key code Hl).
  - destruct (existsb _ _); [|discriminate].
    intros H. now injection H as <-.
Qed.

Lemma INTERFACES_get_None (key : string) :
  INTERFACES_get key = None
  <-> lookup INTERFACES key = None /\ ~ In key Object_prototype.
Proof.
  unfold INTERFACES_get. split.
  - destruct (lookup INTERFACES key); [discriminate|].
    destruct (existsb (String.eqb key) Object_prototype) eqn:E;
      [discriminate|].
    intros _. split; [reflexivity|]. intros Hin.
    assert (Ht : existsb (String.eqb key) Object_prototype = true)
      by (apply existsb_exists; exists key; split;
          [exact Hin | apply String.eqb_refl]).
    congruence.
  - intros [-> Hnot].
    destruct (existsb (String.eqb key) Object_prototype) eqn:E;
      [|reflexivity].
    apply existsb_exists in E. destruct E as (x & Hin & Hx).
    apply String.eqb_eq in Hx. subst x. contradiction.
Qed.

(** [send] from the point where the interface code is known. *)
Lemma send_configured (cfg : Config) (kcfg : KeyClient.Config) (w : World)
    (interfaceKey : string) (interfaceCode : InterfaceCode) (payload : json)
    (encrypt decrypt : bool) (s : KeyClient.State) :
  INTERFACES_get interfaceKey = Some interfaceCode ->
  let run := KeyClient.fetchAesKey kcfg (key_world w) false s in
  send parse_envelope cfg kcfg w interfaceKey payload encrypt decrypt s
  = match KeyClient.result run with
    | Throw e =>
        {| value := Throw e;
           after := KeyClient.final run;
           sent := KeyClient.posts run |}
    | Ok aesKey =>
        match KeyClient.loadPrivateKey kcfg (key_world w)
                (KeyClient.final run) with
        | (Throw e, s2) =>
            {| value := Throw e; after := s2; sent := KeyClient.posts run |}
        | (Ok privateKey, s2) =>
            let brn := match brn cfg with Some b => b | None => "" end in
            match
              (if encrypt && truthy_string aesKey
               then
                 buildEncryptedRequest
                   (KeyClient.ambient (key_world w)) payload aesKey
                   interfaceCode (tin cfg) (device_no cfg) brn
                   privateKey (KeyClient.getTaxpayerId s2)
               else
                 Ok (buildUnencryptedRequest
                       (KeyClient.ambient (key_world w)) payload
                       interfaceCode (tin cfg) (device_no cfg) brn
                       (Some privateKey) (KeyClient.getTaxpayerId s2)))
            with
            | Throw e =>
                {| value := Throw e; after := s2;
                   sent := KeyClient.posts run |}
            | Ok requestEnvelope =>
                {| value :=
                     (let* response :=
                        httpPost w (getEndpointUrl cfg) requestEnvelope in
                      let '(status_code, body) := response in
                      if negb (status_code =? 200)
                      then
                        Throw (APIException
                                 ("HTTP " ++ string_of_Z status_code
                                  ++ ": " ++ body)%string
                                 (Some (string_of_Z status_code)))
                      else
                        let* respJson := parse_envelope body in
                        unwrapResponse respJson
                          (if decrypt then Some aesKey else None));
                   after := s2;
                   sent := KeyClient.posts run
                           ++ [(getEndpointUrl cfg, requestEnvelope)] |}
            end
        end
    end.
Proof.
  intros Hl run. unfold send. rewrite Hl, (INTERFACES_get_truthy _ _ Hl).
  reflexivity.
Qed.

End WithPlatform.

(** X24. What [send] refuses.  An operation name that [INTERFACES] neither
    holds nor inherits from [Object.prototype] ends [send] at once: it raises
    [APIException] with status 400 and the name in the message, asks for no
    session key, sends nothing and leaves the key client as it is.  This is
    what happens for the names [credit_application_detail],
    [query_commodity_category], [query_commodity_category_page] and
    [commodity_incremental], which [Client] passes to [send].  A name that
    the table inherits (['toString'], ['constructor'], ...) is not refused,
    although the table does not hold it: [send] asks for the session key,
    and when it has the key and the private key, an unencrypted [send] puts
    a request on the wire whose interface code is the inherited member. *)
Theorem send_unknown_interface {P : Platform}
    (parse_envelope : string -> Result (Envelope string))
    (cfg : Config) (kcfg : KeyClient.Config) (w : World) (payload : json)
    (encrypt decrypt : bool) (s : KeyClient.State) :
  (forall interfaceKey,
     lookup INTERFACES interfaceKey = None ->
     ~ In interfaceKey Object_prototype ->
     send parse_envelope cfg kcfg w interfaceKey payload encrypt decrypt s
     = {| value :=
            Throw (APIException
                     ("Interface [" ++ interfaceKey ++ "] not configured")%string
                     (Some "400"%string));
          after := s;
          sent := [] |})
  /\ (forall interfaceKey,
        In interfaceKey
          ["credit_application_detail"%string;
           "query_commodity_category"%string;
           "query_commodity_category_page"%string;
           "commodity_incremental"%string] ->
        lookup INTERFACES interfaceKey = None
        /\ ~ In interfaceKey Object_prototype)
  /\ (forall interfaceKey,
        In interfaceKey Object_prototype ->
        let run := KeyClient.fetchAesKey kcfg (key_world w) false s in
        lookup INTERFACES interfaceKey = None
        /\ (forall e,
              KeyClient.result run = Throw e ->
              send parse_envelope cfg kcfg w interfaceKey payload encrypt
                decrypt s
              = {| value := Throw e;
                   after := KeyClient.final run;
                   sent := KeyClient.posts run |})
        /\ (forall aesKey privateKey,
              KeyClient.result run = Ok aesKey ->
              fst (KeyClient.loadPrivateKey kcfg (key_world w)
                     (KeyClient.final run)) = Ok privateKey ->
              exists requestEnvelope info,
                sent (send parse_envelope cfg kcfg w interfaceKey payload
                        false decrypt s)
                = KeyClient.posts run
                  ++ [(getEndpointUrl cfg, requestEnvelope)]
                /\ globalInfo requestEnvelope = Some info
                /\ CryptoUtils.interfaceCode info = Inherited interfaceKey)).
Proof.
  split; [|split].
  - intros interfaceKey Hl Hnot. unfold send.
    now rewrite (proj2 (INTERFACES_get_None interfaceKey) (conj Hl Hnot)).
  - intros interfaceKey [<-|[<-|[<-|[<-|[]]]]];
      (split; [reflexivity|]);
      unfold Object_prototype; cbn [In];
      intros H; repeat (destruct H as [H|H]; [discriminate H|]);
      exact H.
  - intros interfaceKey Hin run.
    pose proof (INTERFACES_get_inherited interfaceKey Hin) as Hget.
    split; [|split].
    + unfold Object_prototype in Hin.
      repeat (destruct Hin as [<-|Hin]; [reflexivity|]). contradiction.
    + intros e He.
      rewrite (send_configured parse_envelope cfg kcfg w interfaceKey
                 (Inherited interfaceKey) payload encrypt decrypt s Hget).
      cbv zeta. fold run. now rewrite He.
    + intros aesKey privateKey Hres Hload.
      rewrite (send_configured parse_envelope cfg kcfg w interfaceKey
                 (Inherited interfaceKey) payload false decrypt s Hget).
      cbv zeta. fold run. rewrite Hres.
      destruct (KeyClient.loadPrivateKey kcfg (key_world w)
                  (KeyClient.final run)) as [r s2].
      cbn [fst] in Hload. subst r. cbn [andb sent].
      eexists.
      exists (buildGlobalInfo (KeyClient.ambient (key_world w))
                (Inherited interfaceKey) (tin cfg) (device_no cfg)
                (match brn cfg with Some b => b | None => ""%string end)
                "admin" "32.5825" "0.3476" (KeyClient.getTaxpayerId s2)).
      split; [reflexivity|]. unfold buildUnencryptedRequest.
      destruct (truthy_json payload && (Object_keys_length payload >? 0));
        split; reflexivity.
Qed.

(** A [send] under the name ['toString'] in the sample world: the handshake,
    then a request for an interface that is no code. *)
Example send_inherited_name :
  exists handshake requestEnvelope info,
    sent (send sample_parse_envelope sample_client_config sample_config
            sample_client_world "toString" (JObj []) false false
            (KeyClient.new_KeyClient "1"))
    = [handshake; (getEndpointUrl sample_client_config, requestEnvelope)]
    /\ globalInfo requestEnvelope = Some info
    /\ CryptoUtils.interfaceCode info = Inherited "toString".
Proof. do 3 eexists. split; [reflexivity|]. split; reflexivity. Qed.

(** X25. The traffic of [send] for a configured operation.  [send] first
    runs [fetchAesKey] without force, for unencrypted calls too.  If that
    fails, [send] fails with the same error and nothing more is sent.
    Otherwise at most one more request follows, to the endpoint of the
    client's configuration; and [send] leaves the cached session key as
    [fetchAesKey] left it. *)
Theorem send_traffic {P : Platform}
    (parse_envelope : string -> Result (Envelope string))
    (cfg : Config) (kcfg : KeyClient.Config) (w : World)
    (interfaceKey interfaceCode : string) (payload : json)
    (encrypt decrypt : bool) (s : KeyClient.State) :
  lookup INTERFACES interfaceKey = Some interfaceCode ->
  let run := KeyClient.fetchAesKey kcfg (key_world w) false s in
  let out :=
    send parse_envelope cfg kcfg w interfaceKey payload encrypt decrypt s in
  (forall e, KeyClient.result run = Throw e ->
             out = {| value := Throw e;
                      after := KeyClient.final run;
                      sent := KeyClient.posts run |})
  /\ (sent out = KeyClient.posts run
      \/ exists requestEnvelope,
           sent out
           = KeyClient.posts run ++ [(getEndpointUrl cfg, requestEnvelope)])
  /\ KeyClient.same_cache (KeyClient.final run) (after out).
Proof.
  intros Hl run out. subst out.
  rewrite (send_configured parse_envelope cfg kcfg w interfaceKey
             interfaceCode payload encrypt decrypt s
             (INTERFACES_get_own _ _ Hl)).
  cbv zeta. fold run.
  destruct (KeyClient.result run) as [aesKey|e0].
  2:{ split; [intros e He; congruence|].
      split; [now left | apply SessionKey.same_cache_refl]. }
  split; [discriminate|].
  pose proof (SessionKey.loadPrivateKey_same_cache kcfg (key_world w)
                (KeyClient.final run)) as Hsame.
  destruct (KeyClient.loadPrivateKey kcfg (key_world w) (KeyClient.final run))
    as [[pk|e1] s2]; cbn [snd] in Hsame.
  2:{ split; [now left | exact Hsame]. }
  match goal with
  | |- context [match ?b with Ok _ => _ | Throw _ => _ end] =>
      destruct b as [env|e2]
  end.
  - split; [right; eexists; reflexivity | exact Hsame].
  - split; [now left | exact Hsame].
Qed.

Lemma send_traffic_witness :
  let run :=
    KeyClient.fetchAesKey sample_config
      (key_world sample_client_world) false (KeyClient.new_KeyClient "1") in
  let out :=
    send sample_parse_envelope sample_client_config sample_config
      sample_client_world "get_server_time" (JObj []) false false
      (KeyClient.new_KeyClient "1") in
  (forall e, KeyClient.result run = Throw e ->
             out = {| value := Throw e;
                      after := KeyClient.final run;
                      sent := KeyClient.posts run |})
  /\ (sent out = KeyClient.posts run
      \/ exists requestEnvelope,
           sent out
           = KeyClient.posts run
             ++ [(getEndpointUrl sample_client_config, requestEnvelope)])
  /\ KeyClient.same_cache (KeyClient.final run) (after out).
Proof.
  exact (send_traffic sample_parse_envelope sample_client_config
           sample_config sample_client_world "get_server_time" "T101"
           (JObj []) false false (KeyClient.new_KeyClient "1") eq_refl).
Defined.

Lemma not_self_app {A : Type} (l : list A) (x : A) : l <> l ++ [x].
Proof.
  intros H. apply (f_equal (@List.length A)) in H.
  rewrite length_app in H. cbn in H. lia.
Qed.

(** X26. What an encrypted [send] puts on the wire.  In any state the key
    client can reach, when the session key is obtained and the private key
    loads, [send] with [encrypt] set sends, after the traffic of
    [fetchAesKey], one envelope to the endpoint: its description is code type
    ['1'], encrypt code ['2'], zip code ['0']; its content decrypts under
    the session key to [JSON.stringify(payload)]; its signature is the
    RSA-SHA1 signature of that content; and it is addressed with the
    interface code of the operation and the tax and device identifiers of the
    configuration. *)
Theorem send_encrypted_request {P : Platform} (L : CodecLaws P)
    (parse_envelope : string -> Result (Envelope string))
    (cfg : Config) (kcfg : KeyClient.Config) (w : World)
    (interfaceKey interfaceCode : string) (payload : json) (decrypt : bool)
    (s : KeyClient.State) (aesKey : string) (privateKey : PrivateKey) :
  lookup INTERFACES interfaceKey = Some interfaceCode ->
  KeyClient.Reachable kcfg s ->
  let run := KeyClient.fetchAesKey kcfg (key_world w) false s in
  KeyClient.result run = Ok aesKey ->
  fst (KeyClient.loadPrivateKey kcfg (key_world w) (KeyClient.final run))
  = Ok privateKey ->
  exists requestEnvelope d c info,
    sent (send parse_envelope cfg kcfg w interfaceKey payload true decrypt s)
    = KeyClient.posts run ++ [(getEndpointUrl cfg, requestEnvelope)]
    /\ data requestEnvelope = Some d
    /\ content d = Some c
    /\ dataDescription d
       = Some {| codeType := Some "1"%string;
                 encryptCode := Some "2"%string;
                 zipCode := Some "0"%string |}
    /\ decryptAesEcb c (Some aesKey) (Some "2"%string) (Some "0"%string)
       = Ok (JSON_stringify payload)
    /\ signature d = Some (signRsaSha1 c privateKey)
    /\ globalInfo requestEnvelope = Some info
    /\ CryptoUtils.interfaceCode info = interfaceCode
    /\ CryptoUtils.tin info = tin cfg
    /\ CryptoUtils.deviceNo info = device_no cfg.
Proof.
  intros Hl Hreach run Hres Hload.
  destruct (KeyCache.fetched_key_wellformed kcfg (key_world w) false s aesKey
              (KeyCache.Reachable_wellformed kcfg s Hreach) Hres)
    as (b & Hb & Hv).
  assert (Hk : valid_key_length (Buffer_length (normalizeAesKey aesKey)))
    by (rewrite Hb; now rewrite HexKeys.normalizeAesKey_toString_hex).
  destruct (EnvelopeFlow.encrypted_text (JSON_stringify payload) aesKey Hk
              (JSON_stringify_wellformed payload))
    as [_ Hdec].
  rewrite (send_configured parse_envelope cfg kcfg w interfaceKey
             interfaceCode payload true decrypt s
             (INTERFACES_get_own _ _ Hl)).
  cbv zeta. fold run. rewrite Hres.
  destruct (KeyClient.loadPrivateKey kcfg (key_world w) (KeyClient.final run))
    as [r s2]. cbn [fst] in Hload. subst r.
  rewrite (KeyCache.wellformed_truthy aesKey b Hb Hv). cbn [andb].
  unfold buildEncryptedRequest.
  rewrite (Codec.encryptAesEcb_valid_key (JSON_stringify payload) aesKey Hk).
  cbn [bind sent]. do 4 eexists.
  split; [reflexivity|]. cbn [data content dataDescription signature globalInfo].
  split; [reflexivity|]. split; [reflexivity|]. split; [reflexivity|].
  split; [exact Hdec|]. repeat split.
Qed.

Lemma send_encrypted_request_witness :
  let run :=
    KeyClient.fetchAesKey sample_config (key_world sample_client_world) false
      (KeyClient.new_KeyClient "1") in
  exists requestEnvelope d c info,
    sent (send sample_parse_envelope sample_client_config sample_config
            sample_client_world "billing_upload" (JObj []) true false
            (KeyClient.new_KeyClient "1"))
    = KeyClient.posts run
      ++ [(getEndpointUrl sample_client_config, requestEnvelope)]
    /\ data requestEnvelope = Some d
    /\ content d = Some c
    /\ dataDescription d
       = Some {| codeType := Some "1"%string;
                 encryptCode := Some "2"%string;
                 zipCode := Some "0"%string |}
    /\ @decryptAesEcb sample_platform c
         (Some "30313233343536373839616263646566"%string)
         (Some "2"%string) (Some "0"%string)
       = Ok "{}"%string
    /\ signature d = Some (@signRsaSha1 sample_platform c tt)
    /\ globalInfo requestEnvelope = Some info
    /\ CryptoUtils.interfaceCode info = "T109"%string
    /\ CryptoUtils.tin info = "1000000001"%string
    /\ CryptoUtils.deviceNo info = "TCS0001"%string.
Proof.
  exact (send_encrypted_request Codec.sample_platform_laws
           sample_parse_envelope sample_client_config sample_config
           sample_client_world "billing_upload" "T109" (JObj []) false
           (KeyClient.new_KeyClient "1")
           "30313233343536373839616263646566" tt eq_refl
           (KeyClient.reach_new sample_config "1") eq_refl eq_refl).
Defined.

(** X27. A [send] that does not ask for decryption cannot read an encrypted
    response.  When the request of [send] went out and was answered with
    status 200 and a body that reads as an envelope of code type ['1'] with
    content, [send] with [decrypt] unset hands no key to [unwrapResponse],
    and raises [EncryptionException], although it holds the session key. *)
Theorem send_without_decrypt {P : Platform}
    (parse_envelope : string -> Result (Envelope string))
    (cfg : Config) (kcfg : KeyClient.Config) (w : World)
    (interfaceKey : string) (payload : json) (encrypt : bool)
    (s : KeyClient.State) (requestEnvelope respJson : Envelope string)
    (body : json) (d : DataSection string) :
  let run := KeyClient.fetchAesKey kcfg (key_world w) false s in
  let out :=
    send parse_envelope cfg kcfg w interfaceKey payload encrypt false s in
  sent out = KeyClient.posts run ++ [(getEndpointUrl cfg, requestEnvelope)] ->
  axios_request w (getEndpointUrl cfg) requestEnvelope = Resolved 200 body ->
  parse_envelope (JSON_stringify body) = Ok respJson ->
  data respJson = Some d ->
  truthy_string (content_text respJson) = true ->
  described d codeType = "1"%string ->
  value out
  = Throw (EncryptionException
             "Response processing failed: Encrypted response but no AES key provided").
Proof.
  intros run out Hsent Hreply Hparse Hd Hc Hct. subst out.
  destruct (INTERFACES_get interfaceKey) as [code|] eqn:Hl.
  2:{ exfalso. revert Hsent. unfold send. rewrite Hl. cbn [sent].
      destruct (KeyClient.posts run); discriminate. }
  revert Hsent.
  rewrite (send_configured parse_envelope cfg kcfg w interfaceKey code
             payload encrypt false s Hl).
  cbv zeta. fold run.
  destruct (KeyClient.result run) as [aesKey|e0];
    [|cbn [sent]; intros H; now apply not_self_app in H].
  destruct (KeyClient.loadPrivateKey kcfg (key_world w) (KeyClient.final run))
    as [[pk|e1] s2];
    [|cbn [sent]; intros H; now apply not_self_app in H].
  match goal with
  | |- context [match ?b with Ok _ => _ | Throw _ => _ end] =>
      destruct b as [env|e2]
  end; [|cbn [sent]; intros H; now apply not_self_app in H].
  cbn [sent value]. intros Hsent.
  apply app_inv_head in Hsent. injection Hsent as ->.
  unfold httpPost. rewrite Hreply. cbn [bind]. cbn [Z.eqb Pos.eqb negb].
  rewrite Hparse. cbn [bind].
  rewrite (EnvelopeFlow.unwrapResponse_content respJson d None Hd Hc).
  rewrite Hct. reflexivity.
Qed.

Lemma send_without_decrypt_witness :
  value
    (send sample_parse_envelope sample_client_config sample_config
       sample_client_world "get_server_time" (JObj []) false false
       (KeyClient.new_KeyClient "1"))
  = Throw (EncryptionException
             "Response processing failed: Encrypted response but no AES key provided").
Proof.
  eapply (send_without_decrypt sample_parse_envelope sample_client_config
            sample_config sample_client_world "get_server_time" (JObj [])
            false (KeyClient.new_KeyClient "1") _ _ (JObj []));
    reflexivity.
Defined.

End Dispatch.

(* ================================================================== *)
(** ** Refreshing the key *)
(* ================================================================== *)

Module KeyRefresh.
Import CryptoUtils BaseClient Client.

(** X28. [refreshAesKeyIfNeeded] against [isAesKeyValid].  A key that is
    valid at the clock reading is never refreshed: the call returns [false],
    sends nothing and changes nothing.  With a timestamp in the object, the
    call refreshes by a forced [fetchAesKey] exactly when the clock has
    passed the second after the time to live, so during the one second at
    which the key has just expired it still returns [false] for a key that
    [isAesKeyValid] no longer accepts.  With neither timestamp nor key, it
    runs [fetchAesKey] without force. *)
Theorem refreshAesKeyIfNeeded_threshold {P : Platform}
    (kcfg : KeyClient.Config) (w : KeyClient.World) (now : Z)
    (s : KeyClient.State) :
  let unchanged : Outcome bool :=
    {| value := Ok false; after := s; sent := [] |} in
  (KeyClient.isAesKeyValid now s = true ->
   refreshAesKeyIfNeeded kcfg w now s = unchanged)
  /\ (forall fetchedAt,
        KeyClient._aesKeyFetchedAt s = Some fetchedAt -> fetchedAt <> 0 ->
        let expiry := 1000 * (fetchedAt + KeyClient._aesKeyTtlSeconds) in
        (now < expiry + 1000 ->
         refreshAesKeyIfNeeded kcfg w now s = unchanged)
        /\ (expiry <= now -> KeyClient.isAesKeyValid now s = false)
        /\ (expiry + 1000 <= now ->
            after (refreshAesKeyIfNeeded kcfg w now s)
            = KeyClient.final (KeyClient.fetchAesKey kcfg w true s)
            /\ sent (refreshAesKeyIfNeeded kcfg w now s)
               = KeyClient.posts (KeyClient.fetchAesKey kcfg w true s)))
  /\ (KeyClient._aesKeyFetchedAt s = None -> KeyClient._aesKey s = None ->
      after (refreshAesKeyIfNeeded kcfg w now s)
      = KeyClient.final (KeyClient.fetchAesKey kcfg w false s)
      /\ sent (refreshAesKeyIfNeeded kcfg w now s)
         = KeyClient.posts (KeyClient.fetchAesKey kcfg w false s)).
Proof.
  intros unchanged.
  assert (Hts : forall t,
            KeyClient._aesKeyFetchedAt s = Some t -> t <> 0 ->
            (now < 1000 * (t + KeyClient._aesKeyTtlSeconds) + 1000 ->
             refreshAesKeyIfNeeded kcfg w now s = unchanged)
            /\ (1000 * (t + KeyClient._aesKeyTtlSeconds) + 1000 <= now ->
                after (refreshAesKeyIfNeeded kcfg w now s)
                = KeyClient.final (KeyClient.fetchAesKey kcfg w true s)
                /\ sent (refreshAesKeyIfNeeded kcfg w now s)
                   = KeyClient.posts (KeyClient.fetchAesKey kcfg w true s))).
  { intros t Ht Hnz. unfold refreshAesKeyIfNeeded, KeyClient.getAesKeyFetchedAt.
    rewrite Ht. destruct (Z.eqb_spec t 0) as [|_]; [contradiction|].
    unfold KeyClient._aesKeyTtlSeconds.
    destruct (Z.gtb_spec (now / 1000 - t) (23 * 60 * 60)) as [Hgt|Hle].
    - split; [intros Hlt; exfalso; lia_div | intros _; split; reflexivity].
    - split; [reflexivity | intros Hge; exfalso; lia_div]. }
  split; [|split].
  3:{ intros Ht Hk. unfold refreshAesKeyIfNeeded, KeyClient.getAesKeyFetchedAt,
        KeyClient.getAesKey. rewrite Ht, Hk. split; reflexivity. }
  - intros Hv. unfold KeyClient.isAesKeyValid in Hv.
    destruct (KeyClient._aesKey s) as [k|] eqn:Hk; [|discriminate].
    destruct (KeyClient._aesKeyFetchedAt s) as [t|] eqn:Ht; [|discriminate].
    apply andb_true_iff in Hv. destruct Hv as [Hv Hfresh].
    apply andb_true_iff in Hv. destruct Hv as [_ Hnz].
    apply Z.ltb_lt in Hfresh.
    destruct (Z.eqb_spec t 0) as [|Hnz']; [discriminate|].
    apply (Hts t eq_refl Hnz'). lia.
  - intros t Ht Hnz expiry. subst expiry.
    destruct (Hts t Ht Hnz) as [Hkeep Hfetch].
    split; [exact Hkeep|]. split; [|exact Hfetch].
    intros Hexp. unfold KeyClient.isAesKeyValid. rewrite Ht.
    destruct (KeyClient._aesKey s) as [k|]; [|reflexivity].
    destruct (Z.ltb_spec (now - 1000 * t)
                (1000 * KeyClient._aesKeyTtlSeconds)) as [Hlt|_];
      [lia | now rewrite andb_false_r].
Qed.

End KeyRefresh.

(* ================================================================== *)
(** ** Clock synchronisation *)
(* ================================================================== *)

Module TimeSync.
Import TimeUtils.

Section WithLuxon.
Variable fromFormat : string -> string -> option Z.
Variable toFormat : Z -> string -> string.

Lemma parseTime_from_strict (fmts : list string) (timeStr : string) (dt : Z) :
  parseTime_from fromFormat toFormat fmts timeStr = Some dt ->
  exists fmt, In fmt fmts /\ fromFormat timeStr fmt = Some dt
              /\ toFormat dt fmt = timeStr.
Proof.
  induction fmts as [|fmt rest IH]; [discriminate|].
  cbn [parseTime_from].
  destruct (fromFormat timeStr fmt) as [d|] eqn:Hf.
  - destruct (String.eqb_spec (toFormat d fmt) timeStr) as [He|_].
    + intros H. injection H as <-. exists fmt. repeat split; trivial.
      now left.
    + intros H. destruct (IH H) as (f & Hin & H1 & H2).
      exists f. repeat split; trivial. now right.
  - intros H. destruct (IH H) as (f & Hin & H1 & H2).
    exists f. repeat split; trivial. now right.
Qed.

End WithLuxon.

(** X29. [validateTimeSync] compares two instants and nothing else: it is
    symmetric in the client time and the server time; a time that parses is
    in sync with itself under every tolerance that is not negative; a pair
    accepted under one tolerance is accepted under every larger one; and a
    time that does not parse is in sync with nothing. *)
Theorem validateTimeSync_properties
    (fromFormat : string -> string -> option Z)
    (toFormat : Z -> string -> string)
    (clientTime serverTime : string) (toleranceMinutes : Z) :
  validateTimeSync fromFormat toFormat clientTime serverTime toleranceMinutes
  = validateTimeSync fromFormat toFormat serverTime clientTime
      toleranceMinutes
  /\ (parseTime fromFormat toFormat clientTime <> None ->
      0 <= toleranceMinutes ->
      validateTimeSync fromFormat toFormat clientTime clientTime
        toleranceMinutes = true)
  /\ (forall larger,
        toleranceMinutes <= larger ->
        validateTimeSync fromFormat toFormat clientTime serverTime
          toleranceMinutes = true ->
        validateTimeSync fromFormat toFormat clientTime serverTime larger
        = true)
  /\ (parseTime fromFormat toFormat clientTime = None
      \/ parseTime fromFormat toFormat serverTime = None ->
      validateTimeSync fromFormat toFormat clientTime serverTime
        toleranceMinutes = false).
Proof.
  unfold validateTimeSync.
  destruct (parseTime fromFormat toFormat clientTime) as [c|];
    destruct (parseTime fromFormat toFormat serverTime) as [v|].
  - split.
    + destruct (Z.leb_spec (Z.abs (v - c)) (toleranceMinutes * 60 * 1000));
        destruct (Z.leb_spec (Z.abs (c - v)) (toleranceMinutes * 60 * 1000));
        try reflexivity; lia.
    + split; [intros _ Ht; apply Z.leb_le; lia|].
      split; [|intros [H|H]; discriminate].
      intros larger Hle H. apply Z.leb_le in H. apply Z.leb_le. lia.
  - split; [reflexivity|]. split; [intros _ Ht; apply Z.leb_le; lia|].
    split; [discriminate | reflexivity].
  - split; [reflexivity|]. split; [intros H; now elim H|].
    split; [discriminate | reflexivity].
  - split; [reflexivity|]. split; [intros H; now elim H|].
    split; [discriminate | reflexivity].
Qed.

(** X30. [validateTimeSync] accepts only times written exactly in one of its
    two formats: when it returns [true], each of the two texts was read in
    one of the formats ['yyyy-MM-dd HH:mm:ss'] and ['dd/MM/yyyy HH:mm:ss'],
    writing the instant read back in that format gives the text again, and
    the two instants differ by no more than the tolerance. *)
Theorem validateTimeSync_strict
    (fromFormat : string -> string -> option Z)
    (toFormat : Z -> string -> string)
    (clientTime serverTime : string) (toleranceMinutes : Z) :
  validateTimeSync fromFormat toFormat clientTime serverTime toleranceMinutes
  = true ->
  exists clientDt serverDt clientFmt serverFmt,
    In clientFmt formats /\ In serverFmt formats
    /\ fromFormat clientTime clientFmt = Some clientDt
    /\ toFormat clientDt clientFmt = clientTime
    /\ fromFormat serverTime serverFmt = Some serverDt
    /\ toFormat serverDt serverFmt = serverTime
    /\ Z.abs (serverDt - clientDt) <= toleranceMinutes * 60 * 1000.
Proof.
  unfold validateTimeSync, parseTime.
  destruct (parseTime_from fromFormat toFormat formats clientTime) as [c|]
    eqn:Hc; [|discriminate].
  destruct (parseTime_from fromFormat toFormat formats serverTime) as [v|]
    eqn:Hv; [|discriminate].
  intros H. apply Z.leb_le in H.
  destruct (parseTime_from_strict _ _ _ _ _ Hc) as (fc & Hic & Hfc & Htc).
  destruct (parseTime_from_strict _ _ _ _ _ Hv) as (fv & Hiv & Hfv & Htv).
  exists c, v, fc, fv. repeat split; assumption.
Qed.

Lemma validateTimeSync_strict_witness :
  exists clientDt serverDt clientFmt serverFmt,
    In clientFmt formats /\ In serverFmt formats
    /\ sample_fromFormat "t0" clientFmt = Some clientDt
    /\ sample_toFormat clientDt clientFmt = "t0"%string
    /\ sample_fromFormat "t1" serverFmt = Some serverDt
    /\ sample_toFormat serverDt serverFmt = "t1"%string
    /\ Z.abs (serverDt - clientDt) <= 10 * 60 * 1000.
Proof.
  exact (validateTimeSync_strict sample_fromFormat sample_toFormat
           "t0" "t1" 10 eq_refl).
Defined.

End TimeSync.
